(** * Boat booking: checkout and payment-webhook handlers

    A shallow embedding of the two Express handlers that make up the
    reservation and settlement core of the backend:

    - [POST /create-checkout-session] (src/backend/src/routes/checkoutRoutes.ts)
    - [POST /webhook]                 (src/backend/src/routes/webhookRoutes.ts)

    together with the part of the Prisma schema they touch (Boat, Booking and
    the foreign keys of Booking).  JavaScript numbers are IEEE 754 binary64
    values, modelled by Rocq's primitive floats. *)

From Stdlib Require Import ZArith Lia Floats.
From stdpp Require Import base strings gmap.

Local Open Scope Z_scope.

(** ** JavaScript values *)

(** A value found in a parsed JSON request body.  [JUndefined] is what reading
    a missing property gives. *)
#[warnings="-register-all"]
Inductive JsVal : Type :=
  | JUndefined
  | JNull
  | JBool (b : bool)
  | JNum (x : float)
  | JStr (s : string)
  | JArr (items : list JsVal)
  | JObj (fields : list (string * JsVal)).

Definition is_nan (x : float) : bool := negb (PrimFloat.eqb x x).

(** ToBoolean: [undefined], [null], [false], [+0], [-0], [NaN] and the empty
    string are falsy, everything else is truthy. *)
Definition truthy (v : JsVal) : bool :=
  match v with
  | JUndefined | JNull => false
  | JBool b => b
  | JNum x => negb (PrimFloat.eqb x 0%float || is_nan x)
  | JStr s => negb (String.eqb s "")
  | JArr _ | JObj _ => true
  end.

(** [v === 'lit'] for a string literal. *)
Definition strict_eq_str (v : JsVal) (lit : string) : bool :=
  match v with
  | JStr s => String.eqb s lit
  | _ => false
  end.

(** A [Date] object: its time value in milliseconds, or Invalid Date. *)
Inductive JsDate : Type :=
  | InvalidDate
  | TimeValue (ms : Z).

(** The pieces of the JavaScript runtime the handlers rely on and that are
    not part of the repository. *)
Class JsRuntime : Type := {
  StringToNumber : string -> float;        (* ToNumber on a string *)
  ObjectToNumber : JsVal -> float;         (* ToNumber on an array or object *)
  ToString : JsVal -> string;              (* template-literal interpolation *)
  Date_new : JsVal -> JsDate;              (* new Date(v) *)
  Date_toLocaleString : JsDate -> string;
  Math_round : float -> float
}.

Section Coercions.
Context `{JsRuntime}.

(** ToNumber, applied by [*] to its operands. *)
Definition ToNumber (v : JsVal) : float :=
  match v with
  | JUndefined => nan
  | JNull => 0%float
  | JBool true => 1%float
  | JBool false => 0%float
  | JNum x => x
  | JStr s => StringToNumber s
  | JArr _ | JObj _ => ObjectToNumber v
  end.
End Coercions.

(** The request body as parsed by [express.json()]: an object; reading a
    property that is not there gives [undefined]. *)
Definition prop (body : gmap string JsVal) (k : string) : JsVal :=
  default JUndefined (body !! k).

(** ** The Prisma schema *)

Inductive BoatType : Type := SMALL | NORMAL | SPEED_BOAT | MOTOR_YACHT.

Module Boat.
Record t : Type := mk {
  name : string;
  type : BoatType;
  portId : string;
  imageUrl : option string;
  hourlyRate : float;
  halfDayRate : float;
  fullDayRate : float
}.
End Boat.

Module Booking.
Record t : Type := mk {
  userId : option string;
  boatId : option string;
  portId : option string;
  startTime : Z;
  endTime : Z;
  price : float;
  paid : bool;
  includeCaptain : bool;
  createdAt : Z
}.

(** [data: { paid: true }] *)
Definition set_paid (b : t) : t :=
  mk (userId b) (boatId b) (portId b) (startTime b) (endTime b)
     (price b) true (includeCaptain b) (createdAt b).
End Booking.

(** The database: the ids of the User and Port tables (all the handlers need
    of them is the foreign keys), and the Boat and Booking tables by id. *)
Record Db : Type := mkDb {
  users : gset string;
  ports : gset string;
  boats : gmap string Boat.t;
  bookings : gmap string Booking.t
}.

Definition with_bookings (db : Db) (bs : gmap string Booking.t) : Db :=
  mkDb (users db) (ports db) (boats db) bs.

Inductive PrismaError : Type :=
  | PrismaClientValidationError       (* an argument of the wrong type *)
  | P2002                             (* unique constraint failed *)
  | P2003                             (* foreign key constraint failed *)
  | P2025                             (* record to update not found *)
  | PrismaEngineError (msg : string). (* connection lost, timeout, ... *)

Inductive PrismaOp : Type := BoatFindUnique | BookingCreate | BookingUpdate.

(** ** Stripe *)

Record StripeEvent : Type := mkEvent {
  event_type : string;
  (** [event.data.object.metadata]: a string map, or null *)
  session_metadata : option (gmap string string)
}.

Record CheckoutSession : Type := mkSession {
  session_url : option string;
  session_id : string
}.

Record SessionCreateParams : Type := mkParams {
  success_url : string;
  cancel_url : string;
  currency : string;
  unit_amount : float;
  product_name : string;
  product_description : string;
  quantity : Z;
  metadata : list (string * JsVal)
}.

(** [stripe.webhooks.constructEvent(payload, header, secret)]: checks the
    signature header against the payload and the secret (and the header's
    timestamp against the clock); returns the parsed event or throws an error
    with a message. *)
Class StripeWebhooks : Type := {
  constructEvent : string -> option string -> string -> Z -> string + StripeEvent
}.

(** The webhook request: the body as [express.raw] leaves it and the
    signature header, which may be missing. *)
Record WebhookRequest : Type := mkRequest {
  raw_body : string;
  (** [req.headers['stripe-signature']] *)
  stripe_signature : option string
}.

(** What the outside world contributes to one request: the clock, the uuid the
    database would give a new row, whether a Prisma call fails for a reason
    of its own, and the gateway's answer to a session request. *)
Record World : Type := mkWorld {
  now : Z;
  uuid : string;
  prisma_fault : PrismaOp -> option PrismaError;
  sessions_create : SessionCreateParams -> string + CheckoutSession
}.

Record ProcessEnv : Type := mkEnv {
  STRIPE_WEBHOOK_SECRET : option string;
  CLIENT_URL : option string
}.

(** ** Prisma operations *)

(** [prisma.boat.findUnique({ where: { id } })] *)
Definition boat_findUnique (w : World) (id : JsVal) (db : Db)
  : PrismaError + option Boat.t :=
  match prisma_fault w BoatFindUnique with
  | Some e => inl e
  | None =>
    match id with
    | JStr s => inr (boats db !! s)
    | _ => inl PrismaClientValidationError
    end
  end.

(** An optional [String?] column: a string, or null when null or omitted. *)
Definition optional_string (v : JsVal) : option (option string) :=
  match v with
  | JStr s => Some (Some s)
  | JNull | JUndefined => Some None
  | _ => None
  end.

(** A [Boolean @default(d)] column: a boolean, or the default when omitted. *)
Definition boolean_default (d : bool) (v : JsVal) : option bool :=
  match v with
  | JBool b => Some b
  | JUndefined => Some d
  | _ => None
  end.

Definition date_time (d : JsDate) : option Z :=
  match d with
  | TimeValue ms => Some ms
  | InvalidDate => None
  end.

(** A nullable foreign key holds when it is null or names a row. *)
Definition fk_ok (ref : option string) (ids : gset string) : bool :=
  match ref with
  | None => true
  | Some id => bool_decide (id ∈ ids)
  end.

(** [-Infinity < x < Infinity]: neither NaN nor an infinity. *)
Definition is_finite (x : float) : bool := PrimFloat.ltb (PrimFloat.abs x) infinity.

(** A zero of either sign as zero, any other number as it is. *)
Definition unsigned_zero (x : float) : float :=
  if PrimFloat.eqb x 0 then 0%float else x.

(** A [Float] column: the client refuses NaN and the infinities, and the row
    holds a negative zero as zero. *)
Definition float_column (x : float) : option float :=
  if is_finite x then Some (unsigned_zero x) else None.

Record BookingCreateInput : Type := mkInput {
  data_boatId : JsVal;
  data_portId : JsVal;
  data_userId : JsVal;
  data_startTime : JsDate;
  data_endTime : JsDate;
  data_includeCaptain : JsVal;
  data_price : float;
  data_paid : bool
}.

(** [prisma.booking.create({ data })]: returns the new row and its id.  The
    client refuses arguments that do not fit the column types, the database
    refuses a broken foreign key or a taken id; any other failure is the
    world's [prisma_fault]. *)
Definition booking_create (w : World) (data : BookingCreateInput) (db : Db)
  : PrismaError + (string * Booking.t * Db) :=
  match prisma_fault w BookingCreate with
  | Some e => inl e
  | None =>
    match optional_string (data_userId data), optional_string (data_boatId data),
          optional_string (data_portId data), date_time (data_startTime data),
          date_time (data_endTime data),
          boolean_default false (data_includeCaptain data),
          float_column (data_price data) with
    | Some u, Some b, Some p, Some st, Some en, Some cap, Some price =>
      if negb (fk_ok u (users db) && fk_ok b (dom (boats db)) && fk_ok p (ports db))
      then inl P2003
      else
        match bookings db !! uuid w with
        | Some _ => inl P2002
        | None =>
          let row := Booking.mk u b p st en price (data_paid data) cap (now w) in
          inr (uuid w, row, with_bookings db (<[uuid w := row]> (bookings db)))
        end
    | _, _, _, _, _, _, _ => inl PrismaClientValidationError
    end
  end.

(** [prisma.booking.update({ where: { id }, data: { paid: true } })]: returns
    the updated row. *)
Definition booking_update_paid (w : World) (id : string) (db : Db)
  : PrismaError + (Booking.t * Db) :=
  match prisma_fault w BookingUpdate with
  | Some e => inl e
  | None =>
    match bookings db !! id with
    | None => inl P2025
    | Some b =>
      let row := Booking.set_paid b in
      inr (row, with_bookings db (<[id := row]> (bookings db)))
    end
  end.

(** ** Responses, the console and the handler monad *)

Inductive Body : Type :=
  | Send (text : string)                       (* res.send(text) *)
  | Json (fields : list (string * JsVal)).     (* res.json({...}) *)

Record Response : Type := mkResponse {
  status : Z;
  body : Body
}.

(** What a [catch] clause can receive. *)
Inductive JsError : Type :=
  | PrismaErr (e : PrismaError)
  | StripeErr (msg : string).

Inductive Level : Type := LogInfo | LogWarn | LogError.

(** One console line: the level, the text, and the error object printed after
    it when there is one. *)
Record LogEntry : Type := mkLog {
  level : Level;
  message : string;
  detail : option JsError
}.

(** The state a handler runs in: the database and the console so far. *)
Record St : Type := mkSt {
  db : Db;
  console : list LogEntry
}.

(** A handler step ends normally, throws, or sends the response and returns. *)
Inductive Completion (A : Type) : Type :=
  | Normal (a : A)
  | Throw (e : JsError)
  | Return (r : Response).
Arguments Normal {A} a.
Arguments Throw {A} e.
Arguments Return {A} r.

Definition Handler (A : Type) : Type := St -> Completion A * St.

#[global] Instance handler_ret : MRet Handler :=
  fun A (a : A) (s : St) => (Normal a, s).

#[global] Instance handler_bind : MBind Handler :=
  fun A B (k : A -> Handler B) (m : Handler A) (s : St) =>
    match m s with
    | (Normal a, s') => k a s'
    | (Throw e, s') => (Throw e, s')
    | (Return r, s') => (Return r, s')
    end.

Definition throw {A} (e : JsError) : Handler A := fun s => (Throw e, s).

(** [return res.status(code)....] *)
Definition respond {A} (code : Z) (b : Body) : Handler A :=
  fun s => (Return (mkResponse code b), s).

Definition try_catch {A} (block : Handler A) (handler : JsError -> Handler A)
  : Handler A :=
  fun s =>
    match block s with
    | (Throw e, s') => handler e s'
    | other => other
    end.

Definition console_write (l : Level) (msg : string) (d : option JsError)
  : Handler unit :=
  fun s => (Normal tt, mkSt (db s) (console s ++ [mkLog l msg d])).

(** [await prisma....]: a Prisma call that only reads. *)
Definition prisma_read {A} (q : Db -> PrismaError + A) : Handler A :=
  fun s =>
    match q (db s) with
    | inl e => (Throw (PrismaErr e), s)
    | inr a => (Normal a, s)
    end.

(** [await prisma....]: a Prisma call that writes; nothing is written when it
    throws. *)
Definition prisma_write {A} (q : Db -> PrismaError + (A * Db)) : Handler A :=
  fun s =>
    match q (db s) with
    | inl e => (Throw (PrismaErr e), s)
    | inr (a, db') => (Normal a, mkSt db' (console s))
    end.

(** A call into the Stripe client. *)
Definition stripe_call {A} (r : string + A) : Handler A :=
  match r with
  | inl msg => throw (StripeErr msg)
  | inr a => mret a
  end.

(** Running a handler on a request: the response it sent, if any, and the
    state it leaves.  An exception that escapes the handler sends nothing. *)
Definition run (h : Handler unit) (s : St) : option Response * St :=
  match h s with
  | (Return r, s') => (Some r, s')
  | (_, s') => (None, s')
  end.

(** [err.message] *)
Definition error_message (e : JsError) : string :=
  match e with
  | StripeErr msg => msg
  | PrismaErr PrismaClientValidationError => "Invalid invocation"
  | PrismaErr P2002 => "Unique constraint failed"
  | PrismaErr P2003 => "Foreign key constraint failed"
  | PrismaErr P2025 => "Record to update not found."
  | PrismaErr (PrismaEngineError msg) => msg
  end.

(** A template literal's [${process.env.X}]. *)
Definition env_string (v : option string) : string :=
  match v with
  | Some s => s
  | None => "undefined"
  end.

(** The truthiness test on a value that is a string or undefined: undefined
    and the empty string are both falsy. *)
Definition truthy_string (v : option string) : option string :=
  match v with
  | Some s => if String.eqb s "" then None else Some s
  | None => None
  end.

(** ** POST /create-checkout-session *)

Section Handlers.
Context `{JsRuntime} `{StripeWebhooks}.
Variable env : ProcessEnv.

(** Lines 37-52 of checkoutRoutes.ts: the base price by booking type, then
    the captain fee. *)
Definition compute_price (boat : Boat.t)
    (bookingType durationHours includeCaptain : JsVal) : float :=
  let price := 0%float in
  let price :=
    if strict_eq_str bookingType "per_hour"
    then (Boat.hourlyRate boat * ToNumber durationHours)%float
    else if strict_eq_str bookingType "half_day" then Boat.halfDayRate boat
    else if strict_eq_str bookingType "full_day" then Boat.fullDayRate boat
    else price in
  if truthy includeCaptain then
    if strict_eq_str bookingType "per_hour" then (price + 100)%float
    else if strict_eq_str bookingType "half_day" then (price + 200)%float
    else if strict_eq_str bookingType "full_day" then (price + 400)%float
    else price
  else price.

(** The basic validation of line 29. *)
Definition missing_required (body : gmap string JsVal) : bool :=
  negb (truthy (prop body "boatId")) || negb (truthy (prop body "portId"))
  || negb (truthy (prop body "userId")) || negb (truthy (prop body "startTime"))
  || negb (truthy (prop body "endTime")) || negb (truthy (prop body "bookingType")).

Definition session_params (body : gmap string JsVal) (boat : Boat.t)
    (price : float) (booking_id : string) : SessionCreateParams :=
  {| success_url :=
       env_string (CLIENT_URL env) +:+ "/success?bookingId=" +:+ booking_id;
     cancel_url := env_string (CLIENT_URL env) +:+ "/cancel";
     currency := "eur";
     unit_amount := Math_round (price * 100)%float;
     product_name := Boat.name boat;
     product_description :=
       ToString (prop body "bookingType") +:+ " booking from "
       +:+ Date_toLocaleString (Date_new (prop body "startTime")) +:+ " to "
       +:+ Date_toLocaleString (Date_new (prop body "endTime"));
     quantity := 1;
     metadata := [("bookingId", JStr booking_id);
                  ("userId", prop body "userId");
                  ("boatId", prop body "boatId");
                  ("portId", prop body "portId")] |}.

Definition create_checkout_session (w : World) (body : gmap string JsVal)
  : Handler unit :=
  try_catch
    (let boatId := prop body "boatId" in
     let portId := prop body "portId" in
     let userId := prop body "userId" in
     let startTime := prop body "startTime" in
     let endTime := prop body "endTime" in
     let includeCaptain := prop body "includeCaptain" in
     let bookingType := prop body "bookingType" in
     let durationHours := prop body "durationHours" in
     if missing_required body
     then respond 400 (Json [("error", JStr "Missing required booking data")])
     else
       boat ← prisma_read (boat_findUnique w boatId);
       match boat with
       | None => respond 404 (Json [("error", JStr "Boat not found")])
       | Some boat =>
         let price := compute_price boat bookingType durationHours includeCaptain in
         booking ← prisma_write (booking_create w
           {| data_boatId := boatId;
              data_portId := portId;
              data_userId := userId;
              data_startTime := Date_new startTime;
              data_endTime := Date_new endTime;
              data_includeCaptain := includeCaptain;
              data_price := price;
              data_paid := false |});
         session ← stripe_call
           (sessions_create w (session_params body boat price (fst booking)));
         respond 200
           (Json [("url", from_option JStr JNull (session_url session));
                  ("id", JStr (session_id session))])
       end)
    (fun error =>
       console_write LogError "Stripe session error:" (Some error);;
       respond 500
         (Json [("error", JStr "Internal server error during checkout process")])).

(** The [data] argument of the [prisma.booking.create] call above, by name. *)
Definition booking_input (body : gmap string JsVal) (boat : Boat.t)
  : BookingCreateInput :=
  {| data_boatId := prop body "boatId";
     data_portId := prop body "portId";
     data_userId := prop body "userId";
     data_startTime := Date_new (prop body "startTime");
     data_endTime := Date_new (prop body "endTime");
     data_includeCaptain := prop body "includeCaptain";
     data_price := compute_price boat (prop body "bookingType")
                     (prop body "durationHours") (prop body "includeCaptain");
     data_paid := false |}.

(** ** POST /webhook *)

Definition received : Body := Json [("received", JBool true)].

Definition webhook (w : World) (req : WebhookRequest) : Handler unit :=
  let signature := stripe_signature req in
  let webhookSecret := STRIPE_WEBHOOK_SECRET env in
  match truthy_string webhookSecret with
  | None =>
    console_write LogError "STRIPE_WEBHOOK_SECRET is not set!" None;;
    respond 500 (Send "Webhook secret not configured.")
  | Some webhookSecret =>
    event ← try_catch
      (stripe_call (constructEvent (raw_body req) signature webhookSecret (now w)))
      (fun err =>
         console_write LogError ("Webhook Error: " +:+ error_message err) None;;
         respond 400 (Send ("Webhook Error: " +:+ error_message err)));
    (if String.eqb (event_type event) "checkout.session.completed" then
       let bookingId := session_metadata event ≫= (.!! "bookingId") in
       match truthy_string bookingId with
       | Some bookingId =>
         try_catch
           (_ ← prisma_write (booking_update_paid w bookingId);
            console_write LogInfo
              ("Booking " +:+ bookingId +:+ " marked as paid successfully.") None)
           (fun updateError =>
              console_write LogError
                ("Error updating booking " +:+ bookingId +:+ " to paid:")
                (Some updateError))
       | None =>
         console_write LogWarn
           "checkout.session.completed event received without bookingId in metadata."
           None
       end
     else
       console_write LogInfo ("Unhandled event type " +:+ event_type event) None);;
    respond 200 received
  end.
End Handlers.

(** ** Outcomes as the caller sees them *)

(** The bare acknowledgment the webhook ends with: [res.json({ received: true })]. *)
Definition acknowledgment : Response := mkResponse 200 received.

(** A request is rejected when the response carries a 4xx or 5xx status. *)
Definition rejected (r : option Response) : Prop :=
  exists resp, r = Some resp /\ 400 <= status resp.

(** The response of the basic validation. *)
Definition validation_error : Response :=
  mkResponse 400 (Json [("error", JStr "Missing required booking data")]).

Definition boat_not_found : Response :=
  mkResponse 404 (Json [("error", JStr "Boat not found")]).

(** The response and the console line of the handler's [catch] clause. *)
Definition internal_error : Response :=
  mkResponse 500
    (Json [("error", JStr "Internal server error during checkout process")]).

Definition session_error (e : JsError) : LogEntry :=
  mkLog LogError "Stripe session error:" (Some e).

(** The response that carries the session. *)
Definition session_created (session : CheckoutSession) : Response :=
  mkResponse 200
    (Json [("url", from_option JStr JNull (session_url session));
           ("id", JStr (session_id session))]).

(** The fields the basic validation looks at. *)
Definition required_fields : list string :=
  ["boatId"; "portId"; "userId"; "startTime"; "endTime"; "bookingType"].

(** The three booking types the price calculation knows. *)
Definition recognized (bookingType : JsVal) : Prop :=
  bookingType = JStr "per_hour" \/ bookingType = JStr "half_day"
  \/ bookingType = JStr "full_day".

(** The console lines of the settlement branch. *)
Definition marked_as_paid (bookingId : string) : LogEntry :=
  mkLog LogInfo ("Booking " +:+ bookingId +:+ " marked as paid successfully.") None.

Definition update_failed (bookingId : string) (e : PrismaError) : LogEntry :=
  mkLog LogError ("Error updating booking " +:+ bookingId +:+ " to paid:")
        (Some (PrismaErr e)).

Definition without_bookingId : LogEntry :=
  mkLog LogWarn
    "checkout.session.completed event received without bookingId in metadata."
    None.

(** What one delivery of an event reports: the response, and the console lines
    written while it was handled. *)
Definition delivery_report (before after : St) (r : option Response)
  : option Response * list LogEntry :=
  (r, drop (length (console before)) (console after)).

(** ** Non-negative binary64 numbers *)

(** [0 <= x]: a zero of either sign, a positive number or plus infinity. *)
Definition nonneg (x : float) : bool := PrimFloat.leb 0%float x.

(** [0 <= x < Infinity] *)
Definition nonneg_finite (x : float) : bool :=
  PrimFloat.leb 0%float x && PrimFloat.ltb x infinity.

(** The same two classes in the specification format of the floats. *)
Inductive sf_nonneg : spec_float -> Prop :=
  | sf_nonneg_zero s : sf_nonneg (S754_zero s)
  | sf_nonneg_pos m e : sf_nonneg (S754_finite false m e)
  | sf_nonneg_infinity : sf_nonneg (S754_infinity false).

Inductive sf_nonneg_finite : spec_float -> Prop :=
  | sf_nnf_zero s : sf_nonneg_finite (S754_zero s)
  | sf_nnf_pos m e : sf_nonneg_finite (S754_finite false m e).

(** A rate schedule and a duration the price calculation is meant for. *)
Definition valid_rates (boat : Boat.t) : Prop :=
  nonneg_finite (Boat.hourlyRate boat) = true
  /\ nonneg_finite (Boat.halfDayRate boat) = true
  /\ nonneg_finite (Boat.fullDayRate boat) = true.

(** ** A concrete deployment for the examples

    A runtime and a signature scheme small enough to run: dates are looked up
    in a table, rounding is only used on whole numbers, and an event is signed
    by the header ["v1=" ++ secret]. *)
Module Examples.
#[export] Instance runtime : JsRuntime := {|
  StringToNumber := fun _ => nan;
  ObjectToNumber := fun _ => nan;
  ToString := fun v => match v with JStr s => s | _ => "[object Object]" end;
  Date_new := fun v =>
    match v with
    | JStr "2025-07-01T10:00:00.000Z" => TimeValue 1751364000000
    | JStr "2025-07-01T14:00:00.000Z" => TimeValue 1751378400000
    | _ => InvalidDate
    end;
  Date_toLocaleString := fun d =>
    match d with
    | TimeValue 1751364000000 => "7/1/2025, 10:00:00 AM"
    | TimeValue 1751378400000 => "7/1/2025, 2:00:00 PM"
    | _ => "Invalid Date"
    end;
  Math_round := fun x => x
|}.

(** The event a payload stands for: two fixed payloads, and otherwise a
    completed checkout session whose metadata names the payload as booking. *)
Definition event_of (payload : string) : StripeEvent :=
  if String.eqb payload "evt_without_metadata"
  then mkEvent "checkout.session.completed" (Some ∅)
  else if String.eqb payload "evt_payment_intent"
  then mkEvent "payment_intent.created" None
  else mkEvent "checkout.session.completed" (Some {[ "bookingId" := payload ]}).

#[export] Instance stripe : StripeWebhooks := {|
  constructEvent := fun payload header secret _ =>
    if bool_decide (header = Some ("v1=" +:+ secret))
    then inr (event_of payload)
    else inl "No signatures found matching the expected signature for payload."
|}.

Definition env0 : ProcessEnv :=
  mkEnv (Some "whsec_test") (Some "http://localhost:3000").

Definition boat1 : Boat.t :=
  Boat.mk "Aegean" SPEED_BOAT "p1" None 50 300 500.

Definition booking1 : Booking.t :=
  Booking.mk (Some "u1") (Some "bt1") (Some "p1")
             1751364000000 1751378400000 200 false false 1751000000000.

Definition db0 : Db :=
  mkDb {[ "u1" ]} {[ "p1" ]} {[ "bt1" := boat1 ]} {[ "b1" := booking1 ]}.

Definition s0 : St := mkSt db0 [].

Definition session1 : CheckoutSession :=
  mkSession (Some "https://checkout.stripe.com/c/pay/cs_test_1") "cs_test_1".

Definition w0 : World :=
  mkWorld 1751000000500 "b2" (fun _ => None) (fun _ => inr session1).

Definition signed (payload : string) : WebhookRequest :=
  mkRequest payload (Some "v1=whsec_test").

Definition forged (payload : string) : WebhookRequest :=
  mkRequest payload (Some "v1=guess").

(** A complete booking request for four hours with a captain. *)
Definition body_per_hour : gmap string JsVal :=
  {[ "boatId" := JStr "bt1"; "portId" := JStr "p1"; "userId" := JStr "u1";
     "startTime" := JStr "2025-07-01T10:00:00.000Z";
     "endTime" := JStr "2025-07-01T14:00:00.000Z";
     "bookingType" := JStr "per_hour"; "durationHours" := JNum 4;
     "includeCaptain" := JBool true ]}.

(** The same request with a booking type the price calculation does not know. *)
Definition body_weekly : gmap string JsVal :=
  <[ "bookingType" := JStr "weekly" ]> body_per_hour.

(** A half-day request that leaves out the duration and the captain flag. *)
Definition body_half_day : gmap string JsVal :=
  {[ "boatId" := JStr "bt1"; "portId" := JStr "p1"; "userId" := JStr "u1";
     "startTime" := JStr "2025-07-01T10:00:00.000Z";
     "endTime" := JStr "2025-07-01T14:00:00.000Z";
     "bookingType" := JStr "half_day" ]}.

(** A complete request for a boat that is not in the catalog. *)
Definition body_unknown_boat : gmap string JsVal :=
  <[ "boatId" := JStr "bt9" ]> body_per_hour.
End Examples.

(** ** What a handler may change *)

(** The terms of a booking: every column but [paid]. *)
Definition same_terms (b b' : Booking.t) : Prop :=
  Booking.userId b' = Booking.userId b
  /\ Booking.boatId b' = Booking.boatId b
  /\ Booking.portId b' = Booking.portId b
  /\ Booking.startTime b' = Booking.startTime b
  /\ Booking.endTime b' = Booking.endTime b
  /\ Booking.price b' = Booking.price b
  /\ Booking.includeCaptain b' = Booking.includeCaptain b
  /\ Booking.createdAt b' = Booking.createdAt b.

(** The foreign keys of the schema: a boat's port exists, and a booking's
    user, boat and port exist unless the column is null. *)
Definition references_ok (d : Db) : Prop :=
  (forall id boat, boats d !! id = Some boat -> Boat.portId boat ∈ ports d)
  /\ (forall id b, bookings d !! id = Some b ->
        fk_ok (Booking.userId b) (users d) = true
        /\ fk_ok (Booking.boatId b) (dom (boats d)) = true
        /\ fk_ok (Booking.portId b) (ports d) = true).

(** The response of the webhook when the secret is not set. *)
Definition secret_not_configured : Response :=
  mkResponse 500 (Send "Webhook secret not configured.").

(** Worlds in which something is down. *)
Module Outages.
Import Examples.

(** The gateway cannot be reached. *)
Definition w_gateway_down : World :=
  mkWorld 1751000000500 "b2" (fun _ => None)
          (fun _ => inl "An error occurred with our connection to Stripe.").

(** The database refuses the settlement update. *)
Definition w_update_fails : World :=
  mkWorld 1751000000500 "b2"
          (fun op =>
             match op with
             | BookingUpdate => Some (PrismaEngineError "Can't reach database server")
             | _ => None
             end)
          (fun _ => inr session1).
End Outages.

(** ** Authentication and authorization middleware

    src/backend/src/utils/jwt.ts, middleware/auth.ts, middleware/authorize.ts *)

Inductive Role : Type := ADMIN | USER | MANAGER.

#[global] Instance Role_eq_dec : EqDecision Role.
Proof. solve_decision. Defined.

(** [req.user]: the decoded token payload (types/express.d.ts). *)
Record JwtUser : Type := mkJwtUser {
  user_id : string;
  user_email : string;
  user_role : Role;
  iat : Z;
  exp : Z
}.

(** The errors [jwt.verify] hands to its callback, by the class tests the
    middleware makes: [TokenExpiredError] (a subclass of [JsonWebTokenError],
    tested first), any other [JsonWebTokenError], and anything else. *)
Inductive VerifyError : Type :=
  | TokenExpiredError
  | JsonWebTokenError
  | OtherVerifyError.

(** The jsonwebtoken library: [jwt.verify(token, secret)] at a given time,
    and [jwt.sign({ id, email, role }, secret, { expiresIn })]. *)
Class JsonWebToken : Type := {
  jwt_verify : string -> string -> Z -> VerifyError + JwtUser;
  jwt_sign : string -> option string -> Role -> string -> Z -> Z -> string
}.

Record AuthEnv : Type := mkAuthEnv {
  JWT_SECRET : option string;
  NODE_ENV : option string
}.

Record CookieOptions : Type := mkCookieOptions {
  httpOnly : bool;
  secure : bool;
  sameSite : string;
  maxAge : option Z;
  expires : option Z;        (* a date, in milliseconds since the epoch *)
  path : option string
}.

(** One [res.cookie(name, value, options)]. *)
Record SetCookie : Type := mkSetCookie {
  cookie_name : string;
  cookie_value : string;
  cookie_options : CookieOptions
}.

(** [process.env.NODE_ENV === 'production'] *)
Definition in_production (env : AuthEnv) : bool :=
  match NODE_ENV env with
  | Some v => String.eqb v "production"
  | None => false
  end.

Definition setHttpOnlyJwtCookie (env : AuthEnv) (token : string) : SetCookie :=
  mkSetCookie "jwt" token
    (mkCookieOptions true (in_production env) "lax" (Some 3600000) None (Some "/")).

Definition clearJwtCookie (env : AuthEnv) : SetCookie :=
  mkSetCookie "jwt" ""
    (mkCookieOptions true (in_production env) "lax" None (Some 0) None).

(** What the middleware see of a request: the [jwt] cookie as [cookie-parser]
    found it, and [req.user]. *)
Record AuthRequest : Type := mkAuthRequest {
  cookie_jwt : option string;
  req_user : option JwtUser
}.

(** A middleware either calls [next()], leaving the request for the next
    function of the route, or answers itself. *)
Inductive Middleware : Type :=
  | Next (req : AuthRequest)
  | Answer (r : Response) (cookies : list SetCookie).

(** [res.json({ message: text })] *)
Definition message_body (text : string) : Body := Json [("message", JStr text)].

(** The double quote character, as a string. *)
Definition dquote : string :=
  Eval cbv in String (Ascii.ascii_of_nat 34) EmptyString.

Section Auth.
Context `{JsonWebToken}.
Variable env : AuthEnv.

(** [generateAccessToken(user)]: the token, or the thrown error's message. *)
Definition generateAccessToken (id : string) (email : option string) (role : Role)
    (now : Z) : string + string :=
  match truthy_string (JWT_SECRET env) with
  | None => inl "JWT_SECRET is not defined in environment variables."
  | Some secret => inr (jwt_sign id email role secret 3600 now)
  end.

Definition authenticateJWT (now : Z) (req : AuthRequest) : Middleware :=
  let token := cookie_jwt req in
  match truthy_string token with
  | None => Answer (mkResponse 401 (message_body "Authentication token required")) []
  | Some token =>
    match truthy_string (JWT_SECRET env) with
    | None => Answer (mkResponse 500 (message_body "Server configuration error.")) []
    | Some secret =>
      match jwt_verify token secret now with
      | inl err =>
        let cleared := [clearJwtCookie env] in
        match err with
        | TokenExpiredError =>
          Answer (mkResponse 401 (message_body "Token expired. Please log in again.")) cleared
        | JsonWebTokenError =>
          Answer (mkResponse 403 (message_body "Invalid token. Please log in again.")) cleared
        | OtherVerifyError =>
          Answer (mkResponse 403 (message_body "Authentication failed.")) cleared
        end
      | inr user => Next (mkAuthRequest (cookie_jwt req) (Some user))
      end
    end
  end.

Definition authorizeRole (requiredRoles : list Role) (req : AuthRequest) : Middleware :=
  match req_user req with
  | None =>
    Answer (mkResponse 401 (message_body "Unauthorized: User not authenticated.")) []
  | Some user =>
    if negb (bool_decide (user_role user ∈ requiredRoles))
    then Answer (mkResponse 403 (message_body "Forbidden: Insufficient permissions.")) []
    else Next req
  end.

(** A route [router.verb(path, authenticateJWT, authorizeRole(roles), handler)]:
    the handler runs only if both middleware call [next()].  The result is the
    response, the cookies set on it, and the state. *)
Definition protected (requiredRoles : list Role) (handler : AuthRequest -> Handler unit)
    (now : Z) (req : AuthRequest) (s : St)
  : option Response * list SetCookie * St :=
  match authenticateJWT now req with
  | Answer r cookies => (Some r, cookies, s)
  | Next req =>
    match authorizeRole requiredRoles req with
    | Answer r cookies => (Some r, cookies, s)
    | Next req => let '(r, s') := run (handler req) s in (r, [], s')
    end
  end.
End Auth.

(** ** The boat routes of the admin dashboard

    src/backend/src/routes/adminRoutes.ts, [POST /boats] and
    [DELETE /boats/:id] *)

Inductive AdminOp : Type := PortFindUnique | BoatCreate | BoatDelete.

(** What the outside world contributes to one admin request. *)
Record AdminWorld : Type := mkAdminWorld {
  admin_uuid : string;
  admin_fault : AdminOp -> option PrismaError
}.

(** [prisma.port.findUnique({ where: { id } })], as far as the handler looks
    at it: whether there is such a port. *)
Definition port_findUnique (aw : AdminWorld) (id : JsVal) (d : Db)
  : PrismaError + bool :=
  match admin_fault aw PortFindUnique with
  | Some e => inl e
  | None =>
    match id with
    | JStr s => inr (bool_decide (s ∈ ports d))
    | _ => inl PrismaClientValidationError
    end
  end.

(** [Object.values(BoatType).includes(v)], with the value found. *)
Definition boat_type_of (v : JsVal) : option BoatType :=
  match v with
  | JStr s =>
    if String.eqb s "SMALL" then Some SMALL
    else if String.eqb s "NORMAL" then Some NORMAL
    else if String.eqb s "SPEED_BOAT" then Some SPEED_BOAT
    else if String.eqb s "MOTOR_YACHT" then Some MOTOR_YACHT
    else None
  | _ => None
  end.

Definition boat_type_name (t : BoatType) : string :=
  match t with
  | SMALL => "SMALL"
  | NORMAL => "NORMAL"
  | SPEED_BOAT => "SPEED_BOAT"
  | MOTOR_YACHT => "MOTOR_YACHT"
  end.

(** A [String] column and a [Float] column. *)
Definition required_string (v : JsVal) : option string :=
  match v with
  | JStr s => Some s
  | _ => None
  end.

Definition required_float (v : JsVal) : option float :=
  match v with
  | JNum x => float_column x
  | _ => None
  end.

Record BoatCreateInput : Type := mkBoatInput {
  data_name : JsVal;
  data_type : BoatType;
  data_boat_portId : JsVal;
  data_imageUrl : JsVal;
  data_hourlyRate : JsVal;
  data_halfDayRate : JsVal;
  data_fullDayRate : JsVal
}.

(** [prisma.boat.create({ data })]: returns the id and the new row. *)
Definition boat_create (aw : AdminWorld) (data : BoatCreateInput) (d : Db)
  : PrismaError + (string * Boat.t * Db) :=
  match admin_fault aw BoatCreate with
  | Some e => inl e
  | None =>
    match required_string (data_name data), required_string (data_boat_portId data),
          optional_string (data_imageUrl data), required_float (data_hourlyRate data),
          required_float (data_halfDayRate data),
          required_float (data_fullDayRate data) with
    | Some name, Some portId, Some imageUrl, Some hourly, Some half, Some full =>
      if negb (bool_decide (portId ∈ ports d)) then inl P2003
      else
        match boats d !! admin_uuid aw with
        | Some _ => inl P2002
        | None =>
          let row := Boat.mk name (data_type data) portId imageUrl hourly half full in
          inr (admin_uuid aw, row,
               mkDb (users d) (ports d) (<[admin_uuid aw := row]> (boats d))
                    (bookings d))
        end
    | _, _, _, _, _, _ => inl PrismaClientValidationError
    end
  end.

(** [onDelete: SetNull] on [Booking.boatId]. *)
Definition clear_boat (id : string) (b : Booking.t) : Booking.t :=
  if bool_decide (Booking.boatId b = Some id)
  then Booking.mk (Booking.userId b) None (Booking.portId b) (Booking.startTime b)
                  (Booking.endTime b) (Booking.price b) (Booking.paid b)
                  (Booking.includeCaptain b) (Booking.createdAt b)
  else b.

(** [prisma.boat.delete({ where: { id } })]: returns the deleted row; the
    bookings of the boat lose their reference to it. *)
Definition boat_delete (aw : AdminWorld) (id : string) (d : Db)
  : PrismaError + (Boat.t * Db) :=
  match admin_fault aw BoatDelete with
  | Some e => inl e
  | None =>
    match boats d !! id with
    | None => inl P2025
    | Some row =>
      inr (row, mkDb (users d) (ports d) (delete id (boats d))
                     (clear_boat id <$> bookings d))
    end
  end.

(** A boat as [res.json] sends it. *)
Definition boat_json (id : string) (boat : Boat.t) : list (string * JsVal) :=
  [("id", JStr id);
   ("name", JStr (Boat.name boat));
   ("type", JStr (boat_type_name (Boat.type boat)));
   ("portId", JStr (Boat.portId boat));
   ("imageUrl", from_option JStr JNull (Boat.imageUrl boat));
   ("hourlyRate", JNum (Boat.hourlyRate boat));
   ("halfDayRate", JNum (Boat.halfDayRate boat));
   ("fullDayRate", JNum (Boat.fullDayRate boat))].

(** [v === undefined] *)
Definition is_undefined (v : JsVal) : bool :=
  match v with
  | JUndefined => true
  | _ => false
  end.

(** [error.code === 'P2025'] and the like. *)
Definition has_code (error : JsError) (code : PrismaError) : bool :=
  match error, code with
  | PrismaErr P2025, P2025 => true
  | PrismaErr P2003, P2003 => true
  | PrismaErr P2002, P2002 => true
  | _, _ => false
  end.

Section AdminBoats.
Context `{JsRuntime}.

Definition missing_boat_fields (body : gmap string JsVal) : bool :=
  negb (truthy (prop body "name")) || negb (truthy (prop body "type"))
  || negb (truthy (prop body "portId")) || is_undefined (prop body "hourlyRate")
  || is_undefined (prop body "halfDayRate") || is_undefined (prop body "fullDayRate").

(** [POST /boats] *)
Definition admin_create_boat (aw : AdminWorld) (body : gmap string JsVal)
  : Handler unit :=
  let name := prop body "name" in
  let type := prop body "type" in
  let portId := prop body "portId" in
  let imageUrl := prop body "imageUrl" in
  let hourlyRate := prop body "hourlyRate" in
  let halfDayRate := prop body "halfDayRate" in
  let fullDayRate := prop body "fullDayRate" in
  if missing_boat_fields body
  then respond 400 (message_body "Missing required boat fields.")
  else
    match boat_type_of type with
    | None =>
      respond 400
        (message_body ("Invalid boat type: " +:+ ToString type
                  +:+ ". Must be one of SMALL, NORMAL, SPEED_BOAT, MOTOR_YACHT"))
    | Some validType =>
      try_catch
        (existingPort ← prisma_read (port_findUnique aw portId);
         if negb existingPort
         then respond 404
                (message_body ("Port with ID " +:+ ToString portId +:+ " not found."))
         else
           newBoat ← prisma_write (boat_create aw
             {| data_name := name;
                data_type := validType;
                data_boat_portId := portId;
                data_imageUrl := imageUrl;
                data_hourlyRate := hourlyRate;
                data_halfDayRate := halfDayRate;
                data_fullDayRate := fullDayRate |});
           respond 201 (Json (boat_json (fst newBoat) (snd newBoat))))
        (fun error =>
           console_write LogError "Error creating boat:" (Some error);;
           respond 500 (message_body "Failed to create boat."))
    end.

(** [DELETE /boats/:id] *)
Definition admin_delete_boat (aw : AdminWorld) (id : string) : Handler unit :=
  try_catch
    (deletedBoat ← prisma_write (boat_delete aw id);
     respond 200
       (Json [("message",
               JStr ("Boat " +:+ dquote +:+ Boat.name deletedBoat +:+ dquote
                     +:+ " deleted successfully."));
              ("boat", JObj (boat_json id deletedBoat))]))
    (fun error =>
       if has_code error P2025
       then respond 404 (message_body ("Boat with ID " +:+ id +:+ " not found."))
       else if has_code error P2003
       then
         console_write LogWarn
           ("Foreign key constraint issue when deleting boat " +:+ id
            +:+ ". Ensure all related bookings/other entities allow SetNull or Cascade.")
           (Some error);;
         respond 409
           (message_body ("Cannot delete boat " +:+ id
                     +:+ ": Referenced by other records (e.g., non-nullable foreign keys in other tables or unhandled dependencies)."))
       else
         console_write LogError ("Error deleting boat " +:+ id +:+ ":") (Some error);;
         respond 500 (message_body "Failed to delete boat.")).
End AdminBoats.

(** ** Registration, login and logout

    src/backend/src/routes/authRoutes.ts *)

Module User.
Record t : Type := mk {
  email : string;
  password : string;
  name : option string;
  role : Role;
  createdAt : Z;
  updatedAt : Z
}.
End User.

(** bcryptjs: [hash(password, rounds)] with the salt it draws, and
    [compare(password, hash)]. *)
Class Bcrypt : Type := {
  bcrypt_hash : string -> Z -> string -> string;
  bcrypt_compare : string -> string -> bool
}.

Inductive UserOp : Type := UserCount | UserCreate | UserFindUnique.

(** What the outside world contributes to one request of these routes. *)
Record AuthWorld : Type := mkAuthWorld {
  auth_now : Z;
  auth_uuid : string;
  auth_salt : string;
  user_fault : UserOp -> option PrismaError
}.

(** What the [catch] clauses of these routes can receive. *)
Inductive AuthError : Type :=
  | UserPrismaError (e : PrismaError)
  | EmailTaken                     (* P2002 with [meta.target] naming email *)
  | TypeError (msg : string)
  | BcryptError (msg : string)
  | ConfigError (msg : string).

Record AuthLog : Type := mkAuthLog {
  auth_level : Level;
  auth_text : string;
  auth_error : AuthError
}.

(** The state these routes run in: the User table, the cookies set on the
    response so far, and the console. *)
Record AuthSt : Type := mkAuthSt {
  user_rows : gmap string User.t;
  sent_cookies : list SetCookie;
  auth_console : list AuthLog
}.

Inductive AuthCompletion (A : Type) : Type :=
  | AuthNormal (a : A)
  | AuthThrow (e : AuthError)
  | AuthReturn (r : Response).
Arguments AuthNormal {A} a.
Arguments AuthThrow {A} e.
Arguments AuthReturn {A} r.

Definition AuthHandler (A : Type) : Type := AuthSt -> AuthCompletion A * AuthSt.

#[global] Instance auth_ret : MRet AuthHandler :=
  fun A (a : A) (s : AuthSt) => (AuthNormal a, s).

#[global] Instance auth_bind : MBind AuthHandler :=
  fun A B (k : A -> AuthHandler B) (m : AuthHandler A) (s : AuthSt) =>
    match m s with
    | (AuthNormal a, s') => k a s'
    | (AuthThrow e, s') => (AuthThrow e, s')
    | (AuthReturn r, s') => (AuthReturn r, s')
    end.

Definition auth_throw {A} (e : AuthError) : AuthHandler A :=
  fun s => (AuthThrow e, s).

Definition auth_respond {A} (code : Z) (b : Body) : AuthHandler A :=
  fun s => (AuthReturn (mkResponse code b), s).

Definition auth_try_catch {A} (block : AuthHandler A)
    (handler : AuthError -> AuthHandler A) : AuthHandler A :=
  fun s =>
    match block s with
    | (AuthThrow e, s') => handler e s'
    | other => other
    end.

Definition auth_console_error (text : string) (e : AuthError) : AuthHandler unit :=
  fun s =>
    (AuthNormal tt,
     mkAuthSt (user_rows s) (sent_cookies s)
              (auth_console s ++ [mkAuthLog LogError text e])).

(** [res.cookie(...)] *)
Definition send_cookie (c : SetCookie) : AuthHandler unit :=
  fun s =>
    (AuthNormal tt, mkAuthSt (user_rows s) (sent_cookies s ++ [c]) (auth_console s)).

(** Running one of these routes on a fresh response: the response sent, the
    cookies set on it, the User table and the console afterwards. *)
Definition auth_run (h : AuthHandler unit) (rows : gmap string User.t)
    (log : list AuthLog)
  : option Response * list SetCookie * gmap string User.t * list AuthLog :=
  match h (mkAuthSt rows [] log) with
  | (AuthReturn r, s') => (Some r, sent_cookies s', user_rows s', auth_console s')
  | (_, s') => (None, sent_cookies s', user_rows s', auth_console s')
  end.

(** The row with a given email, with its id ([email] is [@unique]). *)
Definition user_by_email (email : string) (rows : gmap string User.t)
  : option (string * User.t) :=
  List.find (fun row => String.eqb (User.email (snd row)) email) (map_to_list rows).

(** [s.split(c)[0]]: the part of [s] before the first [c], all of [s] when
    there is none. *)
Fixpoint before_first (c : Ascii.ascii) (s : string) : string :=
  match s with
  | EmptyString => EmptyString
  | String a rest => if Ascii.eqb a c then EmptyString else String a (before_first c rest)
  end.

Definition at_sign : Ascii.ascii := Eval cbv in Ascii.ascii_of_nat 64.

Definition role_name (r : Role) : string :=
  match r with
  | ADMIN => "ADMIN"
  | USER => "USER"
  | MANAGER => "MANAGER"
  end.

(** [{ id: user.id, email: user.email, name: user.name, role: user.role }] *)
Definition user_json (id : string) (u : User.t) : JsVal :=
  JObj [("id", JStr id);
        ("email", JStr (User.email u));
        ("name", from_option JStr JNull (User.name u));
        ("role", JStr (role_name (User.role u)))].

Record UserCreateInput : Type := mkUserInput {
  data_email : JsVal;
  data_password : string;
  data_user_name : JsVal;
  data_role : Role
}.

Section AuthRoutes.
Context `{JsonWebToken} `{Bcrypt}.
Variable env : AuthEnv.

(** [prisma.user.count()] *)
Definition user_count (w : AuthWorld) : AuthHandler Z :=
  fun s =>
    match user_fault w UserCount with
    | Some e => (AuthThrow (UserPrismaError e), s)
    | None => (AuthNormal (Z.of_nat (size (user_rows s))), s)
    end.

(** [prisma.user.findUnique({ where: { email } })] *)
Definition user_findUnique (w : AuthWorld) (email : JsVal)
  : AuthHandler (option (string * User.t)) :=
  fun s =>
    match user_fault w UserFindUnique with
    | Some e => (AuthThrow (UserPrismaError e), s)
    | None =>
      match email with
      | JStr e => (AuthNormal (user_by_email e (user_rows s)), s)
      | _ => (AuthThrow (UserPrismaError PrismaClientValidationError), s)
      end
    end.

(** [prisma.user.create({ data })]: returns the id and the new row. *)
Definition user_create (w : AuthWorld) (data : UserCreateInput)
  : AuthHandler (string * User.t) :=
  fun s =>
    match user_fault w UserCreate with
    | Some e => (AuthThrow (UserPrismaError e), s)
    | None =>
      match required_string (data_email data), optional_string (data_user_name data) with
      | Some email, Some name =>
        match user_by_email email (user_rows s) with
        | Some _ => (AuthThrow EmailTaken, s)
        | None =>
          match user_rows s !! auth_uuid w with
          | Some _ => (AuthThrow (UserPrismaError P2002), s)
          | None =>
            let row := User.mk email (data_password data) name (data_role data)
                               (auth_now w) (auth_now w) in
            (AuthNormal (auth_uuid w, row),
             mkAuthSt (<[auth_uuid w := row]> (user_rows s)) (sent_cookies s)
                      (auth_console s))
          end
        end
      | _, _ => (AuthThrow (UserPrismaError PrismaClientValidationError), s)
      end
    end.

(** [await bcrypt.hash(password, 10)] *)
Definition hash_password (w : AuthWorld) (password : JsVal) : AuthHandler string :=
  match password with
  | JStr p => mret (bcrypt_hash p 10 (auth_salt w))
  | _ => auth_throw (BcryptError "Illegal arguments")
  end.

(** [await bcrypt.compare(password, hash)] *)
Definition compare_password (password : JsVal) (hash : string) : AuthHandler bool :=
  match password with
  | JStr p => mret (bcrypt_compare p hash)
  | _ => auth_throw (BcryptError "Illegal arguments")
  end.

(** [name || email.split('@')[0]] *)
Definition name_or_default (name email : JsVal) : AuthHandler JsVal :=
  if truthy name then mret name
  else
    match email with
    | JStr e => mret (JStr (before_first at_sign e))
    | _ => auth_throw (TypeError "email.split is not a function")
    end.

(** [generateAccessToken(user)] inside a [try]. *)
Definition access_token (w : AuthWorld) (id : string) (u : User.t)
  : AuthHandler string :=
  match generateAccessToken env id (Some (User.email u)) (User.role u) (auth_now w) with
  | inl msg => auth_throw (ConfigError msg)
  | inr token => mret token
  end.

(** [error.code === 'P2002' && error.meta?.target?.includes('email')] *)
Definition is_email_taken (error : AuthError) : bool :=
  match error with
  | EmailTaken => true
  | _ => false
  end.

(** [POST /register] *)
Definition register (w : AuthWorld) (body : gmap string JsVal) : AuthHandler unit :=
  let email := prop body "email" in
  let password := prop body "password" in
  let name := prop body "name" in
  if negb (truthy email) || negb (truthy password)
  then auth_respond 400 (message_body "Email and password are required")
  else
    auth_try_catch
      (userCount ← user_count w;
       let assignedRole := if userCount =? 0 then ADMIN else USER in
       hashedPassword ← hash_password w password;
       nameOrDefault ← name_or_default name email;
       user ← user_create w
         {| data_email := email;
            data_password := hashedPassword;
            data_user_name := nameOrDefault;
            data_role := assignedRole |};
       token ← access_token w (fst user) (snd user);
       send_cookie (setHttpOnlyJwtCookie env token);;
       auth_respond 201
         (Json [("message", JStr "User registered successfully");
                ("user", user_json (fst user) (snd user))]))
      (fun error =>
         if is_email_taken error
         then auth_respond 409 (message_body "Email already registered")
         else
           auth_console_error "Registration error:" error;;
           auth_respond 500 (message_body "Internal server error")).

(** [POST /login] *)
Definition login (w : AuthWorld) (body : gmap string JsVal) : AuthHandler unit :=
  let email := prop body "email" in
  let password := prop body "password" in
  if negb (truthy email) || negb (truthy password)
  then auth_respond 400 (message_body "Email and password are required")
  else
    auth_try_catch
      (user ← user_findUnique w email;
       match user with
       | None => auth_respond 401 (message_body "Invalid credentials")
       | Some (id, user) =>
         if String.eqb (User.password user) ""
         then auth_respond 401 (message_body "Invalid credentials")
         else
           isPasswordValid ← compare_password password (User.password user);
           if negb isPasswordValid
           then auth_respond 401 (message_body "Invalid credentials")
           else
             token ← access_token w id user;
             send_cookie (setHttpOnlyJwtCookie env token);;
             auth_respond 200
               (Json [("message", JStr "Login successful");
                      ("user", user_json id user)])
       end)
      (fun error =>
         auth_console_error "Login error:" error;;
         auth_respond 500 (message_body "Internal server error")).

(** [POST /logout] *)
Definition logout : AuthHandler unit :=
  send_cookie (clearJwtCookie env);;
  auth_respond 200 (message_body "Logged out successfully").
End AuthRoutes.

(** No two users share an email. *)
Definition unique_emails (rows : gmap string User.t) : Prop :=
  forall id1 id2 u1 u2,
    rows !! id1 = Some u1 -> rows !! id2 = Some u2 ->
    User.email u1 = User.email u2 -> id1 = id2.

(** The answer to a failed login. *)
Definition invalid_credentials : Response :=
  mkResponse 401 (message_body "Invalid credentials").

(** The columns of a booking that deleting its boat leaves alone: all but
    [boatId]. *)
Definition same_but_boat (b b' : Booking.t) : Prop :=
  Booking.userId b' = Booking.userId b
  /\ Booking.portId b' = Booking.portId b
  /\ Booking.startTime b' = Booking.startTime b
  /\ Booking.endTime b' = Booking.endTime b
  /\ Booking.price b' = Booking.price b
  /\ Booking.paid b' = Booking.paid b
  /\ Booking.includeCaptain b' = Booking.includeCaptain b
  /\ Booking.createdAt b' = Booking.createdAt b.

(** The answer of [DELETE /boats/:id] for an id that names no boat. *)
Definition boat_id_not_found (id : string) : Response :=
  mkResponse 404 (message_body ("Boat with ID " +:+ id +:+ " not found.")).

(** A deployment for the admin examples: three tokens are known to the
    token library, the administrator's, a manager's, and one that expired. *)
Module AdminExamples.
Import Examples.

Definition admin_user : JwtUser :=
  mkJwtUser "u1" "admin@example.com" ADMIN 1751000000 1751003600.

Definition manager_user : JwtUser :=
  mkJwtUser "u2" "manager@example.com" MANAGER 1751000000 1751003600.

#[export] Instance tokens : JsonWebToken := {|
  jwt_verify := fun token secret now =>
    if negb (String.eqb secret "jwt_secret") then inl JsonWebTokenError
    else if String.eqb token "admin.token" then inr admin_user
    else if String.eqb token "manager.token" then inr manager_user
    else if String.eqb token "expired.token" then inl TokenExpiredError
    else inl JsonWebTokenError;
  jwt_sign := fun id email role secret expiresIn now =>
    match role with
    | ADMIN => "admin.token"
    | MANAGER => "manager.token"
    | USER => "user.token"
    end
|}.

Definition auth_env : AuthEnv := mkAuthEnv (Some "jwt_secret") (Some "production").

Definition with_token (token : string) : AuthRequest :=
  mkAuthRequest (Some token) None.

(** A password hash that can be checked by eye. *)
#[export] Instance hashes : Bcrypt := {|
  bcrypt_hash := fun password rounds salt => "$2a$10$" +:+ salt +:+ password;
  bcrypt_compare := fun password hash =>
    String.eqb hash ("$2a$10$" +:+ "salt" +:+ password)
|}.

Definition admin_row : User.t :=
  User.mk "admin@example.com" "$2a$10$saltsecret" (Some "admin") ADMIN
          1750000000000 1750000000000.

Definition rows0 : gmap string User.t := {[ "u1" := admin_row ]}.

Definition auth_w0 : AuthWorld :=
  mkAuthWorld 1751000000000 "u3" "salt" (fun _ => None).

Definition credentials (email password : string) : gmap string JsVal :=
  {[ "email" := JStr email; "password" := JStr password ]}.

Definition aw0 : AdminWorld := mkAdminWorld "bt2" (fun _ => None).

(** A boat offered below cost: the hourly rate is negative. *)
Definition body_new_boat : gmap string JsVal :=
  {[ "name" := JStr "Meltemi"; "type" := JStr "SMALL"; "portId" := JStr "p1";
     "hourlyRate" := JNum (-5); "halfDayRate" := JNum 0; "fullDayRate" := JNum 250 ]}.
End AdminExamples.

(** * Properties *)

(** ** Signs of binary64 products and sums *)

Section Binary64.
Lemma nonneg_spec x : nonneg x = true <-> sf_nonneg (Prim2SF x).
Proof.
  unfold nonneg. rewrite leb_spec.
  change (Prim2SF 0%float) with (S754_zero false).
  destruct (Prim2SF x) as [s|[]| |[] m e]; cbn; split; intros Hx;
    try discriminate; try constructor; inversion Hx.
Qed.

Lemma nonneg_finite_spec x :
  nonneg_finite x = true <-> sf_nonneg_finite (Prim2SF x).
Proof.
  unfold nonneg_finite. rewrite leb_spec, ltb_spec.
  change (Prim2SF 0%float) with (S754_zero false).
  change (Prim2SF infinity) with (S754_infinity false).
  destruct (Prim2SF x) as [s|[]| |[] m e]; cbn; split; intros Hx;
    try discriminate; try constructor; inversion Hx.
Qed.

Lemma shr_1_nonneg mrs : 0 <= shr_m mrs -> 0 <= shr_m (shr_1 mrs).
Proof. destruct mrs as [[|[p|p|]|p] r s]; cbn; lia. Qed.

Lemma iter_pos_shr_1_nonneg p :
  forall mrs, 0 <= shr_m mrs -> 0 <= shr_m (SpecFloat.iter_pos shr_1 p mrs).
Proof.
  induction p as [p IH|p IH|]; intros mrs Hm; cbn.
  - apply IH, IH, shr_1_nonneg, Hm.
  - apply IH, IH, Hm.
  - apply shr_1_nonneg, Hm.
Qed.

Lemma shr_fexp_nonneg prec emax m e l :
  0 <= m -> 0 <= shr_m (fst (shr_fexp prec emax m e l)).
Proof.
  intros Hm. unfold shr_fexp, shr.
  assert (Hrec : 0 <= shr_m (shr_record_of_loc m l))
    by (destruct l as [|[]]; exact Hm).
  destruct (fexp prec emax (Zdigits2 m + e) - e) as [|p|p]; cbn; try exact Hrec.
  apply iter_pos_shr_1_nonneg, Hrec.
Qed.

Lemma round_nearest_even_nonneg m l : 0 <= m -> 0 <= round_nearest_even m l.
Proof.
  intros Hm. destruct l as [|[]]; cbn; try lia.
  destruct (Z.even m); lia.
Qed.

Lemma binary_round_aux_nonneg prec emax m e l :
  0 <= m -> sf_nonneg (binary_round_aux prec emax false m e l).
Proof.
  intros Hm. unfold binary_round_aux.
  pose proof (shr_fexp_nonneg prec emax m e l Hm) as H1.
  destruct (shr_fexp prec emax m e l) as [mrs' e']. cbn in H1.
  pose proof (shr_fexp_nonneg prec emax _ e' loc_Exact
                (round_nearest_even_nonneg _ (loc_of_shr_record mrs') H1)) as H2.
  destruct (shr_fexp prec emax _ e' loc_Exact) as [mrs'' e'']. cbn in H2.
  destruct (shr_m mrs'') as [|p|p].
  - constructor.
  - destruct (e'' <=? emax - prec); constructor.
  - lia.
Qed.

Lemma SFmul_nonneg prec emax x y :
  sf_nonneg_finite x -> sf_nonneg_finite y -> sf_nonneg (SFmul prec emax x y).
Proof.
  intros [sx|mx ex] [sy|my ey]; cbn; try constructor.
  apply binary_round_aux_nonneg. lia.
Qed.

Lemma SFadd_nonneg prec emax x y :
  sf_nonneg x -> sf_nonneg y -> sf_nonneg (SFadd prec emax x y).
Proof.
  intros [sx|mx ex|] [sy|my ey|]; cbn; try constructor.
  - destruct sx, sy; constructor.
  - unfold binary_normalize, cond_Zopp.
    rewrite <- Pos2Z.inj_add. unfold binary_round.
    destruct (shl_align (_ + _) _ _) as [mz ez].
    apply binary_round_aux_nonneg. lia.
Qed.

Lemma mul_nonneg x y :
  nonneg_finite x = true -> nonneg_finite y = true -> nonneg (x * y) = true.
Proof.
  rewrite !nonneg_finite_spec, nonneg_spec, mul_spec. apply SFmul_nonneg.
Qed.

Lemma add_nonneg x y :
  nonneg x = true -> nonneg y = true -> nonneg (x + y) = true.
Proof. rewrite !nonneg_spec, add_spec. apply SFadd_nonneg. Qed.

Lemma nonneg_finite_nonneg x : nonneg_finite x = true -> nonneg x = true.
Proof.
  rewrite nonneg_finite_spec, nonneg_spec. intros []; constructor.
Qed.

(** What a [Float] column holds of an argument it accepts: the argument was
    finite, and the row holds it with a zero unsigned. *)
Lemma float_column_Some x y :
  float_column x = Some y <-> is_finite x = true /\ y = unsigned_zero x.
Proof.
  unfold float_column. destruct (is_finite x); split.
  - intros [= <-]. auto.
  - intros [_ ->]. reflexivity.
  - discriminate.
  - intros [Hx _]. discriminate Hx.
Qed.

Lemma unsigned_zero_nonneg x : nonneg x = true -> nonneg (unsigned_zero x) = true.
Proof. unfold unsigned_zero. destruct (PrimFloat.eqb x 0); auto. Qed.

(** The stored number is the argument as [==] compares numbers. *)
Lemma unsigned_zero_eqb x :
  is_finite x = true -> PrimFloat.eqb (unsigned_zero x) x = true.
Proof.
  unfold is_finite, unsigned_zero. rewrite ltb_spec, abs_spec. intros Hfin.
  destruct (PrimFloat.eqb x 0) eqn:Hzero; rewrite FloatAxioms.eqb_spec in *.
  - change (Prim2SF 0%float) with (S754_zero false) in *.
    destruct (Prim2SF x) as [s|[]| |[] m e]; cbn in *;
      try discriminate; reflexivity.
  - change (Prim2SF infinity) with (S754_infinity false) in Hfin.
    destruct (Prim2SF x) as [s|s| |s m e]; cbn in *; try discriminate.
    unfold SFeqb. cbn.
    destruct s; rewrite Z.compare_refl, Pos.compare_cont_refl; reflexivity.
Qed.

End Binary64.

(** ** The webhook handler *)

Ltac step_handler :=
  unfold run, try_catch, stripe_call, prisma_write, prisma_read, console_write,
    respond, throw, mbind, mret, handler_bind, handler_ret in *;
  cbn [fst snd db console] in *.

Section WebhookProperties.
Context `{StripeWebhooks}.
Variables (env : ProcessEnv) (secret : string).
Hypothesis configured : truthy_string (STRIPE_WEBHOOK_SECRET env) = Some secret.

(** With the secret set, a request whose signature check throws is answered
    by 400 and the message, and only the console changes. *)
Lemma webhook_run_invalid w req s msg :
  constructEvent (raw_body req) (stripe_signature req) secret (now w) = inl msg ->
  run (webhook env w req) s =
    (Some (mkResponse 400 (Send ("Webhook Error: " +:+ msg))),
     mkSt (db s) (console s ++ [mkLog LogError ("Webhook Error: " +:+ msg) None])).
Proof.
  intros Hsig. unfold webhook. rewrite configured. step_handler.
  rewrite Hsig. reflexivity.
Qed.

(** A verified event of another type is logged and acknowledged. *)
Lemma webhook_run_unhandled w req s ev :
  constructEvent (raw_body req) (stripe_signature req) secret (now w) = inr ev ->
  String.eqb (event_type ev) "checkout.session.completed" = false ->
  run (webhook env w req) s =
    (Some acknowledgment,
     mkSt (db s)
          (console s ++ [mkLog LogInfo ("Unhandled event type " +:+ event_type ev) None])).
Proof.
  intros Hsig Hty. unfold webhook. rewrite configured. step_handler.
  rewrite Hsig, Hty. reflexivity.
Qed.

(** A verified completed session without a booking id is warned about and
    acknowledged. *)
Lemma webhook_run_without_id w req s ev :
  constructEvent (raw_body req) (stripe_signature req) secret (now w) = inr ev ->
  event_type ev = "checkout.session.completed" ->
  truthy_string (session_metadata ev ≫= (.!! "bookingId")) = None ->
  run (webhook env w req) s =
    (Some acknowledgment, mkSt (db s) (console s ++ [without_bookingId])).
Proof.
  intros Hsig Hty Hid. unfold webhook. rewrite configured. step_handler.
  rewrite Hsig, Hty, Hid. reflexivity.
Qed.

(** A verified completed session with a booking id: the update either throws,
    which is logged, or writes the row, which is logged too; the event is
    acknowledged both ways. *)
Lemma webhook_run_with_id w req s ev bookingId :
  constructEvent (raw_body req) (stripe_signature req) secret (now w) = inr ev ->
  event_type ev = "checkout.session.completed" ->
  truthy_string (session_metadata ev ≫= (.!! "bookingId")) = Some bookingId ->
  run (webhook env w req) s =
    match booking_update_paid w bookingId (db s) with
    | inl e =>
      (Some acknowledgment, mkSt (db s) (console s ++ [update_failed bookingId e]))
    | inr (_, db') =>
      (Some acknowledgment, mkSt db' (console s ++ [marked_as_paid bookingId]))
    end.
Proof.
  intros Hsig Hty Hid. unfold webhook. rewrite configured. step_handler.
  rewrite Hsig, Hty, Hid. cbn.
  destruct (booking_update_paid w bookingId (db s)) as [e|[row db']]; reflexivity.
Qed.
End WebhookProperties.

Lemma truthy_string_intro s : s <> "" -> truthy_string (Some s) = Some s.
Proof.
  intros Hs. cbn. destruct (String.eqb_spec s ""); [contradiction|reflexivity].
Qed.

(** C4: with the webhook secret configured, an event whose signature check
    fails is rejected with status 400 (not a 5xx) and the database is left as
    it was, whatever the payload claims. *)
Theorem webhook_invalid_signature_rejected `{StripeWebhooks}
    env w req s secret msg :
  truthy_string (STRIPE_WEBHOOK_SECRET env) = Some secret ->
  constructEvent (raw_body req) (stripe_signature req) secret (now w) = inl msg ->
  let out := run (webhook env w req) s in
  fst out = Some (mkResponse 400 (Send ("Webhook Error: " +:+ msg)))
  /\ rejected (fst out)
  /\ (forall resp, fst out = Some resp -> status resp < 500)
  /\ db (snd out) = db s.
Proof.
  intros Hsecret Hsig out. subst out.
  rewrite (webhook_run_invalid env secret Hsecret w req s msg Hsig). cbn.
  repeat split.
  - eexists. split; [reflexivity|]. cbn. lia.
  - intros resp [= <-]. cbn. lia.
Qed.

(** C5: with the webhook secret configured, every event whose signature
    verifies is answered by 200 and [{ received: true }]: whatever its type,
    with or without a booking id, and whether the update succeeds or throws. *)
Theorem webhook_verified_event_acknowledged `{StripeWebhooks}
    env w req s secret ev :
  truthy_string (STRIPE_WEBHOOK_SECRET env) = Some secret ->
  constructEvent (raw_body req) (stripe_signature req) secret (now w) = inr ev ->
  fst (run (webhook env w req) s) = Some acknowledgment.
Proof.
  intros Hsecret Hsig.
  destruct (String.eqb_spec (event_type ev) "checkout.session.completed") as [Hty|Hty].
  - destruct (truthy_string (session_metadata ev ≫= (.!! "bookingId")))
      as [bookingId|] eqn:Hid.
    + rewrite (webhook_run_with_id env secret Hsecret w req s ev bookingId Hsig Hty Hid).
      destruct (booking_update_paid w bookingId (db s)) as [e|[row db']]; reflexivity.
    + rewrite (webhook_run_without_id env secret Hsecret w req s ev Hsig Hty Hid).
      reflexivity.
  - apply String.eqb_neq in Hty.
    rewrite (webhook_run_unhandled env secret Hsecret w req s ev Hsig Hty).
    reflexivity.
Qed.

(** C3 (as the code has it): a verified completed-payment event without a
    booking id in its metadata changes nothing in the database, writes one
    warning to the console, and is acknowledged with 200 like any other
    verified event. *)
Theorem webhook_missing_booking_id_acknowledged `{StripeWebhooks}
    env w req s secret ev :
  truthy_string (STRIPE_WEBHOOK_SECRET env) = Some secret ->
  constructEvent (raw_body req) (stripe_signature req) secret (now w) = inr ev ->
  event_type ev = "checkout.session.completed" ->
  session_metadata ev ≫= (.!! "bookingId") = None ->
  let out := run (webhook env w req) s in
  fst out = Some acknowledgment
  /\ db (snd out) = db s
  /\ console (snd out) = console s ++ [without_bookingId].
Proof.
  intros Hsecret Hsig Hty Hid out. subst out.
  rewrite (webhook_run_without_id env secret Hsecret w req s ev Hsig Hty)
    by (rewrite Hid; reflexivity).
  auto.
Qed.

(** C2 (as the code has it): a verified event whose booking id names no
    booking leaves the database unchanged and the caller receives the 200
    acknowledgment; for a completed payment the failed update is written to
    the console as an error. *)
Theorem webhook_unknown_booking_acknowledged `{StripeWebhooks}
    env w req s secret ev bookingId :
  truthy_string (STRIPE_WEBHOOK_SECRET env) = Some secret ->
  constructEvent (raw_body req) (stripe_signature req) secret (now w) = inr ev ->
  session_metadata ev ≫= (.!! "bookingId") = Some bookingId ->
  bookings (db s) !! bookingId = None ->
  let out := run (webhook env w req) s in
  fst out = Some acknowledgment
  /\ db (snd out) = db s
  /\ (event_type ev = "checkout.session.completed" -> bookingId <> "" ->
      exists e, console (snd out) = console s ++ [update_failed bookingId e]).
Proof.
  intros Hsecret Hsig Hid Hnone out. subst out.
  assert (Hupdate : exists e, booking_update_paid w bookingId (db s) = inl e).
  { unfold booking_update_paid. rewrite Hnone.
    destruct (prisma_fault w BookingUpdate) as [e|]; eauto. }
  destruct Hupdate as [e Hupdate].
  destruct (String.eqb_spec (event_type ev) "checkout.session.completed") as [Hty|Hty].
  - destruct (String.eqb_spec bookingId "") as [->|Hne].
    + rewrite (webhook_run_without_id env secret Hsecret w req s ev Hsig Hty)
        by (rewrite Hid; reflexivity).
      repeat split. intros _ Hne. contradiction.
    + rewrite (webhook_run_with_id env secret Hsecret w req s ev bookingId Hsig Hty)
        by (rewrite Hid; apply truthy_string_intro, Hne).
      rewrite Hupdate. repeat split. eauto.
  - apply String.eqb_neq in Hty.
    rewrite (webhook_run_unhandled env secret Hsecret w req s ev Hsig Hty).
    repeat split. intros Hty'. apply String.eqb_neq in Hty. contradiction.
Qed.

Lemma booking_update_paid_found w bookingId d b :
  prisma_fault w BookingUpdate = None ->
  bookings d !! bookingId = Some b ->
  booking_update_paid w bookingId d =
    inr (Booking.set_paid b,
         with_bookings d (<[bookingId := Booking.set_paid b]> (bookings d))).
Proof. intros Hf Hb. unfold booking_update_paid. rewrite Hf, Hb. reflexivity. Qed.

Lemma delivery_report_app before r lines :
  delivery_report before (mkSt (db before) (console before ++ lines)) r = (r, lines)
  /\ forall d, delivery_report before (mkSt d (console before ++ lines)) r = (r, lines).
Proof.
  unfold delivery_report. cbn. rewrite drop_app_length. auto.
Qed.

(** C1 (as the code has it): for a stored unpaid booking, two deliveries of
    the same verified completed-payment event, one after the other, both run
    the update and both report the same thing: the 200 acknowledgment and the
    console line that the booking was marked as paid.  After the first the
    booking is the stored row with [paid = true]; the second leaves the
    database as the first left it. *)
Theorem webhook_duplicate_delivery `{StripeWebhooks}
    env w1 w2 req s secret ev bookingId b :
  truthy_string (STRIPE_WEBHOOK_SECRET env) = Some secret ->
  constructEvent (raw_body req) (stripe_signature req) secret (now w1) = inr ev ->
  constructEvent (raw_body req) (stripe_signature req) secret (now w2) = inr ev ->
  event_type ev = "checkout.session.completed" ->
  session_metadata ev ≫= (.!! "bookingId") = Some bookingId ->
  bookingId <> "" ->
  prisma_fault w1 BookingUpdate = None ->
  prisma_fault w2 BookingUpdate = None ->
  bookings (db s) !! bookingId = Some b ->
  Booking.paid b = false ->
  let first := run (webhook env w1 req) s in
  let second := run (webhook env w2 req) (snd first) in
  delivery_report s (snd first) (fst first)
    = (Some acknowledgment, [marked_as_paid bookingId])
  /\ delivery_report (snd first) (snd second) (fst second)
    = (Some acknowledgment, [marked_as_paid bookingId])
  /\ bookings (db (snd first)) !! bookingId = Some (Booking.set_paid b)
  /\ Booking.paid (Booking.set_paid b) = true
  /\ db (snd second) = db (snd first).
Proof.
  intros Hsecret Hsig1 Hsig2 Hty Hid Hne Hf1 Hf2 Hb Hunpaid first second.
  assert (Htruthy : truthy_string (session_metadata ev ≫= (.!! "bookingId"))
                    = Some bookingId)
    by (rewrite Hid; apply truthy_string_intro, Hne).
  assert (Hfirst : first =
    (Some acknowledgment,
     mkSt (with_bookings (db s) (<[bookingId := Booking.set_paid b]> (bookings (db s))))
          (console s ++ [marked_as_paid bookingId]))).
  { subst first.
    rewrite (webhook_run_with_id env secret Hsecret w1 req s ev bookingId Hsig1 Hty Htruthy).
    rewrite (booking_update_paid_found w1 bookingId (db s) b Hf1 Hb). reflexivity. }
  assert (Hstored : bookings (db (snd first)) !! bookingId = Some (Booking.set_paid b)).
  { rewrite Hfirst. cbn. apply lookup_insert_eq. }
  assert (Hsecond : second =
    (Some acknowledgment,
     mkSt (db (snd first)) (console (snd first) ++ [marked_as_paid bookingId]))).
  { subst second.
    rewrite (webhook_run_with_id env secret Hsecret w2 req (snd first) ev bookingId
               Hsig2 Hty Htruthy).
    rewrite (booking_update_paid_found w2 bookingId _ _ Hf2 Hstored).
    rewrite Hfirst. cbn. unfold with_bookings. cbn.
    rewrite insert_insert_eq. reflexivity. }
  repeat split.
  - rewrite Hfirst. cbn [fst snd]. apply delivery_report_app.
  - rewrite Hsecond. cbn [fst snd]. apply delivery_report_app.
  - exact Hstored.
  - rewrite Hsecond. reflexivity.
Qed.

(** ** The checkout handler *)

Section CheckoutProperties.
Context `{JsRuntime}.
Variable env : ProcessEnv.

Lemma checkout_run_missing w body s :
  missing_required body = true ->
  run (create_checkout_session env w body) s = (Some validation_error, s).
Proof.
  intros Hm. unfold create_checkout_session. step_handler. rewrite Hm.
  reflexivity.
Qed.

(** Past the validation the handler looks the boat up, creates the booking
    and asks for the session; a throw at any of the three goes to the
    [catch] clause, and what was written before it stays written. *)
Lemma checkout_run_present w body s :
  missing_required body = false ->
  run (create_checkout_session env w body) s =
    match boat_findUnique w (prop body "boatId") (db s) with
    | inl e =>
      (Some internal_error,
       mkSt (db s) (console s ++ [session_error (PrismaErr e)]))
    | inr None => (Some boat_not_found, s)
    | inr (Some boat) =>
      match booking_create w (booking_input body boat) (db s) with
      | inl e =>
        (Some internal_error,
         mkSt (db s) (console s ++ [session_error (PrismaErr e)]))
      | inr (id, _, db') =>
        match sessions_create w
                (session_params env body boat (data_price (booking_input body boat)) id)
        with
        | inl msg =>
          (Some internal_error,
           mkSt db' (console s ++ [session_error (StripeErr msg)]))
        | inr session => (Some (session_created session), mkSt db' (console s))
        end
      end
    end.
Proof.
  intros Hm. unfold create_checkout_session. step_handler. rewrite Hm.
  destruct (boat_findUnique w (prop body "boatId") (db s)) as [e|[boat|]];
    [reflexivity| |destruct s; reflexivity].
  fold (booking_input body boat).
  destruct (booking_create w (booking_input body boat) (db s)) as [e|[[id row] db']];
    [reflexivity|].
  cbn.
  destruct (sessions_create w _) as [msg|session]; reflexivity.
Qed.
End CheckoutProperties.

Lemma missing_required_spec body :
  missing_required body = true <->
  exists k, k ∈ required_fields /\ truthy (prop body k) = false.
Proof.
  unfold missing_required, required_fields. split.
  - intros Hm.
    repeat (apply orb_true_iff in Hm as [Hm|Hm]);
      apply negb_true_iff in Hm; eexists; (split; [|exact Hm]); set_solver.
  - intros (k & Hk & Hfalse).
    repeat (apply elem_of_cons in Hk as [->|Hk]); [..|by apply elem_of_nil in Hk];
      rewrite Hfalse; cbn; rewrite ?orb_true_r; reflexivity.
Qed.

Lemma prop_absent (body : gmap string JsVal) k :
  body !! k = None -> truthy (prop body k) = false.
Proof. intros Hk. unfold prop. rewrite Hk. reflexivity. Qed.

(** The handler answers with the validation error exactly when the test of
    line 29 fires. *)
Lemma checkout_validation_iff `{JsRuntime} env w body s :
  fst (run (create_checkout_session env w body) s) = Some validation_error
  <-> missing_required body = true.
Proof.
  destruct (missing_required body) eqn:Hm.
  - rewrite (checkout_run_missing env w body s Hm). done.
  - rewrite (checkout_run_present env w body s Hm).
    split; [|discriminate].
    destruct (boat_findUnique w _ (db s)) as [e|[boat|]]; try discriminate.
    destruct (booking_create w _ (db s)) as [e|[[id row] db']]; try discriminate.
    destruct (sessions_create w _) as [msg|session]; discriminate.
Qed.

(** C9 (as the code has it): the request is answered by the validation error
    (400, "Missing required booking data", nothing written) whenever boat id,
    port id, user id, start time, end time or booking type is falsy, which an
    absent field is.  The captain flag is not required, and the duration is
    not required of a half-day or full-day request: a request with the six
    fields that is for a half or full day, or carries a duration, is not
    refused by the validation. *)
Theorem checkout_validation_fields `{JsRuntime} env w body s :
  let out := run (create_checkout_session env w body) s in
  ((exists k, k ∈ required_fields /\ truthy (prop body k) = false) ->
   out = (Some validation_error, s))
  /\ ((forall k, k ∈ required_fields -> truthy (prop body k) = true) ->
      (prop body "bookingType" = JStr "half_day"
       \/ prop body "bookingType" = JStr "full_day"
       \/ body !! "durationHours" <> None) ->
      fst out <> Some validation_error)
  /\ (forall k, body !! k = None -> truthy (prop body k) = false).
Proof.
  intros out. subst out. split; [|split].
  - intros Hfalsy. apply missing_required_spec in Hfalsy.
    apply checkout_run_missing, Hfalsy.
  - intros Hall _ Hrefused.
    apply checkout_validation_iff, missing_required_spec in Hrefused
      as (k & Hk & Hfalse).
    rewrite (Hall k Hk) in Hfalse. discriminate.
  - apply prop_absent.
Qed.

(** Whatever the request, the handler writes at most one row, under the id the
    database hands out, and it is the row built from the boat the request
    names and the request's own fields. *)
Lemma checkout_run_db `{JsRuntime} env w body s :
  let out := run (create_checkout_session env w body) s in
  db (snd out) = db s
  \/ exists id boat row,
       prop body "boatId" = JStr id /\ boats (db s) !! id = Some boat
       /\ booking_create w (booking_input body boat) (db s)
          = inr (uuid w, row, db (snd out)).
Proof.
  intros out. subst out.
  destruct (missing_required body) eqn:Hm.
  { rewrite (checkout_run_missing env w body s Hm). auto. }
  rewrite (checkout_run_present env w body s Hm).
  destruct (boat_findUnique w _ (db s)) as [e|[boat|]] eqn:Hfind; auto.
  destruct (booking_create w _ (db s)) as [e|[[id row] db']] eqn:Hcreate; auto.
  right.
  unfold boat_findUnique in Hfind.
  destruct (prisma_fault w BoatFindUnique); [discriminate|].
  destruct (prop body "boatId") as [| | | |bid| |] eqn:Hid; try discriminate.
  injection Hfind as Hboat.
  assert (id = uuid w) as ->.
  { unfold booking_create in Hcreate.
    repeat (case_match; try discriminate). by injection Hcreate as <- _ _. }
  exists bid, boat, row.
  destruct (sessions_create w _); cbn; auto.
Qed.

(** C10: a request whose boat id names no boat in the catalog never writes a
    booking; when it passes the basic validation and the lookup itself does
    not fail, it is answered by 404 "Boat not found" and the state is
    untouched. *)
Theorem checkout_unknown_boat `{JsRuntime} env w body s id :
  prop body "boatId" = JStr id ->
  boats (db s) !! id = None ->
  let out := run (create_checkout_session env w body) s in
  db (snd out) = db s
  /\ (missing_required body = false ->
      prisma_fault w BoatFindUnique = None ->
      out = (Some boat_not_found, s)).
Proof.
  intros Hid Hnone out. split.
  - destruct (checkout_run_db env w body s) as [Hsame|(id' & boat & row & Hid' & Hboat & _)];
      [exact Hsame|].
    rewrite Hid in Hid'. injection Hid' as <-. congruence.
  - intros Hm Hfault. subst out.
    rewrite (checkout_run_present env w body s Hm).
    unfold boat_findUnique. rewrite Hfault, Hid, Hnone. reflexivity.
Qed.

Lemma booking_create_inv w data d id row d' :
  booking_create w data d = inr (id, row, d') ->
  id = uuid w
  /\ bookings d !! uuid w = None
  /\ d' = with_bookings d (<[uuid w := row]> (bookings d))
  /\ float_column (data_price data) = Some (Booking.price row)
  /\ Booking.paid row = data_paid data.
Proof.
  unfold booking_create. intros Hc.
  repeat (case_match; try discriminate).
  injection Hc as <- <- <-. auto.
Qed.

(** A row that is in the table after the request and was not before is the
    one the handler created, and its price is the computed one as the column
    holds it. *)
Lemma checkout_new_row `{JsRuntime} env w body s k row :
  bookings (db s) !! k = None ->
  bookings (db (snd (run (create_checkout_session env w body) s))) !! k = Some row ->
  exists id boat,
    prop body "boatId" = JStr id /\ boats (db s) !! id = Some boat
    /\ Booking.paid row = false
    /\ float_column
         (compute_price boat (prop body "bookingType") (prop body "durationHours")
                        (prop body "includeCaptain"))
       = Some (Booking.price row).
Proof.
  intros Hold Hnew.
  destruct (checkout_run_db env w body s) as [Hsame|(id & boat & row' & Hid & Hboat & Hc)].
  { rewrite Hsame in Hnew. congruence. }
  apply booking_create_inv in Hc as (_ & _ & Hdb & Hprice & Hpaid).
  rewrite Hdb in Hnew. cbn in Hnew.
  destruct (decide (k = uuid w)) as [->|Hk].
  - rewrite lookup_insert_eq in Hnew. injection Hnew as ->.
    exists id, boat. rewrite <- Hprice, Hpaid. auto.
  - rewrite lookup_insert_ne in Hnew by congruence. congruence.
Qed.

Lemma compute_price_rates `{JsRuntime} boat boat' bookingType durationHours includeCaptain :
  Boat.hourlyRate boat' = Boat.hourlyRate boat ->
  Boat.halfDayRate boat' = Boat.halfDayRate boat ->
  Boat.fullDayRate boat' = Boat.fullDayRate boat ->
  compute_price boat' bookingType durationHours includeCaptain
  = compute_price boat bookingType durationHours includeCaptain.
Proof. unfold compute_price. intros -> -> ->. reflexivity. Qed.

Lemma compute_price_nonneg `{JsRuntime} boat bookingType durationHours includeCaptain :
  recognized bookingType ->
  valid_rates boat ->
  nonneg_finite (ToNumber durationHours) = true ->
  nonneg (compute_price boat bookingType durationHours includeCaptain) = true.
Proof.
  intros Hmode (Hhour & Hhalf & Hfull) Hdur.
  destruct Hmode as [->|[->| ->]]; unfold compute_price; cbn;
    destruct (truthy includeCaptain);
    auto using add_nonneg, mul_nonneg, nonneg_finite_nonneg.
Qed.

(** C6: the price is the hourly rate times the duration for [per_hour], the
    half-day rate for [half_day] and the full-day rate for [full_day]
    (whatever the duration), plus a captain fee of 100, 200 or 400 when the
    captain is asked for; the three fees differ.  With rates 50, 300 and 500,
    four hours without captain cost 200 and a half day with captain 500. *)
Theorem compute_price_by_mode `{JsRuntime} boat durationHours includeCaptain :
  compute_price boat (JStr "per_hour") durationHours includeCaptain
    = (if truthy includeCaptain
       then Boat.hourlyRate boat * ToNumber durationHours + 100
       else Boat.hourlyRate boat * ToNumber durationHours)%float
  /\ compute_price boat (JStr "half_day") durationHours includeCaptain
    = (if truthy includeCaptain then Boat.halfDayRate boat + 200
       else Boat.halfDayRate boat)%float
  /\ compute_price boat (JStr "full_day") durationHours includeCaptain
    = (if truthy includeCaptain then Boat.fullDayRate boat + 400
       else Boat.fullDayRate boat)%float
  /\ (PrimFloat.eqb 100 200 = false /\ PrimFloat.eqb 100 400 = false
      /\ PrimFloat.eqb 200 400 = false)
  /\ compute_price (Boat.mk (Boat.name boat) (Boat.type boat) (Boat.portId boat)
                            (Boat.imageUrl boat) 50 300 500)
                   (JStr "per_hour") (JNum 4) (JBool false) = 200%float
  /\ compute_price (Boat.mk (Boat.name boat) (Boat.type boat) (Boat.portId boat)
                            (Boat.imageUrl boat) 50 300 500)
                   (JStr "half_day") durationHours (JBool true) = 500%float.
Proof.
  unfold compute_price. cbn.
  destruct (truthy includeCaptain); repeat split; reflexivity.
Qed.

(** C8: for a recognized booking type, rates that are non-negative finite
    numbers and a duration that converts to one, the price is non-negative;
    it depends on the boat through its three rates only; and the price on
    any row the handler creates is this function of the boat's rates and the
    request's booking type, duration and captain flag, whatever the
    environment, the clock, the console or the rest of the database: the row
    holds the computed price as a [Float] column holds a number (finite, a
    zero without its sign), so a price that is non-negative and equal to the
    computed one as numbers compare. *)
Theorem checkout_price_nonnegative_and_pure `{JsRuntime}
    boat bookingType durationHours includeCaptain :
  recognized bookingType ->
  valid_rates boat ->
  nonneg_finite (ToNumber durationHours) = true ->
  nonneg (compute_price boat bookingType durationHours includeCaptain) = true
  /\ (forall boat',
        Boat.hourlyRate boat' = Boat.hourlyRate boat ->
        Boat.halfDayRate boat' = Boat.halfDayRate boat ->
        Boat.fullDayRate boat' = Boat.fullDayRate boat ->
        compute_price boat' bookingType durationHours includeCaptain
        = compute_price boat bookingType durationHours includeCaptain)
  /\ (forall env w body s id k row,
        prop body "boatId" = JStr id ->
        boats (db s) !! id = Some boat ->
        prop body "bookingType" = bookingType ->
        prop body "durationHours" = durationHours ->
        prop body "includeCaptain" = includeCaptain ->
        bookings (db s) !! k = None ->
        bookings (db (snd (run (create_checkout_session env w body) s))) !! k
          = Some row ->
        float_column (compute_price boat bookingType durationHours includeCaptain)
          = Some (Booking.price row)
        /\ PrimFloat.eqb (Booking.price row)
             (compute_price boat bookingType durationHours includeCaptain) = true
        /\ nonneg (Booking.price row) = true).
Proof.
  intros Hmode Hrates Hdur.
  pose proof (compute_price_nonneg boat bookingType durationHours includeCaptain
                Hmode Hrates Hdur) as Hnonneg.
  split; [exact Hnonneg|]. split.
  - intros boat'. apply compute_price_rates.
  - intros env w body s id k row Hid Hboat <- <- <- Hold Hnew.
    destruct (checkout_new_row env w body s k row Hold Hnew)
      as (id' & boat' & Hid' & Hboat' & _ & Hprice).
    rewrite Hid in Hid'. injection Hid' as <-.
    rewrite Hboat in Hboat'. injection Hboat' as <-.
    split; [exact Hprice|].
    apply float_column_Some in Hprice as [Hfinite ->].
    auto using unsigned_zero_eqb, unsigned_zero_nonneg.
Qed.

(** Both handlers answer every request. *)
Lemma checkout_always_responds `{JsRuntime} env w body s :
  exists resp, fst (run (create_checkout_session env w body) s) = Some resp.
Proof.
  destruct (missing_required body) eqn:Hm.
  - rewrite (checkout_run_missing env w body s Hm). eauto.
  - rewrite (checkout_run_present env w body s Hm).
    destruct (boat_findUnique w _ (db s)) as [e|[boat|]]; eauto.
    destruct (booking_create w _ (db s)) as [e|[[id row] db']]; eauto.
    destruct (sessions_create w _) as [msg|session]; eauto.
Qed.

Lemma webhook_always_responds `{StripeWebhooks} env w req s :
  exists resp, fst (run (webhook env w req) s) = Some resp.
Proof.
  destruct (truthy_string (STRIPE_WEBHOOK_SECRET env)) as [secret|] eqn:Hsecret.
  - destruct (constructEvent (raw_body req) (stripe_signature req) secret (now w))
      as [msg|ev] eqn:Hsig.
    + rewrite (webhook_run_invalid env secret Hsecret w req s msg Hsig). eauto.
    + destruct (String.eqb_spec (event_type ev) "checkout.session.completed")
        as [Hty|Hty].
      * destruct (truthy_string (session_metadata ev ≫= (.!! "bookingId")))
          as [bookingId|] eqn:Hid.
        -- rewrite (webhook_run_with_id env secret Hsecret w req s ev bookingId
                      Hsig Hty Hid).
           destruct (booking_update_paid w bookingId (db s)) as [e|[row db']]; eauto.
        -- rewrite (webhook_run_without_id env secret Hsecret w req s ev Hsig Hty Hid).
           eauto.
      * apply String.eqb_neq in Hty.
        rewrite (webhook_run_unhandled env secret Hsecret w req s ev Hsig Hty). eauto.
  - unfold webhook. rewrite Hsecret. step_handler. eauto.
Qed.

(** A truthy booking type that is none of the three known ones is priced at
    the initial value of [price], with or without captain. *)
Lemma compute_price_unrecognized `{JsRuntime} boat bookingType durationHours includeCaptain :
  strict_eq_str bookingType "per_hour" = false ->
  strict_eq_str bookingType "half_day" = false ->
  strict_eq_str bookingType "full_day" = false ->
  compute_price boat bookingType durationHours includeCaptain = 0%float.
Proof.
  intros H1 H2 H3. unfold compute_price. rewrite H1, H2, H3.
  destruct (truthy includeCaptain); reflexivity.
Qed.

Lemma acknowledgment_not_rejected : ~ rejected (Some acknowledgment).
Proof. intros (resp & [= <-] & Hstatus). cbn in Hstatus. lia. Qed.

(** ** Concrete runs *)

Import Examples.

Example truthy_values :
  truthy (JStr "") = false /\ truthy (JNum 0) = false /\ truthy (JNum nan) = false
  /\ truthy JNull = false /\ truthy (JBool false) = false
  /\ truthy (JStr "0") = true /\ truthy (JArr []) = true.
Proof. repeat split. Qed.

Example price_four_hours_with_captain :
  compute_price boat1 (JStr "per_hour") (JNum 4) (JBool true) = 300%float.
Proof. reflexivity. Qed.

Example price_without_duration :
  is_nan (compute_price boat1 (JStr "per_hour") JUndefined (JBool false)) = true.
Proof. reflexivity. Qed.

(** A complete request: the booking is stored unpaid at the computed price and
    the session is returned. *)
Example checkout_per_hour :
  let out := run (create_checkout_session env0 w0 body_per_hour) s0 in
  fst out = Some (session_created session1)
  /\ bookings (db (snd out)) !! "b2"
     = Some (Booking.mk (Some "u1") (Some "bt1") (Some "p1")
                        1751364000000 1751378400000 300 false true 1751000000500)
  /\ bookings (db (snd out)) !! "b1" = Some booking1.
Proof. repeat split; vm_compute; reflexivity. Qed.

(** Without the secret the webhook answers 500 before looking at the event. *)
Example webhook_without_secret :
  run (webhook (mkEnv None None) w0 (signed "b1")) s0
  = (Some (mkResponse 500 (Send "Webhook secret not configured.")),
     mkSt db0 [mkLog LogError "STRIPE_WEBHOOK_SECRET is not set!" None]).
Proof. reflexivity. Qed.

(** C7: a complete request whose booking type is ["weekly"] is not refused:
    the handler stores an unpaid booking priced 0 and answers with the
    checkout session. *)
Lemma unrecognized_mode_booked_at_zero :
  let out := run (create_checkout_session env0 w0 body_weekly) s0 in
  ~ recognized (prop body_weekly "bookingType")
  /\ fst out = Some (session_created session1)
  /\ bookings (db (snd out)) !! "b2"
     = Some (Booking.mk (Some "u1") (Some "bt1") (Some "p1")
                        1751364000000 1751378400000 0 false true 1751000000500).
Proof.
  split.
  - intros [Hm|[Hm|Hm]]; vm_compute in Hm; discriminate Hm.
  - split; vm_compute; reflexivity.
Qed.

(** C1, as stated, fails: the booking ["b1"] is stored unpaid, and the second
    of two identical deliveries reports exactly what the first reports, the
    line that the booking was marked as paid, so nothing tells the repeat from
    the settlement. *)
Lemma duplicate_delivery_reported_as_settlement :
  let first := run (webhook env0 w0 (signed "b1")) s0 in
  let second := run (webhook env0 w0 (signed "b1")) (snd first) in
  bookings (db s0) !! "b1" = Some booking1
  /\ Booking.paid booking1 = false
  /\ delivery_report (snd first) (snd second) (fst second)
     = delivery_report s0 (snd first) (fst first)
  /\ delivery_report (snd first) (snd second) (fst second)
     = (Some acknowledgment, [marked_as_paid "b1"]).
Proof. repeat split; vm_compute; reflexivity. Qed.

(** C2, as stated, fails: no booking is called ["b404"], and the verified
    event that names it is acknowledged with 200, not rejected. *)
Lemma unknown_booking_not_rejected :
  let out := run (webhook env0 w0 (signed "b404")) s0 in
  bookings (db s0) !! "b404" = None
  /\ fst out = Some acknowledgment
  /\ ~ rejected (fst out).
Proof.
  assert (Hout : fst (run (webhook env0 w0 (signed "b404")) s0) = Some acknowledgment)
    by (vm_compute; reflexivity).
  cbv zeta. rewrite Hout.
  split; [vm_compute; reflexivity|].
  split; [reflexivity|apply acknowledgment_not_rejected].
Qed.

(** C3, as stated, fails: the verified completed-payment event without a
    booking id is acknowledged with 200, not rejected. *)
Lemma missing_booking_id_not_rejected :
  let out := run (webhook env0 w0 (signed "evt_without_metadata")) s0 in
  session_metadata (event_of "evt_without_metadata") ≫= (.!! "bookingId") = None
  /\ fst out = Some acknowledgment
  /\ ~ rejected (fst out).
Proof.
  assert (Hout : fst (run (webhook env0 w0 (signed "evt_without_metadata")) s0)
                 = Some acknowledgment)
    by (vm_compute; reflexivity).
  cbv zeta. rewrite Hout.
  split; [vm_compute; reflexivity|].
  split; [reflexivity|apply acknowledgment_not_rejected].
Qed.

(** C9, as stated, fails: a half-day request with neither duration nor
    captain flag passes the validation, is stored and gets its session. *)
Lemma request_without_duration_and_flag_accepted :
  let out := run (create_checkout_session env0 w0 body_half_day) s0 in
  body_half_day !! "durationHours" = None
  /\ body_half_day !! "includeCaptain" = None
  /\ fst out = Some (session_created session1)
  /\ fst out <> Some validation_error
  /\ bookings (db (snd out)) !! "b2"
     = Some (Booking.mk (Some "u1") (Some "bt1") (Some "p1")
                        1751364000000 1751378400000 300 false false 1751000000500).
Proof.
  assert (Hout : fst (run (create_checkout_session env0 w0 body_half_day) s0)
                 = Some (session_created session1))
    by (vm_compute; reflexivity).
  cbv zeta. rewrite Hout.
  do 2 (split; [vm_compute; reflexivity|]).
  split; [reflexivity|].
  split; [discriminate|vm_compute; reflexivity].
Qed.

(** *** Instances of the theorems above *)

Lemma webhook_duplicate_delivery_witness :
  let first := run (webhook env0 w0 (signed "b1")) s0 in
  let second := run (webhook env0 w0 (signed "b1")) (snd first) in
  delivery_report s0 (snd first) (fst first)
    = (Some acknowledgment, [marked_as_paid "b1"])
  /\ delivery_report (snd first) (snd second) (fst second)
    = (Some acknowledgment, [marked_as_paid "b1"])
  /\ bookings (db (snd first)) !! "b1" = Some (Booking.set_paid booking1)
  /\ Booking.paid (Booking.set_paid booking1) = true
  /\ db (snd second) = db (snd first).
Proof.
  apply (webhook_duplicate_delivery env0 w0 w0 (signed "b1") s0 "whsec_test"
           (event_of "b1") "b1" booking1);
    try (vm_compute; reflexivity).
  discriminate.
Defined.

Lemma webhook_unknown_booking_acknowledged_witness :
  let out := run (webhook env0 w0 (signed "b404")) s0 in
  fst out = Some acknowledgment
  /\ db (snd out) = db s0
  /\ exists e, console (snd out) = console s0 ++ [update_failed "b404" e].
Proof.
  destruct (webhook_unknown_booking_acknowledged env0 w0 (signed "b404") s0 "whsec_test"
              (event_of "b404") "b404") as (Hack & Hdb & Hlog);
    try (vm_compute; reflexivity).
  split; [exact Hack|]. split; [exact Hdb|].
  apply Hlog; [vm_compute; reflexivity|discriminate].
Defined.

Lemma checkout_validation_fields_witness :
  fst (run (create_checkout_session env0 w0 body_half_day) s0) <> Some validation_error
  /\ run (create_checkout_session env0 w0 (delete "portId" body_per_hour)) s0
     = (Some validation_error, s0).
Proof.
  split.
  - apply (checkout_validation_fields env0 w0 body_half_day s0).
    + intros k Hk. unfold required_fields in Hk.
      repeat (apply elem_of_cons in Hk as [->|Hk]); [..|by apply elem_of_nil in Hk];
        vm_compute; reflexivity.
    + left. vm_compute. reflexivity.
  - apply (checkout_validation_fields env0 w0 (delete "portId" body_per_hour) s0).
    exists "portId". split; [|vm_compute; reflexivity].
    unfold required_fields. set_solver.
Defined.

Lemma webhook_missing_booking_id_acknowledged_witness :
  let out := run (webhook env0 w0 (signed "evt_without_metadata")) s0 in
  fst out = Some acknowledgment
  /\ db (snd out) = db s0
  /\ console (snd out) = console s0 ++ [without_bookingId].
Proof.
  apply (webhook_missing_booking_id_acknowledged env0 w0
           (signed "evt_without_metadata") s0 "whsec_test"
           (event_of "evt_without_metadata"));
    vm_compute; reflexivity.
Defined.

Lemma webhook_invalid_signature_rejected_witness :
  let out := run (webhook env0 w0 (forged "b1")) s0 in
  fst out
    = Some (mkResponse 400
              (Send ("Webhook Error: " +:+
                     "No signatures found matching the expected signature for payload.")))
  /\ rejected (fst out)
  /\ (forall resp, fst out = Some resp -> status resp < 500)
  /\ db (snd out) = db s0.
Proof.
  apply (webhook_invalid_signature_rejected env0 w0 (forged "b1") s0 "whsec_test");
    vm_compute; reflexivity.
Defined.

Lemma webhook_verified_event_acknowledged_witness :
  fst (run (webhook env0 w0 (signed "evt_payment_intent")) s0) = Some acknowledgment.
Proof.
  apply (webhook_verified_event_acknowledged env0 w0 (signed "evt_payment_intent") s0
           "whsec_test" (event_of "evt_payment_intent"));
    vm_compute; reflexivity.
Defined.

Lemma checkout_unknown_boat_witness :
  run (create_checkout_session env0 w0 body_unknown_boat) s0
  = (Some boat_not_found, s0).
Proof.
  apply (checkout_unknown_boat env0 w0 body_unknown_boat s0 "bt9");
    vm_compute; reflexivity.
Defined.

Lemma checkout_price_nonnegative_and_pure_witness :
  nonneg (compute_price boat1 (JStr "per_hour") (JNum 4) (JBool true)) = true.
Proof.
  apply (checkout_price_nonnegative_and_pure boat1 (JStr "per_hour") (JNum 4)
           (JBool true)).
  - left. reflexivity.
  - repeat split; vm_compute; reflexivity.
  - vm_compute. reflexivity.
Defined.

(** * Further properties of the two handlers *)

(** ** The webhook: what it can do to the database *)

Lemma webhook_run_unconfigured `{StripeWebhooks} env w req s :
  truthy_string (STRIPE_WEBHOOK_SECRET env) = None ->
  run (webhook env w req) s =
    (Some secret_not_configured,
     mkSt (db s) (console s ++ [mkLog LogError "STRIPE_WEBHOOK_SECRET is not set!" None])).
Proof. intros Hsecret. unfold webhook. rewrite Hsecret. reflexivity. Qed.

Lemma with_bookings_same d : with_bookings d (bookings d) = d.
Proof. destruct d. reflexivity. Qed.

Lemma set_paid_paid b : Booking.paid b = true -> Booking.set_paid b = b.
Proof. destruct b. cbn. intros ->. reflexivity. Qed.

Lemma set_paid_same_terms b : same_terms b (Booking.set_paid b).
Proof. repeat split. Qed.

(** The one way the webhook writes: a verified completed session that names a
    stored booking, with the update going through. *)
Lemma webhook_run_db `{StripeWebhooks} env w req s :
  let out := run (webhook env w req) s in
  db (snd out) = db s
  \/ exists secret ev bookingId b,
       truthy_string (STRIPE_WEBHOOK_SECRET env) = Some secret
       /\ constructEvent (raw_body req) (stripe_signature req) secret (now w) = inr ev
       /\ event_type ev = "checkout.session.completed"
       /\ truthy_string (session_metadata ev ≫= (.!! "bookingId")) = Some bookingId
       /\ prisma_fault w BookingUpdate = None
       /\ bookings (db s) !! bookingId = Some b
       /\ out = (Some acknowledgment,
                 mkSt (with_bookings (db s)
                         (<[bookingId := Booking.set_paid b]> (bookings (db s))))
                      (console s ++ [marked_as_paid bookingId])).
Proof.
  intros out. subst out.
  destruct (truthy_string (STRIPE_WEBHOOK_SECRET env)) as [secret|] eqn:Hsecret;
    [|rewrite (webhook_run_unconfigured env w req s Hsecret); auto].
  destruct (constructEvent (raw_body req) (stripe_signature req) secret (now w))
    as [msg|ev] eqn:Hsig;
    [rewrite (webhook_run_invalid env secret Hsecret w req s msg Hsig); auto|].
  destruct (String.eqb_spec (event_type ev) "checkout.session.completed") as [Hty|Hty];
    [|apply String.eqb_neq in Hty;
      rewrite (webhook_run_unhandled env secret Hsecret w req s ev Hsig Hty); auto].
  destruct (truthy_string (session_metadata ev ≫= (.!! "bookingId")))
    as [bookingId|] eqn:Hid;
    [|rewrite (webhook_run_without_id env secret Hsecret w req s ev Hsig Hty Hid); auto].
  rewrite (webhook_run_with_id env secret Hsecret w req s ev bookingId Hsig Hty Hid).
  unfold booking_update_paid.
  destruct (prisma_fault w BookingUpdate) as [e|] eqn:Hfault; [auto|].
  destruct (bookings (db s) !! bookingId) as [b|] eqn:Hb; [|auto].
  right. exists secret, ev, bookingId, b. auto 10.
Qed.

(** X1: whatever the request, the webhook leaves users, ports and boats alone,
    adds and removes no booking, and leaves every booking with the terms it
    had; a booking that was paid stays paid. *)
Theorem webhook_keeps_terms `{StripeWebhooks} env w req s :
  let d := db s in
  let d' := db (snd (run (webhook env w req) s)) in
  users d' = users d /\ ports d' = ports d /\ boats d' = boats d
  /\ (forall k, bookings d !! k = None -> bookings d' !! k = None)
  /\ (forall k b, bookings d !! k = Some b ->
        exists b', bookings d' !! k = Some b' /\ same_terms b b'
                   /\ (Booking.paid b = true -> Booking.paid b' = true)).
Proof.
  intros d d'. subst d d'.
  destruct (webhook_run_db env w req s)
    as [->|(secret & ev & id & b0 & _ & _ & _ & _ & _ & Hb0 & ->)].
  { repeat split; auto. intros k b Hb. exists b. repeat split; auto. }
  cbn. repeat split.
  - intros k Hk. rewrite lookup_insert_ne; [exact Hk|congruence].
  - intros k b Hb. destruct (decide (k = id)) as [->|Hne].
    + rewrite lookup_insert_eq. assert (b0 = b) as -> by congruence.
      exists (Booking.set_paid b). split; [reflexivity|].
      split; [apply set_paid_same_terms|reflexivity].
    + rewrite lookup_insert_ne by congruence. exists b. repeat split; auto.
Qed.

(** The response, the database written and the console lines added depend on
    the state through its database only; the console is appended to. *)
Lemma webhook_run_shape `{StripeWebhooks} env w req d :
  exists r d' lines,
    forall s, db s = d ->
      run (webhook env w req) s = (r, mkSt d' (console s ++ lines)).
Proof.
  destruct (truthy_string (STRIPE_WEBHOOK_SECRET env)) as [secret|] eqn:Hsecret.
  2:{ do 3 eexists. intros s Hd.
      rewrite (webhook_run_unconfigured env w req s Hsecret), Hd. reflexivity. }
  destruct (constructEvent (raw_body req) (stripe_signature req) secret (now w))
    as [msg|ev] eqn:Hsig.
  { do 3 eexists. intros s Hd.
    rewrite (webhook_run_invalid env secret Hsecret w req s msg Hsig), Hd.
    reflexivity. }
  destruct (String.eqb_spec (event_type ev) "checkout.session.completed") as [Hty|Hty].
  2:{ apply String.eqb_neq in Hty. do 3 eexists. intros s Hd.
      rewrite (webhook_run_unhandled env secret Hsecret w req s ev Hsig Hty), Hd.
      reflexivity. }
  destruct (truthy_string (session_metadata ev ≫= (.!! "bookingId")))
    as [bookingId|] eqn:Hid.
  2:{ do 3 eexists. intros s Hd.
      rewrite (webhook_run_without_id env secret Hsecret w req s ev Hsig Hty Hid), Hd.
      reflexivity. }
  destruct (booking_update_paid w bookingId d) as [e|[row d']] eqn:Hupdate.
  - do 3 eexists. intros s Hd.
    rewrite (webhook_run_with_id env secret Hsecret w req s ev bookingId Hsig Hty Hid).
    rewrite Hd, Hupdate. reflexivity.
  - do 3 eexists. intros s Hd.
    rewrite (webhook_run_with_id env secret Hsecret w req s ev bookingId Hsig Hty Hid).
    rewrite Hd, Hupdate. reflexivity.
Qed.

Lemma webhook_run_verified `{StripeWebhooks} env w req s secret ev :
  truthy_string (STRIPE_WEBHOOK_SECRET env) = Some secret ->
  constructEvent (raw_body req) (stripe_signature req) secret (now w) = inr ev ->
  fst (run (webhook env w req) s) = Some acknowledgment.
Proof.
  intros Hsecret Hsig.
  destruct (webhook_run_db env w req s)
    as [_|(? & ? & ? & ? & _ & _ & _ & _ & _ & _ & ->)]; [|reflexivity].
  destruct (String.eqb_spec (event_type ev) "checkout.session.completed") as [Hty|Hty].
  - destruct (truthy_string (session_metadata ev ≫= (.!! "bookingId")))
      as [bookingId|] eqn:Hid.
    + rewrite (webhook_run_with_id env secret Hsecret w req s ev bookingId Hsig Hty Hid).
      destruct (booking_update_paid w bookingId (db s)) as [e|[row db']]; reflexivity.
    + rewrite (webhook_run_without_id env secret Hsecret w req s ev Hsig Hty Hid).
      reflexivity.
  - apply String.eqb_neq in Hty.
    rewrite (webhook_run_unhandled env secret Hsecret w req s ev Hsig Hty).
    reflexivity.
Qed.

(** X2: the webhook changes the database only for a verified
    [checkout.session.completed] event whose metadata names a stored, unpaid
    booking, with the secret configured and the update going through; what it
    then writes is that booking with [paid = true]. *)
Theorem webhook_writes_only_verified_payments `{StripeWebhooks} env w req s :
  db (snd (run (webhook env w req) s)) <> db s ->
  exists secret ev bookingId b,
    truthy_string (STRIPE_WEBHOOK_SECRET env) = Some secret
    /\ constructEvent (raw_body req) (stripe_signature req) secret (now w) = inr ev
    /\ event_type ev = "checkout.session.completed"
    /\ session_metadata ev ≫= (.!! "bookingId") = Some bookingId
    /\ prisma_fault w BookingUpdate = None
    /\ bookings (db s) !! bookingId = Some b
    /\ Booking.paid b = false
    /\ bookings (db (snd (run (webhook env w req) s))) !! bookingId
       = Some (Booking.set_paid b).
Proof.
  intros Hchanged.
  destruct (webhook_run_db env w req s)
    as [Hsame|(secret & ev & id & b & Hsecret & Hsig & Hty & Hid & Hfault & Hb & Hout)];
    [contradiction|].
  exists secret, ev, id, b.
  destruct (session_metadata ev ≫= (.!! "bookingId")) as [id'|] eqn:Hmeta;
    [|discriminate].
  assert (id' = id) as ->.
  { cbn in Hid. destruct (String.eqb id' ""); congruence. }
  repeat split; auto.
  - destruct (Booking.paid b) eqn:Hpaid; [|reflexivity].
    exfalso. apply Hchanged. rewrite Hout. cbn.
    rewrite (set_paid_paid b Hpaid), (insert_id _ _ _ Hb).
    apply with_bookings_same.
  - rewrite Hout. cbn. apply lookup_insert_eq.
Qed.

(** X3: delivering the same event twice under the same conditions is the same
    as delivering it once: the second delivery gets the response of the first
    and leaves the database as the first left it. *)
Theorem webhook_redelivery_idempotent `{StripeWebhooks} env w req s :
  let first := run (webhook env w req) s in
  let second := run (webhook env w req) (snd first) in
  fst second = fst first /\ db (snd second) = db (snd first).
Proof.
  intros first second. subst first second.
  destruct (webhook_run_db env w req s)
    as [Hsame|(secret & ev & id & b & Hsecret & Hsig & Hty & Hid & Hfault & Hb & Hout)].
  - destruct (webhook_run_shape env w req (db s)) as (r & d' & lines & Hshape).
    rewrite (Hshape (snd (run (webhook env w req) s)) Hsame).
    rewrite (Hshape s eq_refl) in *. cbn in *. auto.
  - rewrite Hout. cbn [fst snd].
    rewrite (webhook_run_with_id env secret Hsecret w req _ ev id Hsig Hty Hid).
    cbn [db console].
    erewrite booking_update_paid_found;
      [|exact Hfault|cbn; apply lookup_insert_eq].
    cbn. split; [reflexivity|].
    unfold with_bookings. cbn. rewrite insert_insert_eq. reflexivity.
Qed.

(** X4: when the settlement update throws, for whatever reason, the event is
    still acknowledged with 200; the database is as it was, so the booking
    keeps the [paid] flag it had, and the failure is only in the console. *)
Theorem webhook_swallows_update_failure `{StripeWebhooks}
    env w req s secret ev bookingId e :
  truthy_string (STRIPE_WEBHOOK_SECRET env) = Some secret ->
  constructEvent (raw_body req) (stripe_signature req) secret (now w) = inr ev ->
  event_type ev = "checkout.session.completed" ->
  truthy_string (session_metadata ev ≫= (.!! "bookingId")) = Some bookingId ->
  prisma_fault w BookingUpdate = Some e ->
  run (webhook env w req) s =
    (Some acknowledgment, mkSt (db s) (console s ++ [update_failed bookingId e])).
Proof.
  intros Hsecret Hsig Hty Hid Hfault.
  rewrite (webhook_run_with_id env secret Hsecret w req s ev bookingId Hsig Hty Hid).
  unfold booking_update_paid. rewrite Hfault. reflexivity.
Qed.

(** X5: the three answers of the webhook and when each is given: 500 exactly
    when the secret is unset or empty, 400 with the library's message exactly
    when the secret is set and the signature check throws, and the 200
    acknowledgment exactly when the check returns an event. *)
Theorem webhook_response_classified `{StripeWebhooks} env w req s :
  let r := fst (run (webhook env w req) s) in
  (r = Some secret_not_configured
   <-> truthy_string (STRIPE_WEBHOOK_SECRET env) = None)
  /\ (forall msg,
        r = Some (mkResponse 400 (Send ("Webhook Error: " +:+ msg)))
        <-> exists secret,
              truthy_string (STRIPE_WEBHOOK_SECRET env) = Some secret
              /\ constructEvent (raw_body req) (stripe_signature req) secret (now w)
                 = inl msg)
  /\ (r = Some acknowledgment
      <-> exists secret ev,
            truthy_string (STRIPE_WEBHOOK_SECRET env) = Some secret
            /\ constructEvent (raw_body req) (stripe_signature req) secret (now w)
               = inr ev).
Proof.
  intros r. subst r.
  destruct (truthy_string (STRIPE_WEBHOOK_SECRET env)) as [secret|] eqn:Hsecret.
  2:{ rewrite (webhook_run_unconfigured env w req s Hsecret). cbn.
      split; [done|]. split; [intros msg|]; (split; [discriminate|]).
      - intros (secret & Hs & _). discriminate Hs.
      - intros (secret & ev & Hs & _). discriminate Hs. }
  destruct (constructEvent (raw_body req) (stripe_signature req) secret (now w))
    as [msg|ev] eqn:Hsig.
  - rewrite (webhook_run_invalid env secret Hsecret w req s msg Hsig). cbn.
    split; [split; discriminate|]. split.
    + intros msg'. split.
      * intros [= Hmsg]. exists secret. split; [reflexivity|].
        change (msg = msg') in Hmsg. subst msg'. exact Hsig.
      * intros (secret' & [= <-] & Hsig'). congruence.
    + split; [discriminate|]. intros (secret' & ev & [= <-] & Hsig'). congruence.
  - rewrite (webhook_run_verified env w req s secret ev Hsecret Hsig).
    split; [split; discriminate|]. split.
    + intros msg. split; [discriminate|].
      intros (secret' & [= <-] & Hsig'). congruence.
    + split; eauto.
Qed.

(** ** The checkout: what it can do to the database *)

Lemma strict_eq_str_true v lit : strict_eq_str v lit = true <-> v = JStr lit.
Proof.
  destruct v; cbn; try (split; intros Hx; discriminate Hx).
  rewrite String.eqb_eq. split; [intros ->; reflexivity|intros [= ->]; reflexivity].
Qed.

Lemma missing_required_false body :
  missing_required body = false ->
  forall k, k ∈ required_fields -> truthy (prop body k) = true.
Proof.
  intros Hm k Hk. destruct (truthy (prop body k)) eqn:Hfalse; [reflexivity|].
  assert (missing_required body = true) by (apply missing_required_spec; eauto).
  congruence.
Qed.

Lemma boat_findUnique_found w v d boat :
  boat_findUnique w v d = inr (Some boat) ->
  prisma_fault w BoatFindUnique = None
  /\ exists id, v = JStr id /\ boats d !! id = Some boat.
Proof.
  unfold boat_findUnique. destruct (prisma_fault w BoatFindUnique); [discriminate|].
  destruct v; try discriminate. intros [= Hboat]. eauto.
Qed.

Lemma truthy_optional_string v o :
  truthy v = true -> optional_string v = Some o -> exists s, v = JStr s /\ o = Some s.
Proof. destruct v; cbn; try discriminate. intros _ [= <-]. eauto. Qed.

Lemma fk_ok_Some id ids : fk_ok (Some id) ids = true <-> id ∈ ids.
Proof. cbn. apply bool_decide_eq_true. Qed.

(** What a successful [create] did: the columns come from the arguments, the
    foreign keys hold, the id was free, and only that row was added. *)
Lemma booking_create_created w data d id row d' :
  booking_create w data d = inr (id, row, d') ->
  id = uuid w
  /\ bookings d !! uuid w = None
  /\ d' = with_bookings d (<[uuid w := row]> (bookings d))
  /\ optional_string (data_userId data) = Some (Booking.userId row)
  /\ optional_string (data_boatId data) = Some (Booking.boatId row)
  /\ optional_string (data_portId data) = Some (Booking.portId row)
  /\ date_time (data_startTime data) = Some (Booking.startTime row)
  /\ date_time (data_endTime data) = Some (Booking.endTime row)
  /\ boolean_default false (data_includeCaptain data) = Some (Booking.includeCaptain row)
  /\ float_column (data_price data) = Some (Booking.price row)
  /\ Booking.paid row = data_paid data
  /\ Booking.createdAt row = now w
  /\ fk_ok (Booking.userId row) (users d) = true
  /\ fk_ok (Booking.boatId row) (dom (boats d)) = true
  /\ fk_ok (Booking.portId row) (ports d) = true.
Proof.
  unfold booking_create. intros Hc.
  destruct (prisma_fault w BookingCreate); [discriminate|].
  destruct (optional_string (data_userId data)) as [u|]; [|discriminate].
  destruct (optional_string (data_boatId data)) as [b|]; [|discriminate].
  destruct (optional_string (data_portId data)) as [p|]; [|discriminate].
  destruct (date_time (data_startTime data)) as [st|]; [|discriminate].
  destruct (date_time (data_endTime data)) as [en|]; [|discriminate].
  destruct (boolean_default false (data_includeCaptain data)) as [cap|]; [|discriminate].
  destruct (float_column (data_price data)) as [price|]; [|discriminate].
  destruct (fk_ok u (users d) && fk_ok b (dom (boats d)) && fk_ok p (ports d)) eqn:Hfk;
    [|discriminate].
  cbn in Hc. destruct (bookings d !! uuid w) eqn:Hfree; [discriminate|].
  injection Hc as <- <- <-. cbn.
  apply andb_true_iff in Hfk as [Hfk Hp]. apply andb_true_iff in Hfk as [Hu Hb].
  repeat split; auto.
Qed.

Ltac checkout_cases env w body s :=
  let Hmissing := fresh "Hmissing" in
  destruct (missing_required body) eqn:Hmissing;
  [rewrite (checkout_run_missing env w body s Hmissing)
  |rewrite (checkout_run_present env w body s Hmissing);
   let e := fresh "e" in
   let boat := fresh "boat" in
   let Hfind := fresh "Hfind" in
   destruct (boat_findUnique w (prop body "boatId") (db s)) as [e|[boat|]] eqn:Hfind;
   [| let e' := fresh "e" in
      let id := fresh "id" in
      let row := fresh "row" in
      let d' := fresh "d'" in
      let Hcreate := fresh "Hcreate" in
      destruct (booking_create w (booking_input body boat) (db s))
        as [e'|[[id row] d']] eqn:Hcreate;
      [| let msg := fresh "msg" in
         let session := fresh "session" in
         let Hsession := fresh "Hsession" in
         destruct (sessions_create w _) as [msg|session] eqn:Hsession ] | ]];
  cbn [fst snd db console].

(** X6: the checkout never touches what is already there: users, ports and
    boats stay as they are and so does every stored booking; the only id whose
    row can differ afterwards is the one the database hands out. *)
Theorem checkout_keeps_existing `{JsRuntime} env w body s :
  let d := db s in
  let d' := db (snd (run (create_checkout_session env w body) s)) in
  users d' = users d /\ ports d' = ports d /\ boats d' = boats d
  /\ (forall k b, bookings d !! k = Some b -> bookings d' !! k = Some b)
  /\ (forall k, k <> uuid w -> bookings d' !! k = bookings d !! k).
Proof.
  intros d d'. subst d d'.
  checkout_cases env w body s; auto;
    apply booking_create_created in Hcreate as (_ & Hfree & -> & _);
    cbn; repeat split;
    try (intros k b Hb; rewrite lookup_insert_ne; [exact Hb|congruence]);
    intros k Hk; apply lookup_insert_ne; congruence.
Qed.

(** X7: every booking the checkout adds is unpaid, is filed under the id the
    database hands out, is stamped with the current time, names the user,
    boat and port of the request, all of which exist, carries the two dates
    of the request, and has the captain flag set exactly when the request's
    [includeCaptain] is truthy. *)
Theorem checkout_new_booking `{JsRuntime} env w body s k row :
  bookings (db s) !! k = None ->
  bookings (db (snd (run (create_checkout_session env w body) s))) !! k = Some row ->
  k = uuid w
  /\ Booking.paid row = false
  /\ Booking.createdAt row = now w
  /\ (exists u, prop body "userId" = JStr u /\ Booking.userId row = Some u
                /\ u ∈ users (db s))
  /\ (exists bt, prop body "boatId" = JStr bt /\ Booking.boatId row = Some bt
                 /\ is_Some (boats (db s) !! bt))
  /\ (exists p, prop body "portId" = JStr p /\ Booking.portId row = Some p
                /\ p ∈ ports (db s))
  /\ Date_new (prop body "startTime") = TimeValue (Booking.startTime row)
  /\ Date_new (prop body "endTime") = TimeValue (Booking.endTime row)
  /\ Booking.includeCaptain row = truthy (prop body "includeCaptain").
Proof.
  intros Hold Hnew.
  assert (Hrow : exists boat row' d',
    missing_required body = false
    /\ booking_create w (booking_input body boat) (db s) = inr (uuid w, row', d')
    /\ bookings d' !! k = Some row).
  { revert Hnew. checkout_cases env w body s; try congruence; intros Hnew;
      pose proof Hcreate as Hc;
      apply booking_create_created in Hc as (-> & _); eauto 10. }
  destruct Hrow as (boat & row' & d' & Hmissing & Hcreate & Hk).
  apply booking_create_created in Hcreate
    as (_ & _ & -> & Hu & Hb & Hp & Hst & Hen & Hcap & _ & Hpaid & Hat & Hfu & Hfb & Hfp).
  cbn in Hk. destruct (decide (k = uuid w)) as [->|Hne];
    [|rewrite lookup_insert_ne in Hk by congruence; congruence].
  rewrite lookup_insert_eq in Hk. injection Hk as ->.
  pose proof (missing_required_false body Hmissing) as Htruthy.
  cbn in Hu, Hb, Hp, Hst, Hen, Hcap.
  apply truthy_optional_string in Hu as (u & Hu & Hu');
    [|apply Htruthy; unfold required_fields; set_solver].
  apply truthy_optional_string in Hb as (bt & Hb & Hb');
    [|apply Htruthy; unfold required_fields; set_solver].
  apply truthy_optional_string in Hp as (p & Hp & Hp');
    [|apply Htruthy; unfold required_fields; set_solver].
  rewrite Hu' in Hfu. rewrite Hb' in Hfb. rewrite Hp' in Hfp.
  apply fk_ok_Some in Hfu, Hfb, Hfp. apply elem_of_dom in Hfb.
  repeat split; eauto.
  - destruct (Date_new (prop body "startTime")); [discriminate|].
    injection Hst as ->. reflexivity.
  - destruct (Date_new (prop body "endTime")); [discriminate|].
    injection Hen as ->. reflexivity.
  - destruct (prop body "includeCaptain"); cbn in *; congruence.
Qed.

(** X8: an answer of 400 or 404 means the request left no trace: the
    database and the console are as they were. *)
Theorem checkout_refusal_writes_nothing `{JsRuntime} env w body s resp :
  fst (run (create_checkout_session env w body) s) = Some resp ->
  status resp = 400 \/ status resp = 404 ->
  snd (run (create_checkout_session env w body) s) = s.
Proof.
  checkout_cases env w body s; intros [= <-] [Hst|Hst]; cbn in Hst;
    try discriminate Hst; reflexivity.
Qed.

(** X9: when the gateway call fails after the booking was created, the caller
    gets the 500 answer, but the booking is not rolled back: it stays in the
    table, unpaid, and the gateway's error is in the console. *)
Theorem checkout_gateway_failure_keeps_booking `{JsRuntime}
    env w body s id boat row d' msg :
  missing_required body = false ->
  prisma_fault w BoatFindUnique = None ->
  prop body "boatId" = JStr id ->
  boats (db s) !! id = Some boat ->
  booking_create w (booking_input body boat) (db s) = inr (uuid w, row, d') ->
  sessions_create w
    (session_params env body boat
       (compute_price boat (prop body "bookingType") (prop body "durationHours")
                      (prop body "includeCaptain"))
       (uuid w))
    = inl msg ->
  let out := run (create_checkout_session env w body) s in
  fst out = Some internal_error
  /\ console (snd out) = console s ++ [session_error (StripeErr msg)]
  /\ bookings (db s) !! uuid w = None
  /\ bookings (db (snd out)) !! uuid w = Some row
  /\ Booking.paid row = false.
Proof.
  intros Hmissing Hfault Hid Hboat Hcreate Hsession out. subst out.
  rewrite (checkout_run_present env w body s Hmissing).
  unfold boat_findUnique. rewrite Hfault, Hid, Hboat, Hcreate.
  apply booking_create_created in Hcreate
    as (_ & Hfree & -> & _ & _ & _ & _ & _ & _ & _ & Hpaid & _).
  cbn [data_price booking_input]. rewrite Hsession. cbn.
  rewrite lookup_insert_eq. auto.
Qed.

(** The one run that answers 200. *)
Lemma checkout_run_ok `{JsRuntime} env w body s resp :
  fst (run (create_checkout_session env w body) s) = Some resp ->
  status resp = 200 ->
  exists id boat row session,
    prop body "boatId" = JStr id
    /\ boats (db s) !! id = Some boat
    /\ bookings (db s) !! uuid w = None
    /\ Booking.paid row = false
    /\ float_column (data_price (booking_input body boat)) = Some (Booking.price row)
    /\ sessions_create w
         (session_params env body boat (data_price (booking_input body boat)) (uuid w))
       = inr session
    /\ run (create_checkout_session env w body) s
       = (Some (session_created session),
          mkSt (with_bookings (db s) (<[uuid w := row]> (bookings (db s))))
               (console s))
    /\ resp = session_created session.
Proof.
  checkout_cases env w body s; intros [= <-] Hst; try discriminate Hst.
  apply boat_findUnique_found in Hfind as (_ & bid & Hid & Hboat).
  pose proof Hcreate as Hc.
  apply booking_create_created in Hc
    as (-> & Hfree & -> & _ & _ & _ & _ & _ & _ & Hprice & Hpaid & _).
  exists bid, boat, row, session. repeat split; auto.
Qed.

(** X10: a 200 answer means the booking is in the table, unpaid, under the
    id the database handed out and with the computed price as a [Float]
    column holds it (a finite number, a zero without its sign), that the
    session in the answer is the one the gateway returned for the computed
    price, and that the session was requested with this id as [bookingId] in
    its metadata; nothing was written to the console. *)
Theorem checkout_success_stored_and_correlated `{JsRuntime} env w body s resp :
  fst (run (create_checkout_session env w body) s) = Some resp ->
  status resp = 200 ->
  exists id boat row session,
    let price :=
      compute_price boat (prop body "bookingType") (prop body "durationHours")
                    (prop body "includeCaptain") in
    prop body "boatId" = JStr id
    /\ boats (db s) !! id = Some boat
    /\ bookings (db s) !! uuid w = None
    /\ bookings (db (snd (run (create_checkout_session env w body) s))) !! uuid w
       = Some row
    /\ Booking.paid row = false
    /\ float_column price = Some (Booking.price row)
    /\ sessions_create w (session_params env body boat price (uuid w)) = inr session
    /\ ("bookingId", JStr (uuid w))
       ∈ metadata (session_params env body boat price (uuid w))
    /\ resp = session_created session
    /\ console (snd (run (create_checkout_session env w body) s)) = console s.
Proof.
  intros Hresp Hst.
  destruct (checkout_run_ok env w body s resp Hresp Hst)
    as (id & boat & row & session & Hid & Hboat & Hfree & Hpaid & Hprice
        & Hsession & Hrun & ->).
  exists id, boat, row, session. rewrite Hrun. cbn.
  rewrite lookup_insert_eq.
  repeat split; auto. apply list_elem_of_here.
Qed.

(** ** From checkout to settlement *)

(** X11: the correlation round trip.  After a checkout answered with 200, a
    verified completed-payment event that carries the id the checkout gave
    to the gateway marks exactly that booking as paid: its terms, the price
    among them, are the ones the checkout stored, and every other booking is
    as it was before the checkout. *)
Theorem checkout_then_webhook_settles `{JsRuntime} `{StripeWebhooks}
    env w1 body s resp w2 req secret ev :
  fst (run (create_checkout_session env w1 body) s) = Some resp ->
  status resp = 200 ->
  truthy_string (STRIPE_WEBHOOK_SECRET env) = Some secret ->
  constructEvent (raw_body req) (stripe_signature req) secret (now w2) = inr ev ->
  event_type ev = "checkout.session.completed" ->
  session_metadata ev ≫= (.!! "bookingId") = Some (uuid w1) ->
  uuid w1 <> "" ->
  prisma_fault w2 BookingUpdate = None ->
  let booked := snd (run (create_checkout_session env w1 body) s) in
  let out := run (webhook env w2 req) booked in
  fst out = Some acknowledgment
  /\ exists row row',
       bookings (db booked) !! uuid w1 = Some row
       /\ Booking.paid row = false
       /\ bookings (db (snd out)) !! uuid w1 = Some row'
       /\ Booking.paid row' = true
       /\ same_terms row row'
       /\ (forall k, k <> uuid w1 ->
             bookings (db (snd out)) !! k = bookings (db s) !! k).
Proof.
  intros Hresp Hst Hsecret Hsig Hty Hid Hne Hfault booked out. subst booked out.
  destruct (checkout_run_ok env w1 body s resp Hresp Hst)
    as (id & boat & row & session & _ & _ & Hfree & Hpaid & _ & _ & Hrun & _).
  rewrite Hrun. cbn [snd].
  rewrite (webhook_run_with_id env secret Hsecret w2 req _ ev (uuid w1) Hsig Hty)
    by (rewrite Hid; apply truthy_string_intro, Hne).
  cbn [db console].
  erewrite booking_update_paid_found; [|exact Hfault|cbn; apply lookup_insert_eq].
  cbn. split; [reflexivity|].
  exists row, (Booking.set_paid row).
  rewrite !lookup_insert_eq.
  repeat split; auto.
  intros k Hk. rewrite !lookup_insert_ne by congruence. reflexivity.
Qed.

(** ** Prices that are not prices *)

Lemma SFcompare_refl x : x <> S754_nan -> SFcompare x x = Some Eq.
Proof.
  destruct x as [s|s| |s m e]; cbn; intros Hx; try congruence.
  - destruct s; reflexivity.
  - destruct s; rewrite Z.compare_refl, Pos.compare_cont_refl; reflexivity.
Qed.

Lemma is_nan_spec x : is_nan x = true <-> Prim2SF x = S754_nan.
Proof.
  unfold is_nan. rewrite FloatAxioms.eqb_spec, negb_true_iff. unfold SFeqb. split.
  - intros Hx. destruct (Prim2SF x) eqn:Hsf; try reflexivity;
      rewrite SFcompare_refl in Hx by discriminate; discriminate Hx.
  - intros ->. reflexivity.
Qed.

Lemma mul_nan_r x y : is_nan y = true -> is_nan (x * y) = true.
Proof.
  rewrite !is_nan_spec, mul_spec. intros ->.
  unfold SF64mul. destruct (Prim2SF x); reflexivity.
Qed.

Lemma add_nan_l x y : is_nan x = true -> is_nan (x + y) = true.
Proof.
  rewrite !is_nan_spec, add_spec. intros ->. reflexivity.
Qed.

(** X12: for a [per_hour] request whose duration does not convert to a
    number (an absent [durationHours] converts to NaN), the price is NaN,
    whatever the rates and with or without captain. *)
Theorem price_of_bad_duration_is_nan `{JsRuntime} boat durationHours includeCaptain :
  is_nan (ToNumber durationHours) = true ->
  is_nan (compute_price boat (JStr "per_hour") durationHours includeCaptain) = true.
Proof.
  intros Hnan. unfold compute_price. cbn.
  destruct (truthy includeCaptain); auto using mul_nan_r, add_nan_l.
Qed.

Lemma not_recognized bookingType :
  ~ recognized bookingType ->
  strict_eq_str bookingType "per_hour" = false
  /\ strict_eq_str bookingType "half_day" = false
  /\ strict_eq_str bookingType "full_day" = false.
Proof.
  intros Hn. repeat split; apply not_true_is_false; intros Hx;
    apply strict_eq_str_true in Hx; apply Hn; unfold recognized; auto.
Qed.

(** X13: any booking the checkout creates for a booking type other than the
    three known ones is priced 0, whatever the boat's rates, the duration and
    the captain flag. *)
Theorem checkout_unrecognized_type_priced_zero `{JsRuntime} env w body s k row :
  ~ recognized (prop body "bookingType") ->
  bookings (db s) !! k = None ->
  bookings (db (snd (run (create_checkout_session env w body) s))) !! k = Some row ->
  Booking.price row = 0%float.
Proof.
  intros Hmode Hold Hnew.
  destruct (checkout_new_row env w body s k row Hold Hnew)
    as (id & boat & _ & _ & _ & Hprice).
  apply not_recognized in Hmode as (H1 & H2 & H3).
  rewrite compute_price_unrecognized in Hprice by assumption.
  injection Hprice as <-. reflexivity.
Qed.

(** ** Referential integrity *)

Lemma references_ok_set_paid d id b :
  references_ok d -> bookings d !! id = Some b ->
  references_ok (with_bookings d (<[id := Booking.set_paid b]> (bookings d))).
Proof.
  intros [Hboats Hbookings] Hb. split; [exact Hboats|].
  intros k b' Hk. cbn in *.
  destruct (decide (k = id)) as [->|Hne].
  - rewrite lookup_insert_eq in Hk. injection Hk as <-. apply (Hbookings id b Hb).
  - rewrite lookup_insert_ne in Hk by congruence. apply (Hbookings k b' Hk).
Qed.

(** X14: both handlers keep the foreign keys of the schema: if every boat's
    port and every booking's user, boat and port exist before the request,
    they do after it. *)
Theorem handlers_keep_references `{JsRuntime} `{StripeWebhooks} env w s :
  references_ok (db s) ->
  (forall body, references_ok (db (snd (run (create_checkout_session env w body) s))))
  /\ (forall req, references_ok (db (snd (run (webhook env w req) s)))).
Proof.
  intros Hok. split.
  - intros body.
    checkout_cases env w body s; auto;
      apply booking_create_created in Hcreate
        as (_ & Hfree & -> & _ & _ & _ & _ & _ & _ & _ & _ & _ & Hu & Hb & Hp);
      destruct Hok as [Hboats Hbookings]; (split; [exact Hboats|]);
      intros k b' Hk; cbn in *;
      (destruct (decide (k = uuid w)) as [->|Hne];
       [rewrite lookup_insert_eq in Hk; injection Hk as <-; auto
       |rewrite lookup_insert_ne in Hk by congruence; apply (Hbookings k b' Hk)]).
  - intros req.
    destruct (webhook_run_db env w req s)
      as [->|(? & ? & id & b & _ & _ & _ & _ & _ & Hb & ->)]; [exact Hok|].
    cbn. apply references_ok_set_paid; assumption.
Qed.

(** * The middleware and the admin boat routes *)

(** ** Who gets past the middleware *)

(** The four ways through [authenticateJWT]. *)
Lemma authenticateJWT_cases `{JsonWebToken} env now req :
  (truthy_string (cookie_jwt req) = None
   /\ authenticateJWT env now req
      = Answer (mkResponse 401 (message_body "Authentication token required")) [])
  \/ exists token,
       truthy_string (cookie_jwt req) = Some token
       /\ ((truthy_string (JWT_SECRET env) = None
            /\ authenticateJWT env now req
               = Answer (mkResponse 500 (message_body "Server configuration error.")) [])
           \/ exists secret,
                truthy_string (JWT_SECRET env) = Some secret
                /\ ((exists err r,
                       jwt_verify token secret now = inl err
                       /\ authenticateJWT env now req = Answer r [clearJwtCookie env]
                       /\ status r
                          = match err with TokenExpiredError => 401 | _ => 403 end)
                    \/ exists user,
                         jwt_verify token secret now = inr user
                         /\ authenticateJWT env now req
                            = Next (mkAuthRequest (cookie_jwt req) (Some user)))).
Proof.
  unfold authenticateJWT.
  destruct (truthy_string (cookie_jwt req)) as [token|]; [|auto].
  right. exists token. split; [reflexivity|].
  destruct (truthy_string (JWT_SECRET env)) as [secret|]; [|auto].
  right. exists secret. split; [reflexivity|].
  destruct (jwt_verify token secret now) as [err|user]; [|eauto].
  left. exists err. destruct err; eauto.
Qed.

Lemma truthy_string_cookie v token :
  truthy_string v = Some token <-> v = Some token /\ token <> "".
Proof.
  split.
  - destruct v as [t|]; cbn; [|discriminate].
    destruct (String.eqb_spec t ""); [discriminate|]. intros [= ->]. auto.
  - intros [-> Hne]. apply truthy_string_intro, Hne.
Qed.

(** X15: [authenticateJWT] calls [next()] exactly when the request carries a
    non-empty [jwt] cookie, the secret is configured and the library verifies
    the token; [req.user] is then the decoded payload. *)
Theorem authenticateJWT_next_iff `{JsonWebToken} env now req req' :
  authenticateJWT env now req = Next req'
  <-> exists token secret user,
        cookie_jwt req = Some token /\ token <> ""
        /\ truthy_string (JWT_SECRET env) = Some secret
        /\ jwt_verify token secret now = inr user
        /\ req' = mkAuthRequest (cookie_jwt req) (Some user).
Proof.
  destruct (authenticateJWT_cases env now req)
    as [(Hnone & Hrun)
       |(token & Htoken & [(Hnone & Hrun)
                          |(secret & Hsecret & [(err & r & Hverify & Hrun & _)
                                               |(user & Hverify & Hrun)])])];
    rewrite Hrun; (split; [|intros (token' & secret' & user' & Hc & Hne & Hs & Hv & ->)]);
    try discriminate.
  - assert (Ht : truthy_string (cookie_jwt req) = Some token')
      by (apply truthy_string_cookie; auto).
    congruence.
  - congruence.
  - assert (Ht : truthy_string (cookie_jwt req) = Some token')
      by (apply truthy_string_cookie; auto).
    congruence.
  - intros [= <-]. apply truthy_string_cookie in Htoken as [Hc Hne].
    exists token, secret, user. auto.
  - assert (Ht : truthy_string (cookie_jwt req) = Some token')
      by (apply truthy_string_cookie; auto).
    congruence.
Qed.

(** X16: when [authenticateJWT] answers itself, the answer is 401 without a
    token, 500 without a secret, 401 for an expired token and 403 for any
    other token that does not verify; the [jwt] cookie is cleared in the last
    two cases and only then. *)
Theorem authenticateJWT_answers `{JsonWebToken} env now req r cookies :
  authenticateJWT env now req = Answer r cookies ->
  (truthy_string (cookie_jwt req) = None /\ status r = 401 /\ cookies = [])
  \/ (exists token,
        truthy_string (cookie_jwt req) = Some token
        /\ ((truthy_string (JWT_SECRET env) = None /\ status r = 500 /\ cookies = [])
            \/ exists secret err,
                 truthy_string (JWT_SECRET env) = Some secret
                 /\ jwt_verify token secret now = inl err
                 /\ cookies = [clearJwtCookie env]
                 /\ status r = match err with TokenExpiredError => 401 | _ => 403 end)).
Proof.
  destruct (authenticateJWT_cases env now req)
    as [(Hnone & Hrun)
       |(token & Htoken & [(Hnone & Hrun)
                          |(secret & Hsecret & [(err & r0 & Hverify & Hrun & Hst)
                                               |(user & Hverify & Hrun)])])];
    rewrite Hrun; intros [= <- <-]; eauto 10.
Qed.

Lemma authorizeRole_next_iff requiredRoles req req' :
  authorizeRole requiredRoles req = Next req'
  <-> req' = req
      /\ exists user, req_user req = Some user /\ user_role user ∈ requiredRoles.
Proof.
  unfold authorizeRole. destruct (req_user req) as [user|].
  - destruct (bool_decide_reflect (user_role user ∈ requiredRoles)) as [Hin|Hout]; cbn.
    + split; [intros [= <-]; eauto|intros [-> _]; reflexivity].
    + split; [discriminate|]. intros (_ & user' & [= <-] & Hin). contradiction.
  - split; [discriminate|]. intros (_ & user & Hu & _). discriminate Hu.
Qed.

Lemma authorizeRole_answer requiredRoles req r cookies :
  authorizeRole requiredRoles req = Answer r cookies ->
  (status r = 401 \/ status r = 403) /\ cookies = [].
Proof.
  unfold authorizeRole. destruct (req_user req) as [user|].
  - destruct (bool_decide (user_role user ∈ requiredRoles)); cbn; [discriminate|].
    intros [= <- <-]. auto.
  - intros [= <- <-]. auto.
Qed.

(** X17: on a route behind [authenticateJWT] and [authorizeRole(roles)], the
    handler runs exactly when the token verifies to a user whose role is one
    of [roles], and it then sees that user as [req.user]; in every other case
    the state is untouched and the answer is 401, 403 or 500. *)
Theorem protected_route_guard `{JsonWebToken} env roles handler now req s :
  let out := protected env roles handler now req s in
  (exists token secret user,
     cookie_jwt req = Some token /\ token <> ""
     /\ truthy_string (JWT_SECRET env) = Some secret
     /\ jwt_verify token secret now = inr user
     /\ user_role user ∈ roles
     /\ out = (fst (run (handler (mkAuthRequest (cookie_jwt req) (Some user))) s), [],
               snd (run (handler (mkAuthRequest (cookie_jwt req) (Some user))) s)))
  \/ ((forall token secret user,
         cookie_jwt req = Some token -> token <> "" ->
         truthy_string (JWT_SECRET env) = Some secret ->
         jwt_verify token secret now = inr user ->
         user_role user ∉ roles)
      /\ snd out = s
      /\ exists r, fst (fst out) = Some r
                   /\ (status r = 401 \/ status r = 403 \/ status r = 500)).
Proof.
  intros out. subst out. unfold protected.
  destruct (authenticateJWT_cases env now req)
    as [(Hnone & Hrun)
       |(token & Htoken & [(Hnone & Hrun)
                          |(secret & Hsecret & [(err & r & Hverify & Hrun & Hst)
                                               |(user & Hverify & Hrun)])])];
    rewrite Hrun.
  - right. split; [|cbn; eauto 6].
    intros token' secret' user' Hc Hne.
    assert (Ht : truthy_string (cookie_jwt req) = Some token')
      by (apply truthy_string_cookie; auto).
    congruence.
  - right. split; [|cbn; eauto 6]. congruence.
  - right. split.
    + intros token' secret' user' Hc Hne Hs Hv.
      assert (Ht : truthy_string (cookie_jwt req) = Some token')
        by (apply truthy_string_cookie; auto).
      congruence.
    + cbn. split; [reflexivity|]. exists r. split; [reflexivity|].
      rewrite Hst. destruct err; auto.
  - apply truthy_string_cookie in Htoken as [Hc Hne].
    destruct (authorizeRole roles _) as [req2|r cookies] eqn:Hrole.
    + apply authorizeRole_next_iff in Hrole as (-> & user' & [= <-] & Hin).
      left. exists token, secret, user.
      destruct (run (handler _) s) as [resp s']. cbn. auto 10.
    + right. split.
      * intros token' secret' user' Hc' _ Hs Hv Hin.
        assert (user' = user) as -> by congruence.
        assert (Hnext : authorizeRole roles (mkAuthRequest (cookie_jwt req) (Some user))
                        = Next (mkAuthRequest (cookie_jwt req) (Some user)))
          by (apply authorizeRole_next_iff; eauto).
        congruence.
      * apply authorizeRole_answer in Hrole as [[Hst|Hst] _]; cbn; eauto 6.
Qed.

(** ** Deleting and creating boats *)

Section AdminBoatProperties.
Context `{JsRuntime}.

Lemma admin_delete_boat_run aw id s :
  run (admin_delete_boat aw id) s =
    match boat_delete aw id (db s) with
    | inr (deletedBoat, d') =>
      (Some (mkResponse 200
               (Json [("message",
                       JStr ("Boat " +:+ dquote +:+ Boat.name deletedBoat +:+ dquote
                             +:+ " deleted successfully."));
                      ("boat", JObj (boat_json id deletedBoat))])),
       mkSt d' (console s))
    | inl P2025 => (Some (boat_id_not_found id), s)
    | inl P2003 =>
      (Some (mkResponse 409
               (message_body
                  ("Cannot delete boat " +:+ id
                   +:+ ": Referenced by other records (e.g., non-nullable foreign keys in other tables or unhandled dependencies)."))),
       mkSt (db s)
            (console s ++
             [mkLog LogWarn
                ("Foreign key constraint issue when deleting boat " +:+ id
                 +:+ ". Ensure all related bookings/other entities allow SetNull or Cascade.")
                (Some (PrismaErr P2003))]))
    | inl e =>
      (Some (mkResponse 500 (message_body "Failed to delete boat.")),
       mkSt (db s)
            (console s ++
             [mkLog LogError ("Error deleting boat " +:+ id +:+ ":")
                    (Some (PrismaErr e))]))
    end.
Proof.
  unfold admin_delete_boat. step_handler.
  destruct (boat_delete aw id (db s)) as [[]|[boat d']]; reflexivity.
Qed.

Lemma clear_boat_same_but_boat id b : same_but_boat b (clear_boat id b).
Proof. unfold clear_boat. case_bool_decide; repeat split. Qed.

Lemma clear_boat_boatId id b :
  Booking.boatId (clear_boat id b)
  = if bool_decide (Booking.boatId b = Some id) then None else Booking.boatId b.
Proof. unfold clear_boat. case_bool_decide; reflexivity. Qed.

Lemma boat_delete_found aw id d boat :
  boats d !! id = Some boat ->
  admin_fault aw BoatDelete = None ->
  boat_delete aw id d
  = inr (boat, mkDb (users d) (ports d) (delete id (boats d))
                    (clear_boat id <$> bookings d)).
Proof. intros Hb Hf. unfold boat_delete. rewrite Hf, Hb. reflexivity. Qed.

Lemma references_ok_delete_boat d id :
  references_ok d ->
  references_ok (mkDb (users d) (ports d) (delete id (boats d))
                      (clear_boat id <$> bookings d)).
Proof.
  intros [Hboats Hbookings]. split; cbn.
  - intros k boat Hk. apply lookup_delete_Some in Hk as [_ Hk]. eauto.
  - intros k b' Hk. rewrite lookup_fmap in Hk.
    destruct (bookings d !! k) as [b|] eqn:Hb; [|discriminate].
    injection Hk as <-.
    destruct (Hbookings k b Hb) as (Hu & Hbt & Hp).
    destruct (clear_boat_same_but_boat id b) as (-> & -> & _).
    repeat split; auto.
    rewrite clear_boat_boatId. case_bool_decide as Hid; [reflexivity|].
    destruct (Booking.boatId b) as [bt|]; [|reflexivity].
    apply fk_ok_Some in Hbt. apply fk_ok_Some.
    rewrite dom_delete_L. apply elem_of_difference. split; [exact Hbt|].
    rewrite elem_of_singleton. congruence.
Qed.

(** X18: deleting a boat that exists answers 200, removes the boat and
    nothing else: users, ports and the other boats stay, no booking is added
    or removed, and each booking keeps every column but [boatId], which
    becomes null exactly for the bookings of that boat; the foreign keys of
    the schema still hold afterwards. *)
Theorem admin_delete_boat_clears_references aw id s boat :
  boats (db s) !! id = Some boat ->
  admin_fault aw BoatDelete = None ->
  let out := run (admin_delete_boat aw id) s in
  let d := db s in
  let d' := db (snd out) in
  (exists r, fst out = Some r /\ status r = 200)
  /\ users d' = users d /\ ports d' = ports d
  /\ boats d' = delete id (boats d)
  /\ (forall k, bookings d !! k = None -> bookings d' !! k = None)
  /\ (forall k b, bookings d !! k = Some b ->
        exists b', bookings d' !! k = Some b' /\ same_but_boat b b'
          /\ Booking.boatId b'
             = if bool_decide (Booking.boatId b = Some id) then None
               else Booking.boatId b)
  /\ (references_ok d -> references_ok d').
Proof.
  intros Hboat Hfault out d d'. subst out d d'.
  rewrite admin_delete_boat_run, (boat_delete_found aw id (db s) boat Hboat Hfault).
  cbn. split; [eauto|]. do 3 (split; [reflexivity|]). split; [|split].
  - intros k Hk. rewrite lookup_fmap, Hk. reflexivity.
  - intros k b Hb. exists (clear_boat id b). rewrite lookup_fmap, Hb.
    split; [reflexivity|].
    split; [apply clear_boat_same_but_boat|apply clear_boat_boatId].
  - apply references_ok_delete_boat.
Qed.

(** X19: [DELETE /boats/:id] answers 200 only when it deleted; with any other
    answer the database is as it was, and for an id that names no boat the
    answer is 404 and nothing at all is written, the console included. *)
Theorem admin_delete_boat_refusals aw id s :
  let out := run (admin_delete_boat aw id) s in
  (forall resp, fst out = Some resp -> status resp <> 200 -> db (snd out) = db s)
  /\ (boats (db s) !! id = None -> admin_fault aw BoatDelete = None ->
      out = (Some (boat_id_not_found id), s)).
Proof.
  intros out. subst out. rewrite admin_delete_boat_run. split.
  - destruct (boat_delete aw id (db s)) as [[]|[boat d']]; cbn;
      intros resp [= <-] Hst; try reflexivity.
    cbn in Hst. contradiction.
  - intros Hnone Hfault. unfold boat_delete. rewrite Hfault, Hnone. reflexivity.
Qed.
End AdminBoatProperties.

Section AdminCreateBoat.
Context `{JsRuntime}.

(** The [data] argument of the [prisma.boat.create] call, by name. *)
Lemma admin_create_boat_run aw body s ty :
  missing_boat_fields body = false ->
  boat_type_of (prop body "type") = Some ty ->
  run (admin_create_boat aw body) s =
    match port_findUnique aw (prop body "portId") (db s) with
    | inl e =>
      (Some (mkResponse 500 (message_body "Failed to create boat.")),
       mkSt (db s) (console s ++ [mkLog LogError "Error creating boat:"
                                        (Some (PrismaErr e))]))
    | inr false =>
      (Some (mkResponse 404
               (message_body ("Port with ID " +:+ ToString (prop body "portId")
                              +:+ " not found."))), s)
    | inr true =>
      match boat_create aw
              (mkBoatInput (prop body "name") ty (prop body "portId")
                           (prop body "imageUrl") (prop body "hourlyRate")
                           (prop body "halfDayRate") (prop body "fullDayRate"))
              (db s) with
      | inl e =>
        (Some (mkResponse 500 (message_body "Failed to create boat.")),
         mkSt (db s) (console s ++ [mkLog LogError "Error creating boat:"
                                          (Some (PrismaErr e))]))
      | inr (id, row, d') =>
        (Some (mkResponse 201 (Json (boat_json id row))), mkSt d' (console s))
      end
    end.
Proof.
  intros Hm Hty. unfold admin_create_boat. rewrite Hm, Hty. step_handler.
  destruct (port_findUnique aw (prop body "portId") (db s)) as [e|[|]];
    [reflexivity| |destruct s; reflexivity].
  cbn. destruct (boat_create aw _ (db s)) as [e|[[id row] d']]; reflexivity.
Qed.

Lemma required_float_Some v y :
  required_float v = Some y ->
  exists x, v = JNum x /\ is_finite x = true /\ y = unsigned_zero x.
Proof.
  destruct v; try discriminate. cbn. intros Hx.
  apply float_column_Some in Hx. eauto.
Qed.

Lemma boat_create_created aw data d id row d' :
  boat_create aw data d = inr (id, row, d') ->
  id = admin_uuid aw
  /\ boats d !! admin_uuid aw = None
  /\ d' = mkDb (users d) (ports d) (<[admin_uuid aw := row]> (boats d)) (bookings d)
  /\ data_name data = JStr (Boat.name row)
  /\ Boat.type row = data_type data
  /\ data_boat_portId data = JStr (Boat.portId row)
  /\ Boat.portId row ∈ ports d
  /\ optional_string (data_imageUrl data) = Some (Boat.imageUrl row)
  /\ required_float (data_hourlyRate data) = Some (Boat.hourlyRate row)
  /\ required_float (data_halfDayRate data) = Some (Boat.halfDayRate row)
  /\ required_float (data_fullDayRate data) = Some (Boat.fullDayRate row).
Proof.
  unfold boat_create. intros Hc.
  destruct (admin_fault aw BoatCreate); [discriminate|].
  destruct (data_name data); try discriminate.
  destruct (data_boat_portId data); try discriminate.
  cbn in Hc.
  destruct (optional_string (data_imageUrl data)) as [img|]; [|discriminate].
  destruct (required_float (data_hourlyRate data)) as [hourly|]; [|discriminate].
  destruct (required_float (data_halfDayRate data)) as [half|]; [|discriminate].
  destruct (required_float (data_fullDayRate data)) as [full|]; [|discriminate].
  cbn in Hc. case_bool_decide as Hport; [|discriminate]. cbn in Hc.
  destruct (boats d !! admin_uuid aw) eqn:Hfree; [discriminate|].
  injection Hc as <- <- <-. cbn. auto 12.
Qed.

(** X20: a 201 answer of [POST /boats] means exactly one boat was added, under
    the id the database handed out: its name, port and rates are the strings
    and numbers of the request (the rates finite numbers, held as a [Float]
    column holds them: a negative zero as zero), its type is one of the four
    of the enum, its port exists, and the answer carries the stored row; every
    other boat and all users, ports and bookings are as they were, and the
    foreign keys of the schema still hold. *)
Theorem admin_create_boat_stored aw body s resp :
  fst (run (admin_create_boat aw body) s) = Some resp ->
  status resp = 201 ->
  let d := db s in
  let d' := db (snd (run (admin_create_boat aw body) s)) in
  exists row,
    boats d !! admin_uuid aw = None
    /\ d' = mkDb (users d) (ports d) (<[admin_uuid aw := row]> (boats d)) (bookings d)
    /\ resp = mkResponse 201 (Json (boat_json (admin_uuid aw) row))
    /\ prop body "name" = JStr (Boat.name row)
    /\ prop body "type" = JStr (boat_type_name (Boat.type row))
    /\ prop body "portId" = JStr (Boat.portId row)
    /\ Boat.portId row ∈ ports d
    /\ (exists h, prop body "hourlyRate" = JNum h /\ is_finite h = true
                   /\ Boat.hourlyRate row = unsigned_zero h)
    /\ (exists hd, prop body "halfDayRate" = JNum hd /\ is_finite hd = true
                    /\ Boat.halfDayRate row = unsigned_zero hd)
    /\ (exists fd, prop body "fullDayRate" = JNum fd /\ is_finite fd = true
                    /\ Boat.fullDayRate row = unsigned_zero fd)
    /\ (references_ok d -> references_ok d').
Proof.
  intros Hresp Hst d d'. subst d d'. revert Hresp.
  destruct (missing_boat_fields body) eqn:Hm.
  { unfold admin_create_boat. rewrite Hm. cbn. intros [= <-]. discriminate Hst. }
  destruct (boat_type_of (prop body "type")) as [ty|] eqn:Hty.
  2:{ unfold admin_create_boat. rewrite Hm, Hty. cbn. intros [= <-]. discriminate Hst. }
  rewrite (admin_create_boat_run aw body s ty Hm Hty).
  destruct (port_findUnique aw (prop body "portId") (db s)) as [e|[|]];
    try (intros [= <-]; discriminate Hst).
  destruct (boat_create aw _ (db s)) as [e|[[id row] d']] eqn:Hcreate;
    [intros [= <-]; discriminate Hst|].
  intros [= <-]. cbn.
  apply boat_create_created in Hcreate
    as (-> & Hfree & -> & Hname & Htype & Hport & Hin & _ & Hh & Hhd & Hfd).
  cbn [data_name data_type data_boat_portId data_hourlyRate data_halfDayRate
       data_fullDayRate] in *.
  exists row.
  assert (Htyname : prop body "type" = JStr (boat_type_name (Boat.type row))).
  { rewrite Htype. unfold boat_type_of in Hty.
    destruct (prop body "type") as [| | | |t| |]; try discriminate.
    destruct (String.eqb_spec t "SMALL") as [Heq|_];
      [injection Hty as <-; rewrite Heq; reflexivity|].
    destruct (String.eqb_spec t "NORMAL") as [Heq|_];
      [injection Hty as <-; rewrite Heq; reflexivity|].
    destruct (String.eqb_spec t "SPEED_BOAT") as [Heq|_];
      [injection Hty as <-; rewrite Heq; reflexivity|].
    destruct (String.eqb_spec t "MOTOR_YACHT") as [Heq|_];
      [injection Hty as <-; rewrite Heq; reflexivity|].
    discriminate. }
  apply required_float_Some in Hh, Hhd, Hfd.
  do 10 (split; [assumption || reflexivity|]).
  intros [Hboats Hbookings]. split; cbn.
  - intros k boat Hk. destruct (decide (k = admin_uuid aw)) as [->|Hne].
    + rewrite lookup_insert_eq in Hk. injection Hk as <-. exact Hin.
    + rewrite lookup_insert_ne in Hk by congruence. eauto.
  - intros k b Hk. destruct (Hbookings k b Hk) as (Hu & Hb & Hp).
    repeat split; auto.
    destruct (Booking.boatId b) as [bt|]; [|reflexivity].
    apply fk_ok_Some in Hb. apply fk_ok_Some. rewrite dom_insert_L.
    apply elem_of_union. right. exact Hb.
Qed.


(** X22: any answer of [POST /boats] other than 201 leaves the database as
    it was; with 400 or 404 the console is untouched as well. *)
Theorem admin_create_boat_refusals aw body s resp :
  fst (run (admin_create_boat aw body) s) = Some resp ->
  status resp <> 201 ->
  db (snd (run (admin_create_boat aw body) s)) = db s
  /\ (status resp = 400 \/ status resp = 404 ->
      snd (run (admin_create_boat aw body) s) = s).
Proof.
  destruct (missing_boat_fields body) eqn:Hm.
  { unfold admin_create_boat. rewrite Hm. cbn. auto. }
  destruct (boat_type_of (prop body "type")) as [ty|] eqn:Hty.
  2:{ unfold admin_create_boat. rewrite Hm, Hty. cbn. auto. }
  rewrite (admin_create_boat_run aw body s ty Hm Hty).
  destruct (port_findUnique aw (prop body "portId") (db s)) as [e|[|]]; cbn.
  - intros [= <-] _. split; [reflexivity|]. cbn. intros [|]; discriminate.
  - destruct (boat_create aw _ (db s)) as [e|[[id row] d']]; cbn.
    + intros [= <-] _. split; [reflexivity|]. cbn. intros [|]; discriminate.
    + intros [= <-] Hst. cbn in Hst. contradiction.
  - auto.
Qed.
End AdminCreateBoat.

(** ** A deleted boat and its bookings *)

Lemma admin_delete_boat_deleted aw id s boat :
  boats (db s) !! id = Some boat ->
  admin_fault aw BoatDelete = None ->
  snd (run (admin_delete_boat aw id) s)
  = mkSt (mkDb (users (db s)) (ports (db s)) (delete id (boats (db s)))
               (clear_boat id <$> bookings (db s)))
         (console s).
Proof.
  intros Hboat Hfault.
  rewrite admin_delete_boat_run, (boat_delete_found aw id (db s) boat Hboat Hfault).
  reflexivity.
Qed.

(** X23: once a boat is deleted, a checkout that names it is answered by 404
    "Boat not found" and writes nothing. *)
Theorem deleted_boat_cannot_be_booked `{JsRuntime} env aw w id body s boat :
  boats (db s) !! id = Some boat ->
  admin_fault aw BoatDelete = None ->
  missing_required body = false ->
  prop body "boatId" = JStr id ->
  prisma_fault w BoatFindUnique = None ->
  let deleted := snd (run (admin_delete_boat aw id) s) in
  run (create_checkout_session env w body) deleted = (Some boat_not_found, deleted).
Proof.
  intros Hboat Hfault Hm Hid Hfind deleted. subst deleted.
  rewrite (admin_delete_boat_deleted aw id s boat Hboat Hfault).
  rewrite (checkout_run_present env w body _ Hm).
  unfold boat_findUnique. rewrite Hfind, Hid. cbn.
  rewrite lookup_delete_eq. reflexivity.
Qed.

(** X24: a booking outlives its boat and can still be settled: after the boat
    is deleted, a verified completed-payment event for the booking marks it
    paid; the booking then has no boat, and the price, the user, the port and
    the dates it was created with. *)
Theorem booking_of_deleted_boat_settles `{StripeWebhooks}
    env aw w req s id boat k b secret ev :
  boats (db s) !! id = Some boat ->
  admin_fault aw BoatDelete = None ->
  bookings (db s) !! k = Some b ->
  Booking.boatId b = Some id ->
  truthy_string (STRIPE_WEBHOOK_SECRET env) = Some secret ->
  constructEvent (raw_body req) (stripe_signature req) secret (now w) = inr ev ->
  event_type ev = "checkout.session.completed" ->
  session_metadata ev ≫= (.!! "bookingId") = Some k ->
  k <> "" ->
  prisma_fault w BookingUpdate = None ->
  let deleted := snd (run (admin_delete_boat aw id) s) in
  let out := run (webhook env w req) deleted in
  fst out = Some acknowledgment
  /\ exists b', bookings (db (snd out)) !! k = Some b'
       /\ Booking.paid b' = true
       /\ Booking.boatId b' = None
       /\ Booking.price b' = Booking.price b
       /\ Booking.userId b' = Booking.userId b
       /\ Booking.portId b' = Booking.portId b
       /\ Booking.startTime b' = Booking.startTime b
       /\ Booking.endTime b' = Booking.endTime b.
Proof.
  intros Hboat Hfault Hb Hbt Hsecret Hsig Hty Hid Hne Hupd deleted out.
  subst deleted out.
  rewrite (admin_delete_boat_deleted aw id s boat Hboat Hfault).
  rewrite (webhook_run_with_id env secret Hsecret w req _ ev k Hsig Hty)
    by (rewrite Hid; apply truthy_string_intro, Hne).
  cbn [db console].
  erewrite booking_update_paid_found;
    [|exact Hupd|cbn; rewrite lookup_fmap, Hb; reflexivity].
  cbn. split; [reflexivity|].
  exists (Booking.set_paid (clear_boat id b)). rewrite lookup_insert_eq.
  unfold clear_boat. rewrite (bool_decide_eq_true_2 _ Hbt). cbn. auto 10.
Qed.

(** * Registration and login *)

Lemma user_by_email_Some email rows id u :
  user_by_email email rows = Some (id, u) ->
  rows !! id = Some u /\ User.email u = email.
Proof.
  unfold user_by_email. intros Hfind. apply List.find_some in Hfind as [Hin Heq].
  apply list_elem_of_In, elem_of_map_to_list in Hin.
  apply String.eqb_eq in Heq. auto.
Qed.

Lemma user_by_email_None email rows :
  user_by_email email rows = None <->
  forall id u, rows !! id = Some u -> User.email u <> email.
Proof.
  unfold user_by_email. split.
  - intros Hnone id u Hu Heq.
    pose proof (List.find_none _ _ Hnone (id, u)) as Hno.
    cbn in Hno. rewrite Heq, String.eqb_refl in Hno.
    assert (Hin : List.In (id, u) (map_to_list rows))
      by (apply list_elem_of_In, elem_of_map_to_list; exact Hu).
    specialize (Hno Hin). discriminate.
  - intros Hfree.
    destruct (List.find _ (map_to_list rows)) as [[id u]|] eqn:Hfind; [|reflexivity].
    apply List.find_some in Hfind as [Hin Heq].
    apply list_elem_of_In, elem_of_map_to_list in Hin.
    apply String.eqb_eq in Heq. destruct (Hfree id u Hin Heq).
Qed.

Lemma size_zero_empty (rows : gmap string User.t) :
  (Z.of_nat (size rows) =? 0) = true <-> rows = ∅.
Proof.
  rewrite Z.eqb_eq. split.
  - intros Hz. apply map_size_empty_inv. lia.
  - intros ->. rewrite map_size_empty. reflexivity.
Qed.

Ltac auth_step :=
  unfold auth_run, auth_try_catch, auth_respond, auth_throw, auth_console_error,
    send_cookie, user_count, user_findUnique, user_create, hash_password,
    compare_password, name_or_default, access_token, generateAccessToken,
    mbind, mret, auth_bind, auth_ret in *;
  cbn [fst snd user_rows sent_cookies auth_console data_email data_password
       data_user_name data_role required_string is_email_taken] in *.

Section AuthProperties.
Context `{JsonWebToken} `{Bcrypt}.
Variable env : AuthEnv.

(** The run of a well-formed registration, step by step: the name is either
    left out, and then defaults to the part of the email before the [@], or a
    non-empty string. *)
Lemma register_run w body rows log email password name :
  prop body "email" = JStr email -> email <> "" ->
  prop body "password" = JStr password -> password <> "" ->
  (truthy (prop body "name") = false /\ name = before_first at_sign email)
  \/ (prop body "name" = JStr name /\ name <> "") ->
  user_fault w UserCount = None ->
  user_fault w UserCreate = None ->
  let role := if Z.of_nat (size rows) =? 0 then ADMIN else USER in
  let row := User.mk email (bcrypt_hash password 10 (auth_salt w)) (Some name) role
                     (auth_now w) (auth_now w) in
  auth_run (register env w body) rows log =
    match user_by_email email rows with
    | Some _ =>
      (Some (mkResponse 409 (message_body "Email already registered")), [], rows, log)
    | None =>
      match rows !! auth_uuid w with
      | Some _ =>
        (Some (mkResponse 500 (message_body "Internal server error")), [], rows,
         log ++ [mkAuthLog LogError "Registration error:" (UserPrismaError P2002)])
      | None =>
        match truthy_string (JWT_SECRET env) with
        | None =>
          (Some (mkResponse 500 (message_body "Internal server error")), [],
           <[auth_uuid w := row]> rows,
           log ++ [mkAuthLog LogError "Registration error:"
                     (ConfigError "JWT_SECRET is not defined in environment variables.")])
        | Some secret =>
          (Some (mkResponse 201
                   (Json [("message", JStr "User registered successfully");
                          ("user", user_json (auth_uuid w) row)])),
           [setHttpOnlyJwtCookie env
              (jwt_sign (auth_uuid w) (Some email) role secret 3600 (auth_now w))],
           <[auth_uuid w := row]> rows, log)
        end
      end
    end.
Proof.
  intros Hemail He Hpassword Hp Hname Hf1 Hf2 role row. subst role row.
  unfold register, name_or_default. rewrite Hemail, Hpassword. cbn [truthy].
  destruct (String.eqb_spec email ""); [contradiction|].
  destruct (String.eqb_spec password ""); [contradiction|].
  cbn [negb orb].
  destruct Hname as [[Hname ->]|[Hname Hn]].
  - rewrite Hname. auth_step. rewrite Hf1, Hf2. cbn.
    destruct (user_by_email email rows) as [[id u]|]; [reflexivity|].
    destruct (rows !! auth_uuid w); [reflexivity|].
    cbn. destruct (truthy_string (JWT_SECRET env)); reflexivity.
  - rewrite Hname. cbn [truthy].
    destruct (String.eqb_spec name ""); [contradiction|]. cbn [negb].
    auth_step. rewrite Hf1, Hf2. cbn.
    destruct (user_by_email email rows) as [[id u]|]; [reflexivity|].
    destruct (rows !! auth_uuid w); [reflexivity|].
    cbn. destruct (truthy_string (JWT_SECRET env)); reflexivity.
Qed.

(** The run of a well-formed login, step by step. *)
Lemma login_run w body rows log email password :
  prop body "email" = JStr email -> email <> "" ->
  prop body "password" = JStr password -> password <> "" ->
  user_fault w UserFindUnique = None ->
  auth_run (login env w body) rows log =
    match user_by_email email rows with
    | None => (Some invalid_credentials, [], rows, log)
    | Some (id, u) =>
      if String.eqb (User.password u) "" then (Some invalid_credentials, [], rows, log)
      else if negb (bcrypt_compare password (User.password u))
      then (Some invalid_credentials, [], rows, log)
      else
        match truthy_string (JWT_SECRET env) with
        | None =>
          (Some (mkResponse 500 (message_body "Internal server error")), [], rows,
           log ++ [mkAuthLog LogError "Login error:"
                     (ConfigError "JWT_SECRET is not defined in environment variables.")])
        | Some secret =>
          (Some (mkResponse 200
                   (Json [("message", JStr "Login successful");
                          ("user", user_json id u)])),
           [setHttpOnlyJwtCookie env
              (jwt_sign id (Some (User.email u)) (User.role u) secret 3600 (auth_now w))],
           rows, log)
        end
    end.
Proof.
  intros Hemail He Hpassword Hp Hf.
  unfold login. rewrite Hemail, Hpassword. cbn [truthy].
  destruct (String.eqb_spec email ""); [contradiction|].
  destruct (String.eqb_spec password ""); [contradiction|].
  cbn [negb orb]. auth_step. rewrite Hf. cbn.
  destruct (user_by_email email rows) as [[id u]|]; [|reflexivity].
  destruct (String.eqb (User.password u) ""); [reflexivity|].
  cbn. destruct (bcrypt_compare password (User.password u)); [|reflexivity].
  cbn. destruct (truthy_string (JWT_SECRET env)); reflexivity.
Qed.
End AuthProperties.

Section RegisterProperties.
Context `{JsonWebToken} `{Bcrypt}.
Variable env : AuthEnv.

Lemma unique_emails_insert rows id row :
  unique_emails rows ->
  (forall id' u, rows !! id' = Some u -> User.email u <> User.email row) ->
  unique_emails (<[id := row]> rows).
Proof.
  intros Huniq Hfree id1 id2 u1 u2 H1 H2 Heq.
  destruct (decide (id1 = id)) as [->|Hne1], (decide (id2 = id)) as [->|Hne2];
    [reflexivity| | |].
  - rewrite lookup_insert_eq in H1. rewrite lookup_insert_ne in H2 by congruence.
    injection H1 as <-. destruct (Hfree id2 u2 H2). congruence.
  - rewrite lookup_insert_eq in H2. rewrite lookup_insert_ne in H1 by congruence.
    injection H2 as <-. destruct (Hfree id1 u1 H1). congruence.
  - rewrite lookup_insert_ne in H1, H2 by congruence. eauto.
Qed.

Lemma user_count_inv w s c s' :
  user_count w s = (c, s') ->
  s' = s
  /\ (c = AuthNormal (Z.of_nat (size (user_rows s)))
      \/ exists e, c = AuthThrow (UserPrismaError e)).
Proof.
  unfold user_count. destruct (user_fault w UserCount); intros [= <- <-]; eauto.
Qed.

Lemma hash_password_inv w v s c s' :
  hash_password w v s = (c, s') ->
  s' = s
  /\ ((exists p, v = JStr p /\ c = AuthNormal (bcrypt_hash p 10 (auth_salt w)))
      \/ exists e, c = AuthThrow e /\ is_email_taken e = false).
Proof.
  unfold hash_password. destruct v; intros [= <- <-]; eauto 6.
Qed.

Lemma name_or_default_inv name email s c s' :
  name_or_default name email s = (c, s') ->
  s' = s
  /\ ((truthy name = true /\ c = AuthNormal name)
      \/ (truthy name = false
          /\ exists e, email = JStr e /\ c = AuthNormal (JStr (before_first at_sign e)))
      \/ exists e, c = AuthThrow e /\ is_email_taken e = false).
Proof.
  unfold name_or_default. destruct (truthy name); [intros [= <- <-]; auto|].
  destruct email; intros [= <- <-]; eauto 8.
Qed.

Lemma user_create_inv w data s c s' :
  user_create w data s = (c, s') ->
  (exists email name,
     data_email data = JStr email
     /\ optional_string (data_user_name data) = Some name
     /\ user_by_email email (user_rows s) = None
     /\ user_rows s !! auth_uuid w = None
     /\ c = AuthNormal
              (auth_uuid w,
               User.mk email (data_password data) name (data_role data)
                       (auth_now w) (auth_now w))
     /\ s' = mkAuthSt
               (<[auth_uuid w :=
                    User.mk email (data_password data) name (data_role data)
                            (auth_now w) (auth_now w)]> (user_rows s))
               (sent_cookies s) (auth_console s))
  \/ (s' = s /\ exists e, c = AuthThrow e).
Proof.
  unfold user_create. destruct (user_fault w UserCreate); [intros [= <- <-]; eauto|].
  destruct (data_email data) as [| | | |email| |]; cbn;
    try (intros [= <- <-]; eauto).
  destruct (optional_string (data_user_name data)) as [name|];
    [|intros [= <- <-]; eauto].
  destruct (user_by_email email (user_rows s)) eqn:Hfree; [intros [= <- <-]; eauto|].
  destruct (user_rows s !! auth_uuid w) eqn:Hid; intros [= <- <-]; eauto 10.
Qed.

Lemma access_token_inv w id u s c s' :
  access_token env w id u s = (c, s') ->
  s' = s
  /\ ((exists secret,
         truthy_string (JWT_SECRET env) = Some secret
         /\ c = AuthNormal (jwt_sign id (Some (User.email u)) (User.role u) secret
                                     3600 (auth_now w)))
      \/ (truthy_string (JWT_SECRET env) = None
          /\ c = AuthThrow
                   (ConfigError "JWT_SECRET is not defined in environment variables."))).
Proof.
  unfold access_token, generateAccessToken.
  destruct (truthy_string (JWT_SECRET env)); intros [= <- <-]; eauto.
Qed.

Lemma truthy_JStr v : truthy v = true -> optional_string v <> None ->
  exists n, v = JStr n /\ optional_string v = Some (Some n).
Proof. destruct v; cbn; try discriminate; try congruence. eauto. Qed.

(** X25: a 201 answer of [POST /register] means exactly one user was added,
    under the id the database handed out and with an email no user had: the
    stored password is the bcrypt hash of the one sent, the role is ADMIN
    when the table was empty and USER otherwise, the name is the one sent or,
    without one, the part of the email before the first [@]; the [jwt] cookie
    carries the token signed for this id, email and role; and emails stay
    unique. *)
Theorem register_created w body rows log resp cookies rows' log' :
  auth_run (register env w body) rows log = (Some resp, cookies, rows', log') ->
  status resp = 201 ->
  exists email password secret row,
    prop body "email" = JStr email
    /\ prop body "password" = JStr password
    /\ truthy_string (JWT_SECRET env) = Some secret
    /\ (forall id u, rows !! id = Some u -> User.email u <> email)
    /\ rows !! auth_uuid w = None
    /\ rows' = <[auth_uuid w := row]> rows
    /\ User.email row = email
    /\ User.password row = bcrypt_hash password 10 (auth_salt w)
    /\ User.role row = (if bool_decide (rows = ∅) then ADMIN else USER)
    /\ User.name row
       = (if truthy (prop body "name")
          then match prop body "name" with JStr n => Some n | _ => None end
          else Some (before_first at_sign email))
    /\ cookies = [setHttpOnlyJwtCookie env
                    (jwt_sign (auth_uuid w) (Some email) (User.role row) secret 3600
                              (auth_now w))]
    /\ resp = mkResponse 201
                (Json [("message", JStr "User registered successfully");
                       ("user", user_json (auth_uuid w) row)])
    /\ log' = log
    /\ (unique_emails rows -> unique_emails rows').
Proof.
  intros Hrun Hst. unfold register, auth_run in Hrun.
  destruct (negb (truthy (prop body "email")) || negb (truthy (prop body "password")))
    eqn:Hmissing.
  { injection Hrun as <- _ _ _. discriminate Hst. }
  unfold auth_try_catch, mbind, auth_bind in Hrun.
  destruct (user_count w _) as [c1 s1] eqn:H1.
  apply user_count_inv in H1 as [-> [->|[e ->]]]; cbn [user_rows] in Hrun;
    [|destruct (is_email_taken _); injection Hrun as <- _ _ _; discriminate Hst].
  destruct (hash_password w _ _) as [c2 s2] eqn:H2.
  apply hash_password_inv in H2 as [-> [(password & Hpassword & ->)|(e & -> & He)]];
    [|rewrite He in Hrun; injection Hrun as <- _ _ _; discriminate Hst].
  destruct (name_or_default _ _ _) as [c3 s3] eqn:H3.
  apply name_or_default_inv in H3
    as [-> [(Htruthy & ->)|[(Htruthy & email0 & Hemail0 & ->)|(e & -> & He)]]];
    [| |rewrite He in Hrun; injection Hrun as <- _ _ _; discriminate Hst].
  all: destruct (user_create w _ _) as [c4 s4] eqn:H4;
    apply user_create_inv in H4
      as [(email & name & Hemail & Hname & Hfree & Hid & -> & ->)|(-> & e & ->)];
    [|destruct (is_email_taken e); injection Hrun as <- _ _ _; discriminate Hst];
    cbn [data_email data_user_name data_password data_role fst snd user_rows] in *;
    destruct (access_token env w _ _ _) as [c5 s5] eqn:H5;
    apply access_token_inv in H5 as [-> [(secret & Hsecret & ->)|(_ & ->)]];
    [|injection Hrun as <- _ _ _; discriminate Hst];
    cbn in Hrun; injection Hrun as <- <- <- <-;
    pose proof (proj1 (user_by_email_None _ _) Hfree) as Hnew;
    assert (Hrole : (if Z.of_nat (size rows) =? 0 then ADMIN else USER)
                    = (if bool_decide (rows = ∅) then ADMIN else USER))
      by (destruct (Z.of_nat (size rows) =? 0) eqn:Hz;
          [apply size_zero_empty in Hz; rewrite bool_decide_eq_true_2; auto
          |rewrite bool_decide_eq_false_2; [reflexivity|];
           intros Hempty; apply size_zero_empty in Hempty; congruence]);
    eexists email, password, secret, _;
    (split; [exact Hemail|]); (split; [exact Hpassword|]);
    (split; [exact Hsecret|]); (split; [exact Hnew|]); (split; [exact Hid|]);
    (split; [reflexivity|]); cbn [User.email User.password User.role User.name];
    (split; [reflexivity|]); (split; [reflexivity|]); (split; [exact Hrole|]).
  - rewrite Htruthy.
    destruct (truthy_JStr (prop body "name") Htruthy) as (n & Hn & Hopt);
      [congruence|].
    rewrite Hn in *. split; [congruence|].
    do 3 (split; [reflexivity|]).
    intros Huniq. apply unique_emails_insert; assumption.
  - rewrite Htruthy. cbn in Hname. injection Hname as <-.
    assert (email0 = email) as -> by congruence.
    split; [reflexivity|]. do 3 (split; [reflexivity|]).
    intros Huniq. apply unique_emails_insert; assumption.
Qed.
End RegisterProperties.

Section LoginProperties.
Context `{JsonWebToken} `{Bcrypt}.
Variable env : AuthEnv.

(** X26: registering an email that a user already has is answered by 409;
    no user is added, no cookie is set and nothing is logged. *)
Theorem register_duplicate_email w body rows log email password name id u :
  prop body "email" = JStr email -> email <> "" ->
  prop body "password" = JStr password -> password <> "" ->
  (truthy (prop body "name") = false /\ name = before_first at_sign email)
  \/ (prop body "name" = JStr name /\ name <> "") ->
  user_fault w UserCount = None ->
  user_fault w UserCreate = None ->
  rows !! id = Some u ->
  User.email u = email ->
  auth_run (register env w body) rows log
  = (Some (mkResponse 409 (message_body "Email already registered")), [], rows, log).
Proof.
  intros Hemail He Hpassword Hp Hname Hf1 Hf2 Hu Heq.
  rewrite (register_run env w body rows log email password name
             Hemail He Hpassword Hp Hname Hf1 Hf2).
  destruct (user_by_email email rows) eqn:Hfind; [reflexivity|].
  destruct (proj1 (user_by_email_None _ _) Hfind id u Hu Heq).
Qed.

(** X27: when [JWT_SECRET] is not set, a registration that is otherwise in
    order still creates the user, and then answers 500 without a cookie: the
    token is generated after the row is written, and the error it throws goes
    to the console. *)
Theorem register_without_secret_keeps_user w body rows log email password name :
  prop body "email" = JStr email -> email <> "" ->
  prop body "password" = JStr password -> password <> "" ->
  (truthy (prop body "name") = false /\ name = before_first at_sign email)
  \/ (prop body "name" = JStr name /\ name <> "") ->
  user_fault w UserCount = None ->
  user_fault w UserCreate = None ->
  (forall id u, rows !! id = Some u -> User.email u <> email) ->
  rows !! auth_uuid w = None ->
  truthy_string (JWT_SECRET env) = None ->
  let row := User.mk email (bcrypt_hash password 10 (auth_salt w)) (Some name)
                     (if bool_decide (rows = ∅) then ADMIN else USER)
                     (auth_now w) (auth_now w) in
  auth_run (register env w body) rows log
  = (Some (mkResponse 500 (message_body "Internal server error")), [],
     <[auth_uuid w := row]> rows,
     log ++ [mkAuthLog LogError "Registration error:"
               (ConfigError "JWT_SECRET is not defined in environment variables.")]).
Proof.
  intros Hemail He Hpassword Hp Hname Hf1 Hf2 Hfree Hid Hsecret row. subst row.
  rewrite (register_run env w body rows log email password name
             Hemail He Hpassword Hp Hname Hf1 Hf2).
  rewrite (proj2 (user_by_email_None _ _) Hfree), Hid, Hsecret.
  destruct (Z.of_nat (size rows) =? 0) eqn:Hz.
  - apply size_zero_empty in Hz. rewrite bool_decide_eq_true_2; auto.
  - rewrite bool_decide_eq_false_2; [reflexivity|].
    intros Hempty. apply size_zero_empty in Hempty. congruence.
Qed.

(** X28: a login fails the same way whether the email is unknown or the
    password wrong: if no user with this email has a password the one sent
    matches, the answer is 401 "Invalid credentials", no cookie is set, and
    neither the table nor the console changes. *)
Theorem login_failures_indistinguishable w body rows log email password :
  prop body "email" = JStr email -> email <> "" ->
  prop body "password" = JStr password -> password <> "" ->
  user_fault w UserFindUnique = None ->
  (forall id u, rows !! id = Some u -> User.email u = email ->
     User.password u = "" \/ bcrypt_compare password (User.password u) = false) ->
  auth_run (login env w body) rows log = (Some invalid_credentials, [], rows, log).
Proof.
  intros Hemail He Hpassword Hp Hf Hno.
  rewrite (login_run env w body rows log email password Hemail He Hpassword Hp Hf).
  destruct (user_by_email email rows) as [[id u]|] eqn:Hfind; [|reflexivity].
  apply user_by_email_Some in Hfind as [Hu Heq].
  destruct (Hno id u Hu Heq) as [->| ->]; [reflexivity|].
  destruct (String.eqb (User.password u) ""); reflexivity.
Qed.

Lemma user_findUnique_inv w v s c s' :
  user_findUnique w v s = (c, s') ->
  s' = s
  /\ ((exists email, v = JStr email /\ c = AuthNormal (user_by_email email (user_rows s)))
      \/ exists e, c = AuthThrow e).
Proof.
  unfold user_findUnique. destruct (user_fault w UserFindUnique);
    [intros [= <- <-]; eauto|].
  destruct v; intros [= <- <-]; eauto.
Qed.

Lemma compare_password_inv v hash s c s' :
  compare_password v hash s = (c, s') ->
  s' = s
  /\ ((exists p, v = JStr p /\ c = AuthNormal (bcrypt_compare p hash))
      \/ exists e, c = AuthThrow e).
Proof. unfold compare_password. destruct v; intros [= <- <-]; eauto. Qed.

(** The outcomes of a login, whatever the request. *)
Lemma login_outcomes w body rows log :
  let out := auth_run (login env w body) rows log in
  (exists resp lines, out = (Some resp, [], rows, log ++ lines) /\ status resp <> 200)
  \/ exists id u password secret,
       rows !! id = Some u
       /\ prop body "email" = JStr (User.email u)
       /\ prop body "password" = JStr password
       /\ bcrypt_compare password (User.password u) = true
       /\ truthy_string (JWT_SECRET env) = Some secret
       /\ out = (Some (mkResponse 200
                         (Json [("message", JStr "Login successful");
                                ("user", user_json id u)])),
                 [setHttpOnlyJwtCookie env
                    (jwt_sign id (Some (User.email u)) (User.role u) secret 3600
                              (auth_now w))],
                 rows, log).
Proof.
  intros out. subst out. unfold login, auth_run.
  destruct (negb (truthy (prop body "email")) || negb (truthy (prop body "password"))).
  { left. exists (mkResponse 400 (message_body "Email and password are required")), [].
    rewrite app_nil_r. split; [reflexivity|discriminate]. }
  unfold auth_try_catch, mbind, auth_bind.
  destruct (user_findUnique w _ _) as [c1 s1] eqn:H1.
  apply user_findUnique_inv in H1 as [-> [(email & Hemail & ->)|(e & ->)]];
    cbn [user_rows].
  2:{ left. do 2 eexists. split; [reflexivity|discriminate]. }
  destruct (user_by_email email rows) as [[id u]|] eqn:Hfind.
  2:{ left. exists invalid_credentials, []. rewrite app_nil_r.
      split; [reflexivity|discriminate]. }
  apply user_by_email_Some in Hfind as [Hu Heq].
  destruct (String.eqb (User.password u) "").
  { left. exists invalid_credentials, []. rewrite app_nil_r.
    split; [reflexivity|discriminate]. }
  destruct (compare_password _ _ _) as [c2 s2] eqn:H2.
  apply compare_password_inv in H2 as [-> [(password & Hpassword & ->)|(e & ->)]].
  2:{ left. do 2 eexists. split; [reflexivity|discriminate]. }
  destruct (bcrypt_compare password (User.password u)) eqn:Hcompare; cbn [negb].
  2:{ left. exists invalid_credentials, []. rewrite app_nil_r.
      split; [reflexivity|discriminate]. }
  destruct (access_token env w id u _) as [c3 s3] eqn:H3.
  apply access_token_inv in H3 as [-> [(secret & Hsecret & ->)|(_ & ->)]].
  2:{ left. do 2 eexists. split; [reflexivity|discriminate]. }
  right. exists id, u, password, secret. subst email. auto 10.
Qed.

(** X29: a 200 answer of [POST /login] means there is a user with the email
    sent whose stored hash the password sent matches; the [jwt] cookie carries
    the token signed for that user's id, email and role, and the answer shows
    the user without the password. *)
Theorem login_success w body rows log resp cookies rows' log' :
  auth_run (login env w body) rows log = (Some resp, cookies, rows', log') ->
  status resp = 200 ->
  exists id u password secret,
    rows !! id = Some u
    /\ prop body "email" = JStr (User.email u)
    /\ prop body "password" = JStr password
    /\ bcrypt_compare password (User.password u) = true
    /\ truthy_string (JWT_SECRET env) = Some secret
    /\ cookies = [setHttpOnlyJwtCookie env
                    (jwt_sign id (Some (User.email u)) (User.role u) secret 3600
                              (auth_now w))]
    /\ resp = mkResponse 200
                (Json [("message", JStr "Login successful");
                       ("user", user_json id u)])
    /\ rows' = rows /\ log' = log.
Proof.
  intros Hrun Hst.
  destruct (login_outcomes w body rows log)
    as [(resp0 & lines & Hout & Hne)|(id & u & password & secret & Hu & He & Hp & Hc
                                      & Hs & Hout)];
    rewrite Hrun in Hout.
  - injection Hout as <- _ _ _. contradiction.
  - injection Hout as -> -> -> ->. exists id, u, password, secret. auto 10.
Qed.

(** X30: a login never changes the User table, and it sets a cookie only
    together with a 200 answer. *)
Theorem login_never_writes w body rows log :
  let out := auth_run (login env w body) rows log in
  snd (fst out) = rows
  /\ (snd (fst (fst out)) <> [] ->
      exists resp, fst (fst (fst out)) = Some resp /\ status resp = 200).
Proof.
  intros out. subst out.
  destruct (login_outcomes w body rows log)
    as [(resp0 & lines & -> & Hne)|(id & u & password & secret & _ & _ & _ & _ & _ & ->)];
    cbn; split; try reflexivity.
  - intros Hc. contradiction.
  - intros _. eauto.
Qed.
End LoginProperties.

(** * Concrete runs of the further properties *)

Import Outages AdminExamples.

Lemma references_ok_db0 : references_ok db0.
Proof.
  split.
  - intros id boat Hb. unfold db0 in Hb. cbn in Hb.
    apply lookup_singleton_Some in Hb as [_ <-]. cbn. set_solver.
  - intros id b Hb. unfold db0 in Hb. cbn in Hb.
    apply lookup_singleton_Some in Hb as [_ <-].
    repeat split; apply bool_decide_eq_true; cbn; set_solver.
Qed.

(** The row the checkout of [body_per_hour] creates. *)
Example checkout_row :
  bookings (db (snd (run (create_checkout_session env0 w0 body_per_hour) s0))) !! "b2"
  = Some (Booking.mk (Some "u1") (Some "bt1") (Some "p1")
                     1751364000000 1751378400000 300 false true 1751000000500).
Proof. vm_compute. reflexivity. Qed.

Lemma webhook_writes_only_verified_payments_witness :
  exists secret ev bookingId b,
    truthy_string (STRIPE_WEBHOOK_SECRET env0) = Some secret
    /\ constructEvent (raw_body (signed "b1")) (stripe_signature (signed "b1"))
         secret (now w0) = inr ev
    /\ event_type ev = "checkout.session.completed"
    /\ session_metadata ev ≫= (.!! "bookingId") = Some bookingId
    /\ prisma_fault w0 BookingUpdate = None
    /\ bookings (db s0) !! bookingId = Some b
    /\ Booking.paid b = false
    /\ bookings (db (snd (run (webhook env0 w0 (signed "b1")) s0))) !! bookingId
       = Some (Booking.set_paid b).
Proof.
  apply (webhook_writes_only_verified_payments env0 w0 (signed "b1") s0).
  intros Hsame. apply (f_equal (fun d => bookings d !! "b1")) in Hsame.
  vm_compute in Hsame. discriminate Hsame.
Defined.

Lemma webhook_swallows_update_failure_witness :
  run (webhook env0 w_update_fails (signed "b1")) s0
  = (Some acknowledgment,
     mkSt (db s0)
          (console s0 ++
           [update_failed "b1" (PrismaEngineError "Can't reach database server")])).
Proof.
  apply (webhook_swallows_update_failure env0 w_update_fails (signed "b1") s0
           "whsec_test" (event_of "b1"));
    vm_compute; reflexivity.
Defined.

Lemma checkout_new_booking_witness :
  let row := Booking.mk (Some "u1") (Some "bt1") (Some "p1")
                        1751364000000 1751378400000 300 false true 1751000000500 in
  "b2" = uuid w0
  /\ Booking.paid row = false
  /\ Booking.createdAt row = now w0
  /\ (exists u, prop body_per_hour "userId" = JStr u /\ Booking.userId row = Some u
                /\ u ∈ users (db s0))
  /\ (exists bt, prop body_per_hour "boatId" = JStr bt /\ Booking.boatId row = Some bt
                 /\ is_Some (boats (db s0) !! bt))
  /\ (exists p, prop body_per_hour "portId" = JStr p /\ Booking.portId row = Some p
                /\ p ∈ ports (db s0))
  /\ Date_new (prop body_per_hour "startTime") = TimeValue (Booking.startTime row)
  /\ Date_new (prop body_per_hour "endTime") = TimeValue (Booking.endTime row)
  /\ Booking.includeCaptain row = truthy (prop body_per_hour "includeCaptain").
Proof.
  apply (checkout_new_booking env0 w0 body_per_hour s0 "b2"); vm_compute; reflexivity.
Defined.

Lemma checkout_refusal_writes_nothing_witness :
  snd (run (create_checkout_session env0 w0 body_unknown_boat) s0) = s0.
Proof.
  apply (checkout_refusal_writes_nothing env0 w0 body_unknown_boat s0 boat_not_found).
  - vm_compute. reflexivity.
  - right. reflexivity.
Defined.

Lemma checkout_gateway_failure_keeps_booking_witness :
  let row := Booking.mk (Some "u1") (Some "bt1") (Some "p1")
                        1751364000000 1751378400000 300 false true 1751000000500 in
  let out := run (create_checkout_session env0 w_gateway_down body_per_hour) s0 in
  fst out = Some internal_error
  /\ console (snd out)
     = console s0 ++
       [session_error (StripeErr "An error occurred with our connection to Stripe.")]
  /\ bookings (db s0) !! uuid w_gateway_down = None
  /\ bookings (db (snd out)) !! uuid w_gateway_down = Some row
  /\ Booking.paid row = false.
Proof.
  apply (checkout_gateway_failure_keeps_booking env0 w_gateway_down body_per_hour s0
           "bt1" boat1
           (Booking.mk (Some "u1") (Some "bt1") (Some "p1")
                       1751364000000 1751378400000 300 false true 1751000000500)
           (with_bookings db0
              (<["b2" := Booking.mk (Some "u1") (Some "bt1") (Some "p1")
                           1751364000000 1751378400000 300 false true 1751000000500]>
                 (bookings db0))));
    vm_compute; reflexivity.
Defined.

Lemma checkout_success_stored_and_correlated_witness :
  exists id boat row session,
    let price :=
      compute_price boat (prop body_per_hour "bookingType")
                    (prop body_per_hour "durationHours")
                    (prop body_per_hour "includeCaptain") in
    prop body_per_hour "boatId" = JStr id
    /\ boats (db s0) !! id = Some boat
    /\ bookings (db s0) !! uuid w0 = None
    /\ bookings (db (snd (run (create_checkout_session env0 w0 body_per_hour) s0)))
         !! uuid w0 = Some row
    /\ Booking.paid row = false
    /\ float_column price = Some (Booking.price row)
    /\ sessions_create w0 (session_params env0 body_per_hour boat price (uuid w0))
       = inr session
    /\ ("bookingId", JStr (uuid w0))
       ∈ metadata (session_params env0 body_per_hour boat price (uuid w0))
    /\ session_created session1 = session_created session
    /\ console (snd (run (create_checkout_session env0 w0 body_per_hour) s0))
       = console s0.
Proof.
  apply (checkout_success_stored_and_correlated env0 w0 body_per_hour s0
           (session_created session1));
    vm_compute; reflexivity.
Defined.

Lemma checkout_then_webhook_settles_witness :
  let booked := snd (run (create_checkout_session env0 w0 body_per_hour) s0) in
  let out := run (webhook env0 w0 (signed "b2")) booked in
  fst out = Some acknowledgment
  /\ exists row row',
       bookings (db booked) !! uuid w0 = Some row
       /\ Booking.paid row = false
       /\ bookings (db (snd out)) !! uuid w0 = Some row'
       /\ Booking.paid row' = true
       /\ same_terms row row'
       /\ (forall k, k <> uuid w0 ->
             bookings (db (snd out)) !! k = bookings (db s0) !! k).
Proof.
  apply (checkout_then_webhook_settles env0 w0 body_per_hour s0
           (session_created session1) w0 (signed "b2") "whsec_test" (event_of "b2"));
    try (vm_compute; reflexivity).
  discriminate.
Defined.

Lemma price_of_bad_duration_is_nan_witness :
  is_nan (compute_price boat1 (JStr "per_hour") JUndefined (JBool true)) = true.
Proof.
  apply (price_of_bad_duration_is_nan boat1 JUndefined (JBool true)). reflexivity.
Defined.

Lemma checkout_unrecognized_type_priced_zero_witness :
  Booking.price
    (Booking.mk (Some "u1") (Some "bt1") (Some "p1")
                1751364000000 1751378400000 0 false true 1751000000500)
  = 0%float.
Proof.
  apply (checkout_unrecognized_type_priced_zero env0 w0 body_weekly s0 "b2").
  - intros [Hm|[Hm|Hm]]; vm_compute in Hm; discriminate Hm.
  - vm_compute. reflexivity.
  - vm_compute. reflexivity.
Defined.

Lemma handlers_keep_references_witness :
  (forall body, references_ok (db (snd (run (create_checkout_session env0 w0 body) s0))))
  /\ (forall req, references_ok (db (snd (run (webhook env0 w0 req) s0)))).
Proof.
  apply (handlers_keep_references env0 w0 s0). exact references_ok_db0.
Defined.

Lemma authenticateJWT_answers_witness :
  (truthy_string (cookie_jwt (with_token "expired.token")) = None
   /\ status (mkResponse 401 (message_body "Token expired. Please log in again.")) = 401
   /\ [clearJwtCookie auth_env] = [])
  \/ (exists token,
        truthy_string (cookie_jwt (with_token "expired.token")) = Some token
        /\ ((truthy_string (JWT_SECRET auth_env) = None
             /\ status (mkResponse 401 (message_body "Token expired. Please log in again."))
                = 500
             /\ [clearJwtCookie auth_env] = [])
            \/ exists secret err,
                 truthy_string (JWT_SECRET auth_env) = Some secret
                 /\ jwt_verify token secret 0 = inl err
                 /\ [clearJwtCookie auth_env] = [clearJwtCookie auth_env]
                 /\ status (mkResponse 401
                              (message_body "Token expired. Please log in again."))
                    = match err with TokenExpiredError => 401 | _ => 403 end)).
Proof.
  apply (authenticateJWT_answers auth_env 0 (with_token "expired.token")).
  reflexivity.
Defined.

(** A manager's token does not open the boat routes, the administrator's does. *)
Example manager_cannot_delete_boat :
  protected auth_env [ADMIN] (fun _ => admin_delete_boat aw0 "bt1") 0
            (with_token "manager.token") s0
  = (Some (mkResponse 403 (message_body "Forbidden: Insufficient permissions.")), [], s0).
Proof. reflexivity. Qed.

Lemma admin_delete_boat_clears_references_witness :
  let out := run (admin_delete_boat aw0 "bt1") s0 in
  let d := db s0 in
  let d' := db (snd out) in
  (exists r, fst out = Some r /\ status r = 200)
  /\ users d' = users d /\ ports d' = ports d
  /\ boats d' = delete "bt1" (boats d)
  /\ (forall k, bookings d !! k = None -> bookings d' !! k = None)
  /\ (forall k b, bookings d !! k = Some b ->
        exists b', bookings d' !! k = Some b' /\ same_but_boat b b'
          /\ Booking.boatId b'
             = if bool_decide (Booking.boatId b = Some "bt1") then None
               else Booking.boatId b)
  /\ (references_ok d -> references_ok d').
Proof.
  apply (admin_delete_boat_clears_references aw0 "bt1" s0 boat1);
    vm_compute; reflexivity.
Defined.

Lemma admin_create_boat_stored_witness :
  let d := db s0 in
  let d' := db (snd (run (admin_create_boat aw0 body_new_boat) s0)) in
  exists row,
    boats d !! admin_uuid aw0 = None
    /\ d' = mkDb (users d) (ports d) (<[admin_uuid aw0 := row]> (boats d)) (bookings d)
    /\ mkResponse 201
         (Json (boat_json "bt2" (Boat.mk "Meltemi" SMALL "p1" None (-5) 0 250)))
       = mkResponse 201 (Json (boat_json (admin_uuid aw0) row))
    /\ prop body_new_boat "name" = JStr (Boat.name row)
    /\ prop body_new_boat "type" = JStr (boat_type_name (Boat.type row))
    /\ prop body_new_boat "portId" = JStr (Boat.portId row)
    /\ Boat.portId row ∈ ports d
    /\ (exists h, prop body_new_boat "hourlyRate" = JNum h /\ is_finite h = true
                   /\ Boat.hourlyRate row = unsigned_zero h)
    /\ (exists hd, prop body_new_boat "halfDayRate" = JNum hd /\ is_finite hd = true
                    /\ Boat.halfDayRate row = unsigned_zero hd)
    /\ (exists fd, prop body_new_boat "fullDayRate" = JNum fd /\ is_finite fd = true
                    /\ Boat.fullDayRate row = unsigned_zero fd)
    /\ (references_ok d -> references_ok d').
Proof.
  apply (admin_create_boat_stored aw0 body_new_boat s0
           (mkResponse 201
              (Json (boat_json "bt2" (Boat.mk "Meltemi" SMALL "p1" None (-5) 0 250)))));
    vm_compute; reflexivity.
Defined.


Lemma admin_create_boat_refusals_witness :
  db (snd (run (admin_create_boat aw0 (delete "name" body_new_boat)) s0)) = db s0
  /\ (status (mkResponse 400 (message_body "Missing required boat fields.")) = 400
      \/ status (mkResponse 400 (message_body "Missing required boat fields.")) = 404 ->
      snd (run (admin_create_boat aw0 (delete "name" body_new_boat)) s0) = s0).
Proof.
  apply (admin_create_boat_refusals aw0 (delete "name" body_new_boat) s0
           (mkResponse 400 (message_body "Missing required boat fields."))).
  - vm_compute. reflexivity.
  - discriminate.
Defined.

Lemma deleted_boat_cannot_be_booked_witness :
  let deleted := snd (run (admin_delete_boat aw0 "bt1") s0) in
  run (create_checkout_session env0 w0 body_per_hour) deleted
  = (Some boat_not_found, deleted).
Proof.
  apply (deleted_boat_cannot_be_booked env0 aw0 w0 "bt1" body_per_hour s0 boat1);
    vm_compute; reflexivity.
Defined.

Lemma booking_of_deleted_boat_settles_witness :
  let deleted := snd (run (admin_delete_boat aw0 "bt1") s0) in
  let out := run (webhook env0 w0 (signed "b1")) deleted in
  fst out = Some acknowledgment
  /\ exists b', bookings (db (snd out)) !! "b1" = Some b'
       /\ Booking.paid b' = true
       /\ Booking.boatId b' = None
       /\ Booking.price b' = Booking.price booking1
       /\ Booking.userId b' = Booking.userId booking1
       /\ Booking.portId b' = Booking.portId booking1
       /\ Booking.startTime b' = Booking.startTime booking1
       /\ Booking.endTime b' = Booking.endTime booking1.
Proof.
  apply (booking_of_deleted_boat_settles env0 aw0 w0 (signed "b1") s0 "bt1" boat1
           "b1" booking1 "whsec_test" (event_of "b1"));
    try (vm_compute; reflexivity).
  discriminate.
Defined.

(** The first registration makes an administrator. *)
Example first_user_is_admin :
  fst (fst (fst (auth_run (register auth_env auth_w0
                             (credentials "ann@example.com" "pw")) ∅ [])))
  = Some (mkResponse 201
            (Json [("message", JStr "User registered successfully");
                   ("user", JObj [("id", JStr "u3"); ("email", JStr "ann@example.com");
                                  ("name", JStr "ann"); ("role", JStr "ADMIN")])])).
Proof. vm_compute. reflexivity. Qed.

Lemma register_created_witness :
  exists email password secret row,
    prop (credentials "ann@example.com" "pw") "email" = JStr email
    /\ prop (credentials "ann@example.com" "pw") "password" = JStr password
    /\ truthy_string (JWT_SECRET auth_env) = Some secret
    /\ (forall id u, rows0 !! id = Some u -> User.email u <> email)
    /\ rows0 !! auth_uuid auth_w0 = None
    /\ <["u3" := User.mk "ann@example.com" "$2a$10$saltpw" (Some "ann") USER
                         1751000000000 1751000000000]> rows0
       = <[auth_uuid auth_w0 := row]> rows0
    /\ User.email row = email
    /\ User.password row = bcrypt_hash password 10 (auth_salt auth_w0)
    /\ User.role row = (if bool_decide (rows0 = ∅) then ADMIN else USER)
    /\ User.name row
       = (if truthy (prop (credentials "ann@example.com" "pw") "name")
          then match prop (credentials "ann@example.com" "pw") "name" with
               | JStr n => Some n
               | _ => None
               end
          else Some (before_first at_sign email))
    /\ [setHttpOnlyJwtCookie auth_env "user.token"]
       = [setHttpOnlyJwtCookie auth_env
            (jwt_sign (auth_uuid auth_w0) (Some email) (User.role row) secret 3600
                      (auth_now auth_w0))]
    /\ mkResponse 201
         (Json [("message", JStr "User registered successfully");
                ("user", JObj [("id", JStr "u3"); ("email", JStr "ann@example.com");
                               ("name", JStr "ann"); ("role", JStr "USER")])])
       = mkResponse 201
           (Json [("message", JStr "User registered successfully");
                  ("user", user_json (auth_uuid auth_w0) row)])
    /\ @nil AuthLog = []
    /\ (unique_emails rows0
        -> unique_emails
             (<["u3" := User.mk "ann@example.com" "$2a$10$saltpw" (Some "ann") USER
                                1751000000000 1751000000000]> rows0)).
Proof.
  apply (register_created auth_env auth_w0 (credentials "ann@example.com" "pw") rows0 []);
    vm_compute; reflexivity.
Defined.

Lemma register_duplicate_email_witness :
  auth_run (register auth_env auth_w0 (credentials "admin@example.com" "pw")) rows0 []
  = (Some (mkResponse 409 (message_body "Email already registered")), [], rows0, []).
Proof.
  apply (register_duplicate_email auth_env auth_w0
           (credentials "admin@example.com" "pw") rows0 []
           "admin@example.com" "pw" (before_first at_sign "admin@example.com")
           "u1" admin_row);
    try (vm_compute; reflexivity); try discriminate.
  left. split; reflexivity.
Defined.

Lemma register_without_secret_keeps_user_witness :
  let row := User.mk "ann@example.com"
                     (bcrypt_hash "pw" 10 (auth_salt auth_w0)) (Some "ann")
                     (if bool_decide (rows0 = ∅) then ADMIN else USER)
                     (auth_now auth_w0) (auth_now auth_w0) in
  auth_run (register (mkAuthEnv None None) auth_w0
              (credentials "ann@example.com" "pw")) rows0 []
  = (Some (mkResponse 500 (message_body "Internal server error")), [],
     <[auth_uuid auth_w0 := row]> rows0,
     [] ++ [mkAuthLog LogError "Registration error:"
              (ConfigError "JWT_SECRET is not defined in environment variables.")]).
Proof.
  apply (register_without_secret_keeps_user (mkAuthEnv None None) auth_w0
           (credentials "ann@example.com" "pw") rows0 [] "ann@example.com" "pw" "ann");
    try (vm_compute; reflexivity); try discriminate.
  - left. split; reflexivity.
  - intros id u Hu. unfold rows0 in Hu.
    apply lookup_singleton_Some in Hu as [_ <-]. discriminate.
Defined.

Lemma login_failures_indistinguishable_witness :
  auth_run (login auth_env auth_w0 (credentials "admin@example.com" "wrong")) rows0 []
  = (Some invalid_credentials, [], rows0, [])
  /\ auth_run (login auth_env auth_w0 (credentials "nobody@example.com" "secret"))
       rows0 []
     = (Some invalid_credentials, [], rows0, []).
Proof.
  split.
  - apply (login_failures_indistinguishable auth_env auth_w0
             (credentials "admin@example.com" "wrong") rows0 []
             "admin@example.com" "wrong");
      try (vm_compute; reflexivity); try discriminate.
    intros id u Hu _. unfold rows0 in Hu.
    apply lookup_singleton_Some in Hu as [_ <-]. right. vm_compute. reflexivity.
  - apply (login_failures_indistinguishable auth_env auth_w0
             (credentials "nobody@example.com" "secret") rows0 []
             "nobody@example.com" "secret");
      try (vm_compute; reflexivity); try discriminate.
    intros id u Hu Heq. unfold rows0 in Hu.
    apply lookup_singleton_Some in Hu as [_ <-]. discriminate Heq.
Defined.

Lemma login_success_witness :
  exists id u password secret,
    rows0 !! id = Some u
    /\ prop (credentials "admin@example.com" "secret") "email" = JStr (User.email u)
    /\ prop (credentials "admin@example.com" "secret") "password" = JStr password
    /\ bcrypt_compare password (User.password u) = true
    /\ truthy_string (JWT_SECRET auth_env) = Some secret
    /\ [setHttpOnlyJwtCookie auth_env "admin.token"]
       = [setHttpOnlyJwtCookie auth_env
            (jwt_sign id (Some (User.email u)) (User.role u) secret 3600
                      (auth_now auth_w0))]
    /\ mkResponse 200
         (Json [("message", JStr "Login successful"); ("user", user_json "u1" admin_row)])
       = mkResponse 200
           (Json [("message", JStr "Login successful"); ("user", user_json id u)])
    /\ rows0 = rows0 /\ @nil AuthLog = [].
Proof.
  apply (login_success auth_env auth_w0 (credentials "admin@example.com" "secret")
           rows0 []);
    vm_compute; reflexivity.
Defined.

(** *** Numbers a [Float] column does not take as they are *)

(** A duration of negative zero: the computed price is a negative zero, the
    request is answered with the session and the row holds zero. *)
Example checkout_negative_zero_duration :
  let body :=
    <[ "durationHours" := JNum (- 0) ]>
      (<[ "includeCaptain" := JBool false ]> body_per_hour) in
  let out := run (create_checkout_session env0 w0 body) s0 in
  Prim2SF (compute_price boat1 (JStr "per_hour") (JNum (- 0)) (JBool false))
  = S754_zero true
  /\ fst out = Some (session_created session1)
  /\ Booking.price <$> bookings (db (snd out)) !! "b2" = Some 0%float
  /\ Prim2SF 0 = S754_zero false.
Proof. repeat split; vm_compute; reflexivity. Qed.

(** A [per_hour] request without a duration: the price is NaN, the client
    refuses it, and the request ends in the [catch] clause with nothing
    stored. *)
Example checkout_nan_price_refused :
  let body := delete "durationHours" body_per_hour in
  let out := run (create_checkout_session env0 w0 body) s0 in
  fst out = Some internal_error
  /\ db (snd out) = db0
  /\ console (snd out) = [session_error (PrismaErr PrismaClientValidationError)].
Proof. repeat split; vm_compute; reflexivity. Qed.

(** The same for a duration too large for a double, which JSON reads as
    Infinity. *)
Example checkout_infinite_price_refused :
  let body := <[ "durationHours" := JNum infinity ]> body_per_hour in
  let out := run (create_checkout_session env0 w0 body) s0 in
  fst out = Some internal_error
  /\ db (snd out) = db0
  /\ console (snd out) = [session_error (PrismaErr PrismaClientValidationError)].
Proof. repeat split; vm_compute; reflexivity. Qed.

(** A rate that is not finite: [POST /boats] answers 500 and stores nothing. *)
Example admin_create_boat_infinite_rate_refused :
  let out :=
    run (admin_create_boat aw0 (<[ "hourlyRate" := JNum infinity ]> body_new_boat)) s0 in
  fst out = Some (mkResponse 500 (message_body "Failed to create boat."))
  /\ db (snd out) = db0
  /\ console (snd out)
     = [mkLog LogError "Error creating boat:"
              (Some (PrismaErr PrismaClientValidationError))].
Proof. repeat split; vm_compute; reflexivity. Qed.

(** A rate of negative zero is accepted and held as zero. *)
Example admin_create_boat_negative_zero_rate :
  let out :=
    run (admin_create_boat aw0 (<[ "hourlyRate" := JNum (- 0) ]> body_new_boat)) s0 in
  status <$> fst out = Some 201
  /\ Prim2SF (- 0) = S754_zero true
  /\ Boat.hourlyRate <$> boats (db (snd out)) !! admin_uuid aw0 = Some 0%float.
Proof. repeat split; vm_compute; reflexivity. Qed.
